(** * CaptionsAI: trending-hashtag aggregation and hashtag synthesis

    A shallow embedding of [captionsai/trending_hashtag_fetcher.py] and
    [captionsai/hashtag_generator.py], with [categorize_content] of
    [captionsai/content_categorizer.py] and [get_trending_insights] of
    [captionsai/enhanced_main.py].

    Conventions of the embedding.
    - Python [str] is [string], one character per code point: the text of
      the model is that of code points below 256 (ASCII and Latin-1), and
      the [str] methods used by the code ([lower], [isalnum], [strip],
      [startswith], [replace]) are those of CPython on such text.
    - Python [int] is [Z]; [float] quantities (clock readings, growth
      rates, scores) are exact rationals [Q].
    - The fetcher's attributes ([cache], [blocked_sources]) together with
      the bookkeeping of its outside world (the clock reads, and the URLs
      handed to [requests.get]) form the [state] threaded through every
      call. The traffic of the image analyzer is not part of it.
    - The outside world is a pair of records of oracles: [world] for the
      fetcher ([time.time], [time.strftime], and [requests.get] followed by
      the HTML selection) and [collaborators] for the generator (the image
      analyzer and [json.loads]).
    - A Python exception is a value [exn]; code that may raise runs in the
      monad [M]. Exception messages are those of CPython 3.11. The imports
      made inside function bodies ([bs4], [json], [re]) are taken to
      succeed. *)

From Stdlib Require Import Ascii String QArith Qminmax Qround.
From stdpp Require Import gmap strings list sorting.
From Stdlib Require Import Lia Lqa.

Local Open Scope string_scope.
Local Open Scope list_scope.
Local Open Scope Z_scope.

(** ** Python text primitives *)

Module PyStr.

(** The code point of a character. *)
Definition code (c : ascii) : nat := nat_of_ascii c.

Definition between (lo hi : nat) (c : ascii) : bool :=
  (lo <=? code c)%nat && (code c <=? hi)%nat.

Definition is_upper (c : ascii) : bool := between 65 90 c.
Definition is_lower (c : ascii) : bool := between 97 122 c.
Definition is_digit (c : ascii) : bool := between 48 57 c.

(** the letters and digits of ASCII, [[A-Za-z0-9]] *)
Definition is_ascii_alnum (c : ascii) : bool := is_upper c || is_lower c || is_digit c.

(** [c.isalnum()]: beyond ASCII, the letters U+00C0-U+00FF (all but the
    signs U+00D7 and U+00F7), the ordinal indicators U+00AA and U+00BA, the
    micro sign U+00B5, the superscript digits U+00B2, U+00B3 and U+00B9, and
    the fractions U+00BC-U+00BE *)
Definition isalnum (c : ascii) : bool :=
  is_ascii_alnum c
  || (code c =? 170)%nat || between 178 179 c || (code c =? 181)%nat
  || between 185 186 c || between 188 190 c
  || between 192 214 c || between 216 246 c || between 248 255 c.

(** the class [[A-Za-z0-9_]] of the fallback pattern *)
Definition is_word (c : ascii) : bool := is_ascii_alnum c || (code c =? 95)%nat.

(** [c.isspace()]: tab, newline, vertical tab, form feed, carriage return,
    the four separators 0x1c-0x1f, space, next line U+0085 and the
    no-break space U+00A0 *)
Definition isspace (c : ascii) : bool :=
  between 9 13 c || between 28 32 c || (code c =? 133)%nat || (code c =? 160)%nat.

(** [c.lower()]: the capitals of ASCII and those of Latin-1, U+00C0-U+00DE
    without the sign U+00D7, lie 32 below their small letters. *)
Definition lower_char (c : ascii) : ascii :=
  if is_upper c || between 192 214 c || between 216 222 c
  then ascii_of_nat (code c + 32) else c.

Definition hash : ascii := ascii_of_nat 35.
Definition slash : ascii := ascii_of_nat 47.

Definition chars (s : string) : list ascii := list_ascii_of_string s.
Definition of_chars (l : list ascii) : string := string_of_list_ascii l.

(** [s.lower()] *)
Fixpoint lower (s : string) : string :=
  match s with
  | EmptyString => EmptyString
  | String c r => String (lower_char c) (lower r)
  end.

(** [s.startswith(p)] *)
Fixpoint startswith (p s : string) : bool :=
  match p, s with
  | EmptyString, _ => true
  | String a p', String b s' => if decide (a = b) then startswith p' s' else false
  | String _ _, EmptyString => false
  end.

(** [''.join(c for c in s if keep(c))] *)
Fixpoint filter_chars (keep : ascii -> bool) (s : string) : string :=
  match s with
  | EmptyString => EmptyString
  | String c r => if keep c then String c (filter_chars keep r) else filter_chars keep r
  end.

Fixpoint lstrip (s : string) : string :=
  match s with
  | EmptyString => EmptyString
  | String c r => if isspace c then lstrip r else s
  end.

Definition rev_string (s : string) : string := of_chars (rev (chars s)).

(** [s.strip()] *)
Definition strip (s : string) : string := rev_string (lstrip (rev_string (lstrip s))).

Fixpoint drop_chars (n : nat) (s : string) : string :=
  match n, s with
  | O, _ => s
  | S n', String _ r => drop_chars n' r
  | S _, EmptyString => EmptyString
  end.

(** [s.replace(old, "")] for a non-empty [old]: occurrences are removed left
    to right without overlap; [skip] counts the characters of the current
    occurrence still to be dropped. *)
Fixpoint remove_from (old : string) (skip : nat) (s : string) : string :=
  match s with
  | EmptyString => EmptyString
  | String c r =>
      match skip with
      | S k => remove_from old k r
      | O => if startswith old s then remove_from old (String.length old - 1) r
             else String c (remove_from old O r)
      end
  end.

Definition remove_all (old s : string) : string := remove_from old O s.

End PyStr.

(** ** Exceptions and the effect monad *)

(** A raised exception: its class name and [str(e)]. *)
Inductive exn : Type := Exn (cls : string) (msg : string).

Definition exn_str (e : exn) : string := match e with Exn _ m => m end.

Inductive result (A : Type) : Type :=
| Ok (a : A)
| Raise (e : exn).
Arguments Ok {A} a.
Arguments Raise {A} e.

(** [l[:n]] for a Python [int] bound: a negative bound counts from the end. *)
Definition slice_to {A} (n : Z) (l : list A) : list A :=
  if (0 <=? n)%Z then take (Z.to_nat n) l
  else take (Z.to_nat (Z.of_nat (length l) + n)) l.

(** truth value of a list: [bool(l)] *)
Definition truthy {A} (l : list A) : bool :=
  match l with [] => false | _ :: _ => true end.

(** [l[a:b]] for non-negative literal bounds *)
Definition slice {A} (a b : nat) (l : list A) : list A := take (b - a) (drop a l).

(** ** Data model of the fetcher *)

Record TrendingHashtagData : Type := mkTHD {
  hashtag : string;
  th_platform : string;
  engagement_score : option Z;
  growth_rate : option Q;
  th_category : option string;
  last_updated : option string
}.

Record TrendingResult : Type := mkTR {
  tr_hashtags : list TrendingHashtagData;
  tr_source : string;
  tr_category : string;
  tr_platform : string;
  tr_success : bool;
  tr_error : option string
}.

(** The dict stored under ["data"] and the cache slot around it. *)
Record cache_data : Type := mkCD {
  cd_hashtags : list TrendingHashtagData;
  cd_category : string;
  cd_platform : string
}.

Record cache_entry : Type := mkCE {
  ce_data : cache_data;
  ce_timestamp : Q
}.

(** What [requests.get], [raise_for_status], [BeautifulSoup] and [select]
    make of one request: the [get_text()] of the selected elements in
    document order, or the exception that left the [try] block. An
    [HTTPError] carries [e.response.status_code], absent when the error has
    no response attached. *)
Inductive http_outcome : Type :=
| Page (texts : list string)
| HTTPError (status : option Z)
| RequestException (msg : string)
| OtherException (msg : string).

(** The outside world of the fetcher: the [k]-th clock read and the answer
    to the [k]-th request. *)
Record world : Type := mkWorld {
  time_time : nat -> Q;
  time_strftime : nat -> string;
  requests_get : nat -> string -> http_outcome
}.

(** [self.cache], [self.blocked_sources], and the history of the world. *)
Record state : Type := mkState {
  cache : gmap string cache_entry;
  blocked_sources : gset string;
  ticks : nat;
  sent : list string
}.

Definition initial_state : state := mkState ∅ ∅ O [].

Definition M (A : Type) : Type := state -> result A * state.

Definition ret {A} (a : A) : M A := fun s => (Ok a, s).
Definition raise {A} (e : exn) : M A := fun s => (Raise e, s).
Definition bind {A B} (m : M A) (k : A -> M B) : M B :=
  fun s => match m s with
           | (Ok a, s') => k a s'
           | (Raise e, s') => (Raise e, s')
           end.

(** [try: m except Exception as e: h e] *)
Definition try_except {A} (m : M A) (h : exn -> M A) : M A :=
  fun s => match m s with
           | (Ok a, s') => (Ok a, s')
           | (Raise e, s') => h e s'
           end.

Definition rbind {A B} (r : result A) (k : A -> result B) : result B :=
  match r with
  | Ok a => k a
  | Raise e => Raise e
  end.

Definition lift {A} (r : result A) : M A := fun s => (r, s).

Declare Scope py_scope.
Delimit Scope py_scope with py.
Notation "x <- m ;; k" := (bind m (fun x => k))
  (at level 100, m at next level, right associativity) : py_scope.
Notation "m ;;; k" := (bind m (fun _ => k))
  (at level 100, right associativity) : py_scope.
Notation "x <-? r ;; k" := (rbind r (fun x => k))
  (at level 100, r at next level, right associativity) : py_scope.
Local Open Scope py_scope.

Module Fetcher.

Definition cache_duration : Q := 3600 # 1.

Section WithWorld.
Variable w : world.

(** *** Clock and network *)

Definition now : M Q :=
  fun s => (Ok (time_time w (ticks s)),
            mkState (cache s) (blocked_sources s) (S (ticks s)) (sent s)).

Definition strftime : M string :=
  fun s => (Ok (time_strftime w (ticks s)),
            mkState (cache s) (blocked_sources s) (S (ticks s)) (sent s)).

Definition http (url : string) : M http_outcome :=
  fun s => (Ok (requests_get w (length (sent s)) url),
            mkState (cache s) (blocked_sources s) (ticks s) (sent s ++ [url])).

Definition is_blocked (host : string) : M bool :=
  fun s => (Ok (bool_decide (host ∈ blocked_sources s)), s).

Definition block (host : string) : M unit :=
  fun s => (Ok tt, mkState (cache s) ({[host]} ∪ blocked_sources s) (ticks s) (sent s)).

(** *** Cache *)

Definition _is_cache_valid (cache_key : string) : M bool :=
  fun s => match cache s !! cache_key with
           | None => (Ok false, s)
           | Some e => (t <- now ;;
                        ret (if Qlt_le_dec (t - ce_timestamp e) cache_duration
                             then true else false)) s
           end.

Definition _get_from_cache (cache_key : string) : M (option cache_data) :=
  valid <- _is_cache_valid cache_key ;;
  if (valid : bool)
  then fun s => match cache s !! cache_key with
                | Some e => (Ok (Some (ce_data e)), s)
                | None => (Raise (Exn "KeyError" cache_key), s)
                end
  else ret None.

Definition _save_to_cache (cache_key : string) (data : cache_data) : M unit :=
  t <- now ;;
  fun s => (Ok tt, mkState (<[cache_key := mkCE data t]> (cache s))
                           (blocked_sources s) (ticks s) (sent s)).

(** *** The curated table *)

Definition trending_data : list (string * list (string * list string)) :=
  [ ("food",
      [ ("instagram", ["#foodie2025"; "#healthyrecipes"; "#plantbasedmeals"; "#foodphotography"; "#homecooking"]);
        ("facebook", ["#familymeals"; "#cookingathome"; "#healthyliving"; "#foodblog"]) ]);
    ("travel",
      [ ("instagram", ["#wanderlust2025"; "#solotravel"; "#sustainabletravel"; "#hiddenplaces"; "#localcuisine"]);
        ("facebook", ["#familytravel"; "#roadtrip"; "#vacation2025"; "#traveltips"]) ]);
    ("fashion",
      [ ("instagram", ["#ootd2025"; "#sustainablefashion"; "#vintagestyle"; "#thriftfinds"; "#styleinspo"]);
        ("facebook", ["#fashionadvice"; "#styletrends"; "#outfitideas"; "#fashion2025"]) ]);
    ("fitness",
      [ ("instagram", ["#fitnessjourney"; "#homeworkout"; "#mentalhealthfitness"; "#strongwomen"; "#fitnessmotivation"]);
        ("facebook", ["#healthylifestyle"; "#workoutmotivation"; "#wellness"; "#fitnessgoals"]) ]);
    ("business",
      [ ("instagram", ["#entrepreneur2025"; "#businessowner"; "#digitalnomad"; "#hustle"; "#mindset"]);
        ("facebook", ["#smallbusiness"; "#entrepreneurship"; "#businesstips"; "#success"]) ]);
    ("events",
      [ ("instagram", ["#celebration2025"; "#festivalstoday"; "#culturalheritage"; "#traditionalmeets"; "#festivalvibes";
                       "#spiritualjourney"; "#communitylove"; "#heritagepride"; "#festivemood"; "#sacredmoments"]);
        ("facebook", ["#familyfestival"; "#culturalevent"; "#traditioncelebration"; "#spiritualgathering"; "#festivalmemories"]) ]);
    ("lifestyle",
      [ ("instagram", ["#mindfuliving"; "#dailyinspo"; "#gratitudepractice"; "#selfcaresunday"; "#positivevibes"]);
        ("facebook", ["#lifelessons"; "#inspiration"; "#motivation"; "#wellbeing"; "#mindfulness"]) ]);
    ("art",
      [ ("instagram", ["#artistsoninstagram"; "#creativeminds"; "#artoftheday"; "#digitalart2025"; "#arttherapy"]);
        ("facebook", ["#localartists"; "#artcommunity"; "#creativeexpression"; "#artlovers"; "#inspiration"]) ]) ].

(** [d.get(k, default)] on a dict literal written as its item list *)
Fixpoint dict_get {V} (k : string) (default : V) (d : list (string * V)) : V :=
  match d with
  | [] => default
  | (k', v) :: r => if decide (k = k') then v else dict_get k default r
  end.

Definition hashtags_list (category platform : string) : list string :=
  dict_get platform [] (dict_get category [] trending_data).

(** The loop of [_get_category_trending_hashtags] from index [i] on. *)
Fixpoint category_records (category platform : string) (i : Z) (tags : list string)
  : M (list TrendingHashtagData) :=
  match tags with
  | [] => ret []
  | t :: rest =>
      stamp <- strftime ;;
      more <- category_records category platform (i + 1) rest ;;
      ret (mkTHD t platform (Some (800 - i * 50))
                 (Some ((12 # 100) - inject_Z i * (15 # 1000))%Q)
                 (Some category) (Some stamp) :: more)
  end.

Definition _get_category_trending_hashtags (category platform : string)
  : M (list TrendingHashtagData) :=
  category_records category platform 0 (hashtags_list category platform).

(** [int(x)] of a rational: truncation toward zero *)
Definition int_of_Q (q : Q) : Z := Z.quot (Qnum q) (Z.pos (Qden q)).

(** One round of the adjusting loop of [_get_simulated_trending_data]. *)
Definition adjust (multiplier : Q) (suffix : string) (h : TrendingHashtagData)
  : TrendingHashtagData :=
  let score :=
    match engagement_score h with
    | Some s => if decide (s = 0) then Some s
                else Some (int_of_Q (inject_Z s * multiplier)%Q)
    | None => None
    end in
  let tag := if decide (suffix = "") then hashtag h else hashtag h +:+ suffix in
  mkTHD tag (th_platform h) score (growth_rate h) (th_category h) (last_updated h).

Definition _get_simulated_trending_data (category platform source : string)
  : M (list TrendingHashtagData) :=
  let '(multiplier, suffix) :=
    if decide (source = "ritetag") then ((12 # 10)%Q, "RT") else ((1 # 1)%Q, "") in
  base_hashtags <- _get_category_trending_hashtags category platform ;;
  ret (adjust multiplier suffix <$> base_hashtags).

(** *** Deduplication *)

(** [x.engagement_score or 0] *)
Definition score_key (x : TrendingHashtagData) : Z :=
  match engagement_score x with
  | Some s => s
  | None => 0
  end.

(** [sorted(hashtags, key=..., reverse=True)]: a stable sort, so an element
    goes in front of the first one that does not beat it. *)
Fixpoint insert_desc (x : TrendingHashtagData) (l : list TrendingHashtagData)
  : list TrendingHashtagData :=
  match l with
  | [] => [x]
  | y :: r => if (score_key x <? score_key y)%Z then y :: insert_desc x r else x :: y :: r
  end.

Definition sorted_desc (l : list TrendingHashtagData) : list TrendingHashtagData :=
  foldr insert_desc [] l.

(** The loop over [sorted_hashtags] with its [seen] set. *)
Fixpoint unique_from (seen : gset string) (l : list TrendingHashtagData)
  : list TrendingHashtagData :=
  match l with
  | [] => []
  | h :: r =>
      let hashtag_lower := PyStr.lower (hashtag h) in
      if decide (hashtag_lower ∈ seen) then unique_from seen r
      else h :: unique_from ({[hashtag_lower]} ∪ seen) r
  end.

Definition _remove_duplicate_hashtags (hashtags : list TrendingHashtagData)
  : list TrendingHashtagData :=
  unique_from ∅ (sorted_desc hashtags).

(** *** Scraping *)

Definition hex_digit (n : nat) : ascii :=
  if (n <? 10)%nat then ascii_of_nat (48 + n) else ascii_of_nat (55 + n).

(** [s.encode('utf-8')]: a code point from 128 on takes two bytes. *)
Fixpoint utf8 (s : string) : string :=
  match s with
  | EmptyString => EmptyString
  | String c r =>
      let n := PyStr.code c in
      if (n <? 128)%nat then String c (utf8 r)
      else String (ascii_of_nat (192 + n / 64))
             (String (ascii_of_nat (128 + n mod 64)) (utf8 r))
  end.

(** The quoting of the encoded bytes: the letters and digits of ASCII and
    [_.-~] stay, a space becomes [+], any other byte its [%XX] escape. *)
Fixpoint quote_bytes (s : string) : string :=
  match s with
  | EmptyString => EmptyString
  | String c r =>
      let n := PyStr.code c in
      if PyStr.is_ascii_alnum c
         || (n =? 95)%nat || (n =? 46)%nat || (n =? 45)%nat || (n =? 126)%nat
      then String c (quote_bytes r)
      else if (n =? 32)%nat then String (ascii_of_nat 43) (quote_bytes r)
      else String (ascii_of_nat 37)
             (String (hex_digit (n / 16)) (String (hex_digit (n mod 16)) (quote_bytes r)))
  end.

(** [urllib.parse.quote_plus] *)
Definition quote_plus (s : string) : string := quote_bytes (utf8 s).

Definition no_response : exn :=
  Exn "AttributeError" "'NoneType' object has no attribute 'status_code'".

(** The loop of [_scrape_instagram_trends] over the selected elements. *)
Fixpoint instagram_records (category : string) (i : Z) (elements : list string)
  : M (list TrendingHashtagData) :=
  match elements with
  | [] => ret []
  | element :: rest =>
      let hashtag_text := PyStr.strip element in
      if PyStr.startswith "#" hashtag_text then
        stamp <- strftime ;;
        more <- instagram_records category (i + 1) rest ;;
        ret (mkTHD hashtag_text "instagram" (Some (1000 - i * 50))
                   (Some ((15 # 100) - inject_Z i * (5 # 1000))%Q)
                   (Some category) (Some stamp) :: more)
      else instagram_records category (i + 1) rest
  end.

Definition _scrape_instagram_trends (category : string) : M (list TrendingHashtagData) :=
  let source_name := "top-hashtags.com" in
  blocked <- is_blocked source_name ;;
  if (blocked : bool) then ret []
  else
    let encoded_category := quote_plus (PyStr.lower category) in
    let url := "https://top-hashtags.com/instagram/" +:+ encoded_category +:+ "/" in
    response <- http url ;;
    match response with
    | Page elements => instagram_records category 0 (take 20 elements)
    | HTTPError (Some status_code) =>
        if decide (status_code = 403) then (block source_name ;;; ret []) else ret []
    | HTTPError None => raise no_response
    | RequestException _ => ret []
    | OtherException _ => ret []
    end.

(** The element loop shared by the two sites of [_scrape_trend_websites];
    they differ in the top score [base] and the top growth rate [growth]. *)
Fixpoint site_records (category platform : string) (base : Z) (growth : Q) (i : Z)
    (elements : list string) : M (list TrendingHashtagData) :=
  match elements with
  | [] => ret []
  | element :: rest =>
      let hashtag_text := PyStr.strip element in
      let hashtag_text :=
        if PyStr.startswith "#" hashtag_text then hashtag_text else "#" +:+ hashtag_text in
      stamp <- strftime ;;
      more <- site_records category platform base growth (i + 1) rest ;;
      ret (mkTHD hashtag_text platform (Some (base - i * 50))
                 (Some (growth - inject_Z i * (5 # 1000))%Q)
                 (Some category) (Some stamp) :: more)
  end.

(** One [try] block of [_scrape_trend_websites] with its handlers. *)
Definition scrape_site (host url category platform : string) (base : Z) (growth : Q)
    (limit : nat) : M (list TrendingHashtagData) :=
  response <- http url ;;
  match response with
  | Page elements => site_records category platform base growth 0 (take limit elements)
  | HTTPError (Some status_code) =>
      if decide (status_code = 403) then (block host ;;; ret []) else ret []
  | HTTPError None => raise no_response
  | RequestException _ => ret []
  | OtherException _ => ret []
  end.

Definition _scrape_trend_websites (category platform : string)
  : M (list TrendingHashtagData) :=
  let encoded_category := quote_plus (PyStr.lower category) in
  blocked1 <- is_blocked "all-hashtag.com" ;;
  hashtags <-
    (if (blocked1 : bool) then ret []
     else scrape_site "all-hashtag.com"
            ("https://all-hashtag.com/top-hashtags.php?keyword=" +:+ encoded_category)
            category platform 900 (12 # 100)%Q 15) ;;
  blocked2 <- is_blocked "hashtagsforlikes.co" ;;
  hashtags <-
    (if (length hashtags <? 5)%nat && negb blocked2 then
       more <- scrape_site "hashtagsforlikes.co"
                 ("https://hashtagsforlikes.co/hashtag/" +:+ encoded_category)
                 category platform 800 (10 # 100)%Q 10 ;;
       ret (hashtags ++ more)
     else ret hashtags) ;;
  if (length hashtags <? 5)%nat then
    category_trends <- _get_category_trending_hashtags category platform ;;
    ret (hashtags ++ category_trends)
  else ret hashtags.

(** *** Providers *)

Definition cache_key (provider category platform : string) : string :=
  provider +:+ "_" +:+ category +:+ "_" +:+ platform.

Definition fetch_trending_from_hashtagify (category platform : string) : M TrendingResult :=
  try_except
    (let cache_key := cache_key "hashtagify" category platform in
     cached_data <- _get_from_cache cache_key ;;
     match cached_data with
     | Some cd => ret (mkTR (cd_hashtags cd) "hashtagify_cache" category platform true None)
     | None =>
         trending_hashtags <- _get_simulated_trending_data category platform "general" ;;
         _save_to_cache cache_key (mkCD trending_hashtags category platform) ;;;
         ret (mkTR trending_hashtags "hashtagify_simulated" category platform true None)
     end)
    (fun e => ret (mkTR [] "hashtagify" category platform false (Some (exn_str e)))).

Definition fetch_trending_from_ritetag (category platform : string) : M TrendingResult :=
  try_except
    (let cache_key := cache_key "ritetag" category platform in
     cached_data <- _get_from_cache cache_key ;;
     match cached_data with
     | Some cd => ret (mkTR (cd_hashtags cd) "ritetag_cache" category platform true None)
     | None =>
         trending_hashtags <- _get_simulated_trending_data category platform "ritetag" ;;
         _save_to_cache cache_key (mkCD trending_hashtags category platform) ;;;
         ret (mkTR trending_hashtags "ritetag_simulated" category platform true None)
     end)
    (fun e => ret (mkTR [] "ritetag" category platform false (Some (exn_str e)))).

Definition fetch_trending_from_web_scraping (category platform : string) : M TrendingResult :=
  try_except
    (let cache_key := cache_key "webscrape" category platform in
     cached_data <- _get_from_cache cache_key ;;
     match cached_data with
     | Some cd => ret (mkTR (cd_hashtags cd) "webscrape_cache" category platform true None)
     | None =>
         trending_hashtags <-
           try_except
             (hashtags <- (if decide (platform = "instagram")
                           then _scrape_instagram_trends category else ret []) ;;
              hashtags_from_trend_sites <- _scrape_trend_websites category platform ;;
              ret (hashtags ++ hashtags_from_trend_sites))
             (fun _ => _get_simulated_trending_data category platform "webscrape_fallback") ;;
         trending_hashtags <-
           (match trending_hashtags with
            | [] => _get_simulated_trending_data category platform "webscrape_fallback"
            | _ :: _ => ret trending_hashtags
            end) ;;
         let unique_hashtags := _remove_duplicate_hashtags trending_hashtags in
         _save_to_cache cache_key (mkCD (take 20 unique_hashtags) category platform) ;;;
         ret (mkTR (take 20 unique_hashtags) "web_scraping_with_fallback" category platform
                   true None)
     end)
    (fun e =>
       try_except
         (trending_hashtags <- _get_simulated_trending_data category platform "error_fallback" ;;
          ret (mkTR trending_hashtags "fallback_simulated" category platform true None))
         (fun _ => ret (mkTR [] "web_scraping" category platform false (Some (exn_str e))))).

(** *** Aggregator *)

(** [sep.join(l)] *)
Fixpoint join (sep : string) (l : list string) : string :=
  match l with
  | [] => ""
  | [x] => x
  | x :: r => x +:+ sep +:+ join sep r
  end.

Definition sources : list (string * (string -> string -> M TrendingResult)) :=
  [ ("web_scraping", fetch_trending_from_web_scraping);
    ("hashtagify", fetch_trending_from_hashtagify);
    ("ritetag", fetch_trending_from_ritetag) ].

(** The [for source_name, fetch_method in sources] loop; the accumulator is
    [(all_hashtags, sources_tried)]. *)
Fixpoint try_sources (srcs : list (string * (string -> string -> M TrendingResult)))
    (category platform : string) (acc : list TrendingHashtagData * list string)
  : M (list TrendingHashtagData * list string) :=
  match srcs with
  | [] => ret acc
  | (source_name, fetch_method) :: rest =>
      acc' <-
        try_except
          (result <- fetch_method category platform ;;
           let sources_tried := acc.2 ++ [source_name] in
           if tr_success result && truthy (tr_hashtags result)
           then ret (acc.1 ++ tr_hashtags result, sources_tried)
           else ret (acc.1, sources_tried))
          (fun _ => ret acc) ;;
      try_sources rest category platform acc'
  end.

Definition get_trending_hashtags (category platform : string) (max_count : Z)
  : M TrendingResult :=
  acc <- try_sources sources category platform ([], []) ;;
  let all_hashtags := acc.1 in
  let sources_tried := acc.2 in
  match all_hashtags with
  | [] => ret (mkTR [] (join "," sources_tried) category platform false
                    (Some "No trending hashtags found from any source"))
  | _ :: _ =>
      let unique_hashtags := _remove_duplicate_hashtags all_hashtags in
      let final_hashtags := slice_to max_count unique_hashtags in
      ret (mkTR final_hashtags (join "," sources_tried) category platform true None)
  end.

End WithWorld.
End Fetcher.

(** ** The hashtag generator *)

(** What [json.loads] returns. *)
#[local] Unset Elimination Schemes.
Inductive json : Type :=
| JNull
| JBool (b : bool)
| JInt (n : Z)
| JFloat (q : Q)
| JStr (s : string)
| JArr (l : list json)
| JObj (items : list (string * json)).
#[local] Set Elimination Schemes.

(** A value held under a key of the parsed response once the list values
    have been cleaned: a list of tags, or whatever else the JSON had there. *)
Inductive pyval : Type :=
| PList (tags : list string)
| PStr (s : string)
| PDict (items : list (string * json))
| PNone
| PBool (b : bool)
| PInt (n : Z)
| PFloat (q : Q).

(** What [_parse_ai_hashtag_response] returns: the dict of a JSON object
    with its list values cleaned, or a JSON text that is no object and that
    the loop over its keys has let through -- the empty string, or an
    array. *)
Inductive parsed : Type :=
| Dict (items : list (string * pyval))
| NoDict (j : json).

Record CategoryResult : Type := mkCategoryResult {
  primary_category : string;
  secondary_categories : list string;
  confidence_score : Q;
  description : string;
  cr_success : bool;
  cr_error : option string
}.

Record HashtagRequest : Type := mkRequest {
  image_path : string;
  category_result : option CategoryResult;
  platform : string;
  max_hashtags : Z;
  include_trending : bool;
  include_niche : bool;
  include_branded : bool;
  brand_name : option string
}.

Record EnhancedHashtagResult : Type := mkResult {
  hashtags : list string;
  trending_hashtags : list string;
  niche_hashtags : pyval;
  branded_hashtags : pyval;
  ai_generated_hashtags : list pyval;
  real_trending_hashtags : list TrendingHashtagData;
  res_platform : string;
  total_count : Z;
  engagement_potential : option Q;
  trending_score : option Q;
  success : bool;
  error : option string
}.

(** The dict returned by [analyze_image]; [ai_error = None] stands for a
    dict without the key ["error"], [ai_content = None] for a [None]
    content. *)
Record ai_response : Type := mkAI {
  ai_success : bool;
  ai_content : option string;
  ai_error : option string
}.

(** The two prompts sent to the analyzer, named by what they are built
    from; their wording is of no consequence here. *)
Inductive prompt : Type :=
| DescriptionPrompt
| HashtagPrompt (request : HashtagRequest) (image_description : option string)
                (trending_hashtags : list TrendingHashtagData).

(** The collaborators of the generator. *)
Record collaborators : Type := mkCollab {
  analyze_image : string -> prompt -> result ai_response;
  json_loads : string -> option json
}.

Module Generator.

(** *** Cleaning and parsing *)

Definition type_name (j : json) : string :=
  match j with
  | JNull => "NoneType"
  | JBool _ => "bool"
  | JInt _ => "int"
  | JFloat _ => "float"
  | JStr _ => "str"
  | JArr _ => "list"
  | JObj _ => "dict"
  end.

Definition no_attribute (ty attr : string) : exn :=
  Exn "AttributeError" ("'" +:+ ty +:+ "' object has no attribute '" +:+ attr +:+ "'").

(** One round of the loop of [_clean_hashtags] on a [str]: the cleaned tag
    when it is kept. *)
Definition clean_one (hashtag : string) : option string :=
  let hashtag := if PyStr.startswith "#" hashtag then hashtag else "#" +:+ hashtag in
  let hashtag :=
    PyStr.filter_chars (fun c => PyStr.isalnum c || bool_decide (c = PyStr.hash)) hashtag in
  if (2 <? String.length hashtag)%nat && (String.length hashtag <=? 100)%nat
  then Some hashtag else None.

Fixpoint _clean_hashtags (hashtags : list json) : result (list string) :=
  match hashtags with
  | [] => Ok []
  | JStr hashtag :: rest =>
      match _clean_hashtags rest with
      | Ok cleaned =>
          Ok (match clean_one hashtag with
              | Some h => h :: cleaned
              | None => cleaned
              end)
      | Raise e => Raise e
      end
  | j :: _ => Raise (no_attribute (type_name j) "startswith")
  end.

(** [re.findall(r'#[A-Za-z0-9_]+', text)]: [cur] is the body matched so far
    after a [#], when there is one. *)
Fixpoint findall_from (cur : option string) (text : string) : list string :=
  let emit (k : list string) : list string :=
    match cur with
    | Some (String c b) => ("#" +:+ String c b) :: k
    | _ => k
    end in
  match text with
  | EmptyString => emit []
  | String c rest =>
      match cur with
      | Some body =>
          if PyStr.is_word c then findall_from (Some (body +:+ String c "")) rest
          else emit (findall_from (if decide (c = PyStr.hash) then Some "" else None) rest)
      | None => findall_from (if decide (c = PyStr.hash) then Some "" else None) rest
      end
  end.

(** The order-preserving, case-insensitive duplicate removal written out in
    [_extract_hashtags_from_text] and again in [generate_enhanced_hashtags]. *)
Fixpoint unique_from (seen : gset string) (l : list string) : list string :=
  match l with
  | [] => []
  | hashtag :: rest =>
      if decide (PyStr.lower hashtag ∈ seen) then unique_from seen rest
      else hashtag :: unique_from ({[PyStr.lower hashtag]} ∪ seen) rest
  end.

Definition _extract_hashtags_from_text (text : string) : list string :=
  unique_from ∅ (findall_from None text).

(** The cleaning loop over the keys of the parsed dict. *)
Fixpoint clean_items (items : list (string * json)) : result (list (string * pyval)) :=
  match items with
  | [] => Ok []
  | (key, v) :: rest =>
      let cleaned : result pyval :=
        match v with
        | JArr l => match _clean_hashtags l with
                    | Ok tags => Ok (PList tags)
                    | Raise e => Raise e
                    end
        | JStr s => Ok (PStr s)
        | JObj d => Ok (PDict d)
        | JNull => Ok PNone
        | JBool b => Ok (PBool b)
        | JInt n => Ok (PInt n)
        | JFloat q => Ok (PFloat q)
        end in
      match cleaned with
      | Raise e => Raise e
      | Ok v' => match clean_items rest with
                 | Ok rest' => Ok ((key, v') :: rest')
                 | Raise e => Raise e
                 end
      end
  end.

Definition not_iterable (ty : string) : exn :=
  Exn "TypeError" ("'" +:+ ty +:+ "' object is not iterable").

(** [data[key]] on a list: the position that [key] names. A [bool] is an
    [int]; an [int] outside the range of [Py_ssize_t] (64 bits) is refused
    before the bounds are looked at. *)
Definition list_position (data : list json) (key : json) : result nat :=
  let at_int (n : Z) : result nat :=
    if (n <? - 2 ^ 63) || (2 ^ 63 <=? n)
    then Raise (Exn "IndexError" "cannot fit 'int' into an index-sized integer")
    else
      let i := if n <? 0 then n + Z.of_nat (length data) else n in
      if (0 <=? i) && (i <? Z.of_nat (length data)) then Ok (Z.to_nat i)
      else Raise (Exn "IndexError" "list index out of range") in
  match key with
  | JInt n => at_int n
  | JBool b => at_int (if b then 1 else 0)
  | _ => Raise (Exn "TypeError"
                    ("list indices must be integers or slices, not " +:+ type_name key))
  end.

(** The cleaning loop over a JSON array: [key] runs through the elements,
    the list being read anew at each round, and [data[key]] is cleaned and
    stored back when it is a list. [n] rounds are left, [i] is the position
    of the next element. *)
Fixpoint clean_list_from (n i : nat) (data : list json) : result (list json) :=
  match n with
  | O => Ok data
  | S n' =>
      match data !! i with
      | None => Ok data
      | Some key =>
          match list_position data key with
          | Raise e => Raise e
          | Ok k =>
              match data !! k with
              | Some (JArr l) =>
                  match _clean_hashtags l with
                  | Raise e => Raise e
                  | Ok tags => clean_list_from n' (S i) (<[k := JArr (JStr <$> tags)]> data)
                  end
              | _ => clean_list_from n' (S i) data
              end
          end
      end
  end.

(** The cleaning loop over what [json.loads] returned. A JSON object comes
    back as the dict with its list values cleaned. Of the other JSON texts
    only the empty string and an array whose elements all index the array
    without naming a list get through the loop, to fail at the [.get] of
    [_combine_hashtag_sources]. *)
Definition clean_data (data : json) : result parsed :=
  match data with
  | JObj items =>
      match clean_items items with
      | Ok items => Ok (Dict items)
      | Raise e => Raise e
      end
  | JArr l =>
      match clean_list_from (length l) 0 l with
      | Ok l => Ok (NoDict (JArr l))
      | Raise e => Raise e
      end
  | JStr EmptyString => Ok (NoDict data)
  | JStr (String _ _) => Raise (Exn "TypeError" "string indices must be integers, not 'str'")
  | JNull | JBool _ | JInt _ | JFloat _ => Raise (not_iterable (type_name data))
  end.

Definition strip_fences (response_text : string) : string :=
  let response_text := PyStr.strip response_text in
  if PyStr.startswith "```json" response_text then
    PyStr.strip (PyStr.remove_all "```" (PyStr.remove_all "```json" response_text))
  else if PyStr.startswith "```" response_text then
    PyStr.strip (PyStr.remove_all "```" response_text)
  else response_text.

Section WithCollaborators.
Variable c : collaborators.

Definition _parse_ai_hashtag_response (response_text : option string) : result parsed :=
  match response_text with
  | None => Raise (no_attribute "NoneType" "strip")
  | Some response_text =>
      let response_text := strip_fences response_text in
      match json_loads c response_text with
      | Some data => clean_data data
      | None =>
          let hashtags := _extract_hashtags_from_text response_text in
          Ok (Dict [ ("trending_hashtags", PList (slice 0 3 hashtags));
                     ("popular_hashtags", PList (slice 3 8 hashtags));
                     ("niche_hashtags", PList (slice 8 12 hashtags));
                     ("branded_hashtags", PList (slice 12 15 hashtags)) ])
      end
  end.

(** *** Merging the sources *)

Record combined : Type := mkCombined {
  cb_trending : list string;
  cb_niche : pyval;
  cb_popular : pyval;
  cb_branded : pyval
}.

(** [d.get(key, [])] *)
Fixpoint get_or_empty (key : string) (d : list (string * pyval)) : pyval :=
  match d with
  | [] => PList []
  | (k, v) :: rest => if decide (key = k) then v else get_or_empty key rest
  end.

(** The value under [key] replaced where the key exists: the effect, seen
    through the dict, of appending to the list object it holds. *)
Fixpoint set_existing (key : string) (v : pyval) (d : list (string * pyval))
  : list (string * pyval) :=
  match d with
  | [] => []
  | (k, v0) :: rest =>
      if decide (key = k) then (k, v) :: rest else (k, v0) :: set_existing key v rest
  end.

Definition no_len (ty : string) : exn :=
  Exn "TypeError" ("object of type '" +:+ ty +:+ "' has no len()").

(** [len(v)] *)
Definition py_len (v : pyval) : result nat :=
  match v with
  | PList l => Ok (length l)
  | PStr s => Ok (String.length s)
  | PDict d => Ok (length d)
  | PNone => Raise (no_len "NoneType")
  | PBool _ => Raise (no_len "bool")
  | PInt _ => Raise (no_len "int")
  | PFloat _ => Raise (no_len "float")
  end.

(** [sub in s] on strings *)
Fixpoint contains (sub s : string) : bool :=
  PyStr.startswith sub s ||
  match s with
  | EmptyString => false
  | String _ r => contains sub r
  end.

(** The backfilling loop: [if hashtag not in popular: popular.append(hashtag)]
    for each [hashtag] of [tags]. *)
Fixpoint backfill (tags : list string) (popular : pyval) : result pyval :=
  match tags with
  | [] => Ok popular
  | hashtag :: rest =>
      match popular with
      | PList l =>
          if bool_decide (hashtag ∈ l) then backfill rest popular
          else backfill rest (PList (l ++ [hashtag]))
      | PStr s =>
          if contains hashtag s then backfill rest popular
          else Raise (no_attribute "str" "append")
      | PDict d =>
          if bool_decide (hashtag ∈ d.*1) then backfill rest popular
          else Raise (no_attribute "dict" "append")
      | PNone | PBool _ | PInt _ | PFloat _ =>
          (* not reached: [len(popular)] has raised before the loop *)
          Raise (Exn "TypeError" "argument is not iterable")
      end
  end.

(** Returns the four buckets and the dict [ai_hashtags] as the appends
    leave it; what is no dict has no [.get]. *)
Definition _combine_hashtag_sources (ai_hashtags : parsed)
    (trending_hashtags : list TrendingHashtagData) (request : HashtagRequest)
  : result (combined * list (string * pyval)) :=
  match ai_hashtags with
  | NoDict j => Raise (no_attribute (type_name j) "get")
  | Dict ai_hashtags =>
      let niche := get_or_empty "niche_hashtags" ai_hashtags in
      let popular := get_or_empty "popular_hashtags" ai_hashtags in
      let branded := get_or_empty "branded_hashtags" ai_hashtags in
      let trending_tags := hashtag <$> trending_hashtags in
      match py_len popular with
      | Raise e => Raise e
      | Ok n =>
          if (n <? 5)%nat then
            match backfill (take 3 trending_tags) popular with
            | Raise e => Raise e
            | Ok popular' =>
                Ok (mkCombined trending_tags niche popular' branded,
                    set_existing "popular_hashtags" popular' ai_hashtags)
            end
          else Ok (mkCombined trending_tags niche popular branded, ai_hashtags)
      end
  end.

(** *** Scores *)

(** [max(a, b)] and [min(a, b)] of two floats *)
Definition py_max (a b : Q) : Q := if Qlt_le_dec a b then b else a.
Definition py_min (a b : Q) : Q := if Qlt_le_dec b a then b else a.

Definition count_matches (hashtags : list string) (trending_data : list TrendingHashtagData)
  : nat :=
  let trending_hashtag_set : gset string :=
    list_to_set ((fun th => PyStr.lower (hashtag th)) <$> trending_data) in
  length (filter (fun h => PyStr.lower h ∈ trending_hashtag_set) hashtags).

Definition _calculate_engagement_potential (hashtags : list string)
    (trending_data : list TrendingHashtagData) : Q :=
  let n := length hashtags in
  let score := (5 # 1)%Q in
  let score :=
    (score + inject_Z (Z.of_nat (count_matches hashtags trending_data)) * (1 # 2))%Q in
  let score := if (8 <=? n)%nat then (score + 1)%Q else score in
  let score := if (10 <=? n)%nat && (n <=? 15)%nat then (score + (1 # 2))%Q else score in
  let score := if (n <? 5)%nat then (score - 1)%Q
               else if (25 <? n)%nat then (score - (1 # 2))%Q else score in
  py_min (10 # 1) (py_max (1 # 1) score).

(** [th.engagement_score or 500] *)
Definition score_or_500 (th : TrendingHashtagData) : Z :=
  match engagement_score th with
  | Some s => if decide (s = 0) then 500 else s
  | None => 500
  end.

Definition sumZ (l : list Z) : Z := foldr Z.add 0 l.

Definition _calculate_trending_score (trending_data : list TrendingHashtagData) : Q :=
  match trending_data with
  | [] => (3 # 1)%Q
  | _ :: _ =>
      let engagement_scores := score_or_500 <$> trending_data in
      let avg_engagement :=
        (inject_Z (sumZ engagement_scores)
         / inject_Z (Z.of_nat (length engagement_scores)))%Q in
      py_min (10 # 1) (py_max (1 # 1) ((avg_engagement / (1000 # 1)) * (10 # 1))%Q)
  end.

(** *** The pipeline *)

Variable w : world.

Definition _get_real_trending_hashtags (category platform : string) (max_count : Z)
  : M (list TrendingHashtagData) :=
  try_except
    (trending_result <- Fetcher.get_trending_hashtags w category platform max_count ;;
     if tr_success trending_result then ret (tr_hashtags trending_result) else ret [])
    (fun _ => ret []).

Definition not_subscriptable (ty : string) : exn :=
  Exn "TypeError" ("'" +:+ ty +:+ "' object is not subscriptable").

(** The items that [final_hashtags.extend(v[:n])] adds: a string is
    sliced and then iterated character by character. *)
Definition slice_val (n : nat) (v : pyval) : result (list string) :=
  match v with
  | PList l => Ok (take n l)
  | PStr s => Ok ((fun ch => String ch "") <$> take n (PyStr.chars s))
  | PDict _ => Raise (Exn "TypeError" "unhashable type: 'slice'")
  | PNone => Raise (not_subscriptable "NoneType")
  | PBool _ => Raise (not_subscriptable "bool")
  | PInt _ => Raise (not_subscriptable "int")
  | PFloat _ => Raise (not_subscriptable "float")
  end.

(** The four [extend]s that build [final_hashtags]. *)
Definition assemble (request : HashtagRequest) (cb : combined) : result (list string) :=
  let from_trending := if include_trending request then take 5 (cb_trending cb) else [] in
  match (if include_niche request then slice_val 5 (cb_niche cb) else Ok []) with
  | Raise e => Raise e
  | Ok from_niche =>
      match slice_val 5 (cb_popular cb) with
      | Raise e => Raise e
      | Ok from_popular =>
          match (if include_branded request then slice_val 3 (cb_branded cb) else Ok []) with
          | Raise e => Raise e
          | Ok from_branded =>
              Ok (from_trending ++ from_niche ++ from_popular ++ from_branded)
          end
      end
  end.

Definition category_of (request : HashtagRequest) : string :=
  match category_result request with
  | Some cr => if decide (primary_category cr = "") then "general" else primary_category cr
  | None => "general"
  end.

(** The result returned when the analyzer reports a failure. *)
Definition ai_failure (request : HashtagRequest)
    (real_trending_hashtags : list TrendingHashtagData) (result : ai_response)
  : EnhancedHashtagResult :=
  mkResult [] [] (PList []) (PList []) [] real_trending_hashtags (platform request) 0
           None None false
           (Some (match ai_error result with
                  | Some e => e
                  | None => "Unknown error occurred"
                  end)).

(** The result built by the [except Exception as e] handler. *)
Definition exception_result (request : HashtagRequest) (e : exn) : EnhancedHashtagResult :=
  mkResult [] [] (PList []) (PList []) [] [] (platform request) 0
           None None false (Some (exn_str e)).

(** [image_description]: the content of a successful description, else
    the empty string it was initialised with. *)
Definition description_of (description_result : ai_response) : option string :=
  if ai_success description_result then ai_content description_result else Some "".

(** The [try] block from the first analyzer call on: it reads and writes
    nothing of the fetcher. *)
Definition synthesize (request : HashtagRequest)
    (real_trending_hashtags : list TrendingHashtagData) : result EnhancedHashtagResult :=
  description_result <-? analyze_image c (image_path request) DescriptionPrompt ;;
  let image_description := description_of description_result in
  let prompt := HashtagPrompt request image_description real_trending_hashtags in
  result <-? analyze_image c (image_path request) prompt ;;
  if negb (ai_success result) then Ok (ai_failure request real_trending_hashtags result)
  else
    ai_hashtags <-? _parse_ai_hashtag_response (ai_content result) ;;
    merged <-? _combine_hashtag_sources ai_hashtags real_trending_hashtags request ;;
    let combined_hashtags := merged.1 in
    let ai_hashtags := merged.2 in
    final_hashtags <-? assemble request combined_hashtags ;;
    let unique_hashtags := unique_from ∅ final_hashtags in
    let final_hashtags := slice_to (max_hashtags request) unique_hashtags in
    let engagement_potential :=
      _calculate_engagement_potential final_hashtags real_trending_hashtags in
    let trending_score := _calculate_trending_score real_trending_hashtags in
    Ok (mkResult final_hashtags
                 (cb_trending combined_hashtags)
                 (cb_niche combined_hashtags)
                 (cb_branded combined_hashtags)
                 (ai_hashtags.*2)
                 real_trending_hashtags
                 (platform request)
                 (Z.of_nat (length final_hashtags))
                 (Some engagement_potential)
                 (Some trending_score)
                 true None).

(** The body of the [try] block. *)
Definition generate_body (request : HashtagRequest) : M EnhancedHashtagResult :=
  real_trending_hashtags <-
    _get_real_trending_hashtags (category_of request) (platform request) 8 ;;
  lift (synthesize request real_trending_hashtags).

Definition generate_enhanced_hashtags (request : HashtagRequest)
  : state -> EnhancedHashtagResult * state :=
  fun s => match generate_body request s with
           | (Ok r, s') => (r, s')
           | (Raise e, s') => (exception_result request e, s')
           end.

End WithCollaborators.

(** *** Curated suggestions *)

(** One entry of [platform_guidelines]. *)
Record guideline : Type := mkGuideline {
  g_max_hashtags : Z;
  optimal_range : Z * Z;
  character_limit : Z;
  style : string;
  trending_weight : Q
}.

Definition platform_guidelines : list (string * guideline) :=
  [ ("instagram", mkGuideline 30 (8, 15) 100 "mix of popular and niche" (4 # 10));
    ("facebook", mkGuideline 10 (3, 7) 100 "fewer, more targeted" (3 # 10)) ].

Definition category_hashtags : list (string * list (string * list string)) :=
  [ ("food",
      [ ("popular", ["#food"; "#foodie"; "#delicious"; "#yummy"; "#foodstagram"]);
        ("niche", ["#homecooking"; "#foodphotography"; "#recipe"; "#foodlover"; "#tasty"]);
        ("trending", ["#foodgasm"; "#instafood"; "#eats"; "#feast"; "#cooking"]) ]);
    ("travel",
      [ ("popular", ["#travel"; "#wanderlust"; "#adventure"; "#explore"; "#vacation"]);
        ("niche", ["#travelgram"; "#backpacking"; "#solotravel"; "#roadtrip"; "#nature"]);
        ("trending", ["#wanderer"; "#explore"; "#getaway"; "#bucketlist"; "#discovery"]) ]);
    ("fashion",
      [ ("popular", ["#fashion"; "#style"; "#ootd"; "#outfit"; "#trendy"]);
        ("niche", ["#fashionista"; "#styleinspo"; "#lookbook"; "#fashionblogger"; "#styling"]);
        ("trending", ["#outfitoftheday"; "#fashionstyle"; "#streetstyle"; "#fashionpost"; "#stylish"]) ]);
    ("fitness",
      [ ("popular", ["#fitness"; "#workout"; "#gym"; "#health"; "#fit"]);
        ("niche", ["#fitnessjourney"; "#training"; "#exercise"; "#motivation"; "#strength"]);
        ("trending", ["#fitlife"; "#gymlife"; "#healthy"; "#wellness"; "#strong"]) ]);
    ("business",
      [ ("popular", ["#business"; "#entrepreneur"; "#success"; "#motivation"; "#work"]);
        ("niche", ["#startup"; "#leadership"; "#productivity"; "#innovation"; "#growth"]);
        ("trending", ["#hustle"; "#mindset"; "#goals"; "#businessowner"; "#professional"]) ]) ].

(** [d.get(k)] on a dict literal written as its item list *)
Fixpoint dict_find {V} (k : string) (d : list (string * V)) : option V :=
  match d with
  | [] => None
  | (k', v) :: r => if decide (k = k') then Some v else dict_find k r
  end.

Definition get_category_suggestions (category platform : string) : list string :=
  let category_data := Fetcher.dict_get category [] category_hashtags in
  let suggestions :=
    Fetcher.dict_get "popular" [] category_data
    ++ Fetcher.dict_get "niche" [] category_data
    ++ Fetcher.dict_get "trending" [] category_data in
  let platform_info := dict_find platform platform_guidelines in
  let max_suggestions :=
    (match platform_info with
     | Some info => optimal_range info
     | None => (8, 15)
     end).2 in
  slice_to max_suggestions suggestions.

End Generator.

(** ** Notions used to state the properties *)

(** The elements of [l] whose key occurs neither in [seen] nor earlier in
    [l]: the shape common to the three duplicate-removal loops. *)
Fixpoint first_seen {A} (key : A -> string) (seen : gset string) (l : list A) : list A :=
  match l with
  | [] => []
  | x :: r =>
      if decide (key x ∈ seen) then first_seen key seen r
      else x :: first_seen key ({[key x]} ∪ seen) r
  end.


(** [#] followed by letters and digits only, 3 to 100 characters in all. *)
Definition normalized (t : string) : Prop :=
  (exists body, t = String PyStr.hash body
                /\ Forall (fun ch => PyStr.isalnum ch = true) (PyStr.chars body))
  /\ (3 <= String.length t <= 100)%nat.

(** What [_clean_hashtags] lets through: a leading [#], then letters, digits
    and further [#], 3 to 100 characters in all. *)
Definition cleaned (t : string) : Prop :=
  (exists body, t = String PyStr.hash body
                /\ Forall (fun ch => PyStr.isalnum ch = true \/ ch = PyStr.hash)
                          (PyStr.chars body))
  /\ (3 <= String.length t <= 100)%nat.

(** The analyzer's answer to the hashtag prompt, when the run gets that
    far. *)
Definition suggestion (c : collaborators) (request : HashtagRequest)
    (real : list TrendingHashtagData) : option ai_response :=
  match analyze_image c (image_path request) DescriptionPrompt with
  | Ok d =>
      match analyze_image c (image_path request)
              (HashtagPrompt request (Generator.description_of d) real) with
      | Ok a => Some a
      | Raise _ => None
      end
  | Raise _ => None
  end.

(** The three keys of the parsed response that the merge reads. *)
Definition bucket_keys : list string :=
  ["niche_hashtags"; "popular_hashtags"; "branded_hashtags"].

(** ** Sample worlds and requests *)

Module Sample.

(** A world in which every request times out. *)
Definition offline : world :=
  mkWorld (fun _ => 0%Q) (fun _ => "2025-01-01 00:00:00")
          (fun _ _ => RequestException "timed out").

(** An analyzer that describes the image and then answers the hashtag
    prompt with [answer]; the answers used below are not JSON texts, so
    [json.loads] rejects them. *)
Definition analyzer (answer : ai_response) : collaborators :=
  mkCollab (fun _ p => match p with
                       | DescriptionPrompt => Ok (mkAI true (Some "a plate of pasta") None)
                       | HashtagPrompt _ _ _ => Ok answer
                       end)
           (fun _ => None).

Definition food : CategoryResult :=
  mkCategoryResult "food" [] 1 "a plate of pasta" true None.

Definition request (max_hashtags : Z) : HashtagRequest :=
  mkRequest "pasta.jpg" (Some food) "instagram" max_hashtags true true false None.

Definition run (answer : ai_response) (max_hashtags : Z) : EnhancedHashtagResult :=
  (Generator.generate_enhanced_hashtags (analyzer answer) offline (request max_hashtags)
     initial_state).1.

(** What [json.loads] makes of a well-formed suggestion. *)
Definition json_answer : json :=
  JObj [ ("popular_hashtags", JArr [JStr "Pasta Lover!"; JStr "al#dente"; JStr "x"]);
         ("niche_hashtags", JArr [JStr "#Home-made"]) ].

(** An analyzer whose suggestion parses to [json_answer]. *)
Definition json_analyzer : collaborators :=
  mkCollab (fun _ p => match p with
                       | DescriptionPrompt => Ok (mkAI true (Some "a plate of pasta") None)
                       | HashtagPrompt _ _ _ => Ok (mkAI true (Some "{...}") None)
                       end)
           (fun _ => Some json_answer).

(** A suggestion with a string where a list of tags is expected. *)
Definition string_answer : json :=
  JObj [ ("popular_hashtags", JArr [JStr "Pasta Lover!"]);
         ("niche_hashtags", JStr "abc") ].

Definition string_analyzer : collaborators :=
  mkCollab (fun _ p => match p with
                       | DescriptionPrompt => Ok (mkAI true (Some "a plate of pasta") None)
                       | HashtagPrompt _ _ _ => Ok (mkAI true (Some "{...}") None)
                       end)
           (fun _ => Some string_answer).

(** A world whose first request is refused and whose later ones time out. *)
Definition refusing : world :=
  mkWorld (fun _ => 0%Q) (fun _ => "2025-01-01 00:00:00")
          (fun k _ => match k with
                      | O => HTTPError (Some 403)
                      | S _ => RequestException "timed out"
                      end).

(** A world without network in which an hour passes between any two
    readings of the clock. *)
Definition hourly : world :=
  mkWorld (fun k => inject_Z (3600 * Z.of_nat k)) (fun _ => "2025-01-01 00:00:00")
          (fun _ _ => RequestException "timed out").


(** A fetcher that cached one record for food on Instagram at time 100. *)
Definition warm : state :=
  mkState {[ "hashtagify_food_instagram" :=
               mkCE (mkCD [mkTHD "#pasta" "instagram" (Some 800) None None None]
                          "food" "instagram") (100 # 1) ]}
          ∅ 0 [].

(** A world in which it is time 200. *)
Definition at_200 : world :=
  mkWorld (fun _ => (200 # 1)%Q) (fun _ => "2025-01-01 00:03:20")
          (fun _ _ => RequestException "timed out").

End Sample.

(** ** Runs of the fetcher *)

(** [m], started in [s], ends with a result and a state that satisfy [Q]. *)
Definition runs {A} (m : M A) (s : state) (Q : result A -> state -> Prop) : Prop :=
  Q (m s).1 (m s).2.

(** The host of an [https] URL: what stands between the scheme and the
    next slash. *)
Fixpoint until_slash (s : string) : string :=
  match s with
  | EmptyString => EmptyString
  | String ch r => if decide (ch = PyStr.slash) then EmptyString else String ch (until_slash r)
  end.

Definition url_host (url : string) : string := until_slash (PyStr.drop_chars 8 url).

(** A record with a positive engagement score. *)
Definition scored (h : TrendingHashtagData) : Prop :=
  exists z, engagement_score h = Some z /\ 0 < z.

Definition cache_scored (s : state) : Prop :=
  forall k e, cache s !! k = Some e -> Forall scored (cd_hashtags (ce_data e)).

(** The calls that a client can make on a generator and its fetcher. *)
Inductive call : Type :=
| Generate (c : collaborators) (request : HashtagRequest)
| GetTrending (category platform : string) (max_count : Z)
| WebScraping (category platform : string)
| Hashtagify (category platform : string)
| Ritetag (category platform : string)
| ScrapeInstagram (category : string)
| ScrapeTrendWebsites (category platform : string).

Definition after_call (w : world) (o : call) (s : state) : state :=
  match o with
  | Generate c request => (Generator.generate_enhanced_hashtags c w request s).2
  | GetTrending category platform max_count =>
      (Fetcher.get_trending_hashtags w category platform max_count s).2
  | WebScraping category platform =>
      (Fetcher.fetch_trending_from_web_scraping w category platform s).2
  | Hashtagify category platform =>
      (Fetcher.fetch_trending_from_hashtagify w category platform s).2
  | Ritetag category platform =>
      (Fetcher.fetch_trending_from_ritetag w category platform s).2
  | ScrapeInstagram category => (Fetcher._scrape_instagram_trends w category s).2
  | ScrapeTrendWebsites category platform =>
      (Fetcher._scrape_trend_websites w category platform s).2
  end.

(** The state after a sequence of calls, first call first. *)
Definition after_calls (w : world) (calls : list call) (s : state) : state :=
  foldl (fun s o => after_call w o s) s calls.

(** What one or more calls may do to the state: requests are appended to
    the log, none of them to a host that was blocked beforehand; a host that
    answers 403 is blocked afterwards; the blocklist only grows; cached
    records keep positive scores. *)
Record step (w : world) (s s' : state) : Prop := mkStep {
  step_sent :
    exists new,
      sent s' = sent s ++ new
      /\ (forall url, url ∈ new -> url_host url ∉ blocked_sources s)
      /\ (forall k url, new !! k = Some url ->
            requests_get w (length (sent s) + k) url = HTTPError (Some 403) ->
            url_host url ∈ blocked_sources s');
  step_blocked : blocked_sources s ⊆ blocked_sources s';
  step_cache : cache_scored s -> cache_scored s'
}.

(** ** Further notions used to state the properties *)

(** The characters that [_clean_hashtags] lets through. *)
Definition keep_char (ch : ascii) : bool :=
  PyStr.isalnum ch || bool_decide (ch = PyStr.hash).

(** [t] is what [_clean_hashtags] has made of an entry of a list that
    the suggestion holds under one of the three keys. *)
Definition cleaned_entry (items : list (string * json)) (t : string) : Prop :=
  exists key l raw,
    key ∈ bucket_keys /\ (key, JArr l) ∈ items /\ JStr raw ∈ l
    /\ Generator.clean_one raw = Some t.

(** [t] is one character of a string that the suggestion holds under one
    of the three keys. *)
Definition bucket_character (items : list (string * json)) (t : string) : Prop :=
  exists key s ch,
    key ∈ bucket_keys /\ (key, JStr s) ∈ items /\ ch ∈ PyStr.chars s
    /\ t = String ch "".

(** The group of a record: its tag text in lower case. *)
Definition group (h : TrendingHashtagData) : string := PyStr.lower (hashtag h).

(** [b] does not beat [a]. *)
Definition not_below (a b : TrendingHashtagData) : Prop :=
  Fetcher.score_key b <= Fetcher.score_key a.

Definition with_score (k : Z) (h : TrendingHashtagData) : Prop := Fetcher.score_key h = k.

#[global] Instance with_score_dec k h : Decision (with_score k h) :=
  decide (Fetcher.score_key h = k).

(** Only the clock was read. *)
Definition ticked (s s' : state) : Prop :=
  cache s' = cache s /\ blocked_sources s' = blocked_sources s /\ sent s' = sent s.

(** The state after one clock read. *)
Definition tick (s : state) : state :=
  mkState (cache s) (blocked_sources s) (S (ticks s)) (sent s).

(** The state once [url] has been requested. *)
Definition logged (s : state) (url : string) : state :=
  mkState (cache s) (blocked_sources s) (ticks s) (sent s ++ [url]).

(** The state after [_save_to_cache]. *)
Definition saved (w : world) (key : string) (data : cache_data) (s : state) : state :=
  mkState (<[key := mkCE data (time_time w (ticks s))]> (cache s))
          (blocked_sources s) (S (ticks s)) (sent s).

(** The entry under [key] when there is one younger than the TTL: what a
    cache read finds. *)
Definition fresh_entry (w : world) (key : string) (s : state) : option cache_entry :=
  match cache s !! key with
  | Some e =>
      if Qlt_le_dec (time_time w (ticks s) - ce_timestamp e) Fetcher.cache_duration
      then Some e else None
  | None => None
  end.

(** One request to [host], followed by whatever its handler does to the
    blocklist. *)
Definition requested (w : world) (host url : string) (s s' : state) : Prop :=
  sent s' = sent s ++ [url]
  /\ cache s' = cache s
  /\ blocked_sources s ⊆ blocked_sources s'
  /\ (requests_get w (length (sent s)) url = HTTPError (Some 403) ->
      host ∈ blocked_sources s').

(** What both request handlers guarantee. *)
Definition scraped (w : world) (host url : string) (s : state)
    (r : result (list TrendingHashtagData)) (s' : state) : Prop :=
  requested w host url s s' /\ forall l, r = Ok l -> Forall scored l.

(** A provider call returns a result, takes a lawful step, and hands out
    scored records when the cache held scored records. *)
Definition provided (w : world) (s : state) (r : result TrendingResult) (s' : state)
  : Prop :=
  step w s s'
  /\ exists tr, r = Ok tr /\ (cache_scored s -> Forall scored (tr_hashtags tr)).

(** The pool gathered from the three providers and what is returned of
    it. *)
Definition aggregated (w : world) (category platform : string) (max_count : Z)
    (s : state) (r : result TrendingResult) (s' : state) : Prop :=
  step w s s'
  /\ exists tr pool,
       r = Ok tr
       /\ (cache_scored s -> Forall scored pool)
       /\ (fresh_entry w (Fetcher.cache_key "webscrape" category platform) s = None ->
           Fetcher.hashtags_list category platform <> [] -> pool <> [])
       /\ match pool with
          | [] => tr_success tr = false /\ tr_hashtags tr = []
          | _ :: _ =>
              tr_success tr = true
              /\ tr_hashtags tr
                 = slice_to max_count (Fetcher._remove_duplicate_hashtags pool)
          end.

(** The three caching providers: cache-key prefix, the source label of a
    cache hit, and the method. *)
Definition providers (w : world)
  : list (string * string * (string -> string -> M TrendingResult)) :=
  [ ("hashtagify", "hashtagify_cache", Fetcher.fetch_trending_from_hashtagify w);
    ("ritetag", "ritetag_cache", Fetcher.fetch_trending_from_ritetag w);
    ("webscrape", "webscrape_cache", Fetcher.fetch_trending_from_web_scraping w) ].

(** The table has a list for this category and this platform. *)
Definition in_curated_table (category platform : string) : Prop :=
  exists entry, (category, entry) ∈ Fetcher.trending_data /\ platform ∈ entry.*1.





(** ** The content categorizer *)

Module Categorizer.

Definition categories : list (string * list string) :=
  [ ("food", ["cooking"; "dining"; "recipes"; "restaurants"; "beverages"]);
    ("travel", ["destinations"; "adventures"; "culture"; "landmarks"; "transportation"]);
    ("fashion", ["outfits"; "style"; "accessories"; "trends"; "clothing"]);
    ("fitness", ["workout"; "health"; "sports"; "yoga"; "nutrition"]);
    ("beauty", ["skincare"; "makeup"; "haircare"; "cosmetics"; "self-care"]);
    ("business", ["corporate"; "meetings"; "office"; "networking"; "productivity"]);
    ("technology", ["gadgets"; "software"; "innovation"; "digital"; "ai"]);
    ("education", ["learning"; "teaching"; "books"; "courses"; "knowledge"]);
    ("art", ["painting"; "drawing"; "sculpture"; "design"; "creativity"]);
    ("photography", ["portraits"; "landscape"; "street"; "macro"; "abstract"]);
    ("music", ["instruments"; "concerts"; "recording"; "performance"; "audio"]);
    ("family", ["children"; "parents"; "relatives"; "gatherings"; "memories"]);
    ("pets", ["dogs"; "cats"; "animals"; "pet care"; "cute pets"]);
    ("home", ["interior"; "decoration"; "diy"; "gardening"; "organization"]);
    ("events", ["parties"; "celebrations"; "festivals"; "concerts"; "gatherings"]);
    ("hobbies", ["crafts"; "collections"; "games"; "reading"; "recreation"]);
    ("nature", ["outdoors"; "wildlife"; "plants"; "environment"; "seasons"]);
    ("products", ["reviews"; "unboxing"; "recommendations"; "shopping"; "deals"]);
    ("services", ["consulting"; "tutorials"; "demonstrations"; "support"]);
    ("brand", ["marketing"; "promotion"; "company"; "identity"; "awareness"]) ].

(** The dataclass as [categorize_content] fills it: [description] is
    whatever the parsed JSON holds under that key. *)
Record CategoryResult : Type := mkCategoryResult {
  primary_category : string;
  secondary_categories : list string;
  confidence_score : Q;
  description : json;
  success : bool;
  error : option string
}.

(** The collaborators of the categorizer: [analyze_image] called with the
    categorization prompt, [json.loads], and [float] on an [int] and on a
    [str]. *)
Record collaborators : Type := mkCollab {
  analyze_image : string -> result ai_response;
  json_loads : string -> option json;
  float_of_int : Z -> result Q;
  float_of_str : string -> result Q
}.

(** [list(self.categories.keys())] *)
Definition valid_categories : list string := categories.*1.

Definition get_category_subcategories (category : string) : list string :=
  Fetcher.dict_get category [] categories.

Definition no_float (ty : string) : exn :=
  Exn "TypeError"
      ("float() argument must be a string or a real number, not '" +:+ ty +:+ "'").

Definition not_iterable (ty : string) : exn :=
  Exn "TypeError" ("'" +:+ ty +:+ "' object is not iterable").

(** What a [for] over a JSON value goes through. *)
Definition iterate (v : json) : result (list json) :=
  match v with
  | JArr l => Ok l
  | JStr s => Ok ((fun ch => JStr (String ch "")) <$> PyStr.chars s)
  | JObj items => Ok (JStr <$> items.*1)
  | JNull | JBool _ | JInt _ | JFloat _ => Raise (not_iterable (Generator.type_name v))
  end.

(** [cat in valid_categories and cat != primary_category]: the category
    when it is kept. *)
Definition keep_secondary (primary_category : string) (cat : json) : option string :=
  match cat with
  | JStr s =>
      if bool_decide (s ∈ valid_categories) && negb (bool_decide (s = primary_category))
      then Some s else None
  | _ => None
  end.

(** The fallback loop: the first category, in the order of the table, that
    occurs in the text. *)
Fixpoint first_match (cats : list string) (response_lower : string) : option string :=
  match cats with
  | [] => None
  | category :: rest =>
      if Generator.contains category response_lower then Some category
      else first_match rest response_lower
  end.

Section WithCollaborators.
Variable c : collaborators.

(** [float(v)] *)
Definition py_float (v : json) : result Q :=
  match v with
  | JFloat q => Ok q
  | JInt n => float_of_int c n
  | JBool b => Ok (if b then 1%Q else 0%Q)
  | JStr s => float_of_str c s
  | JNull | JArr _ | JObj _ => Raise (no_float (Generator.type_name v))
  end.

(** The inner [try] block with its [JSONDecodeError] handler. *)
Definition parse_response (response_text : string) : result CategoryResult :=
  match json_loads c response_text with
  | Some (JObj data) =>
      let primary_category := Fetcher.dict_get "primary_category" (JStr "unknown") data in
      let secondary_categories := Fetcher.dict_get "secondary_categories" (JArr []) data in
      confidence_score <-? py_float (Fetcher.dict_get "confidence_score" (JFloat 0) data) ;;
      let description := Fetcher.dict_get "description" (JStr "") data in
      let checked : string * Q :=
        match primary_category with
        | JStr s => if bool_decide (s ∈ valid_categories) then (s, confidence_score)
                    else ("unknown", (confidence_score * (1 # 2))%Q)
        | _ => ("unknown", (confidence_score * (1 # 2))%Q)
        end in
      cats <-? iterate secondary_categories ;;
      Ok (mkCategoryResult checked.1 (omap (keep_secondary checked.1) cats) checked.2
            description true None)
  | Some data => Raise (Generator.no_attribute (Generator.type_name data) "get")
  | None =>
      let response_lower := PyStr.lower response_text in
      Ok (match first_match valid_categories response_lower with
          | Some best_match =>
              mkCategoryResult best_match [] (6 # 10) (JStr response_text) true None
          | None => mkCategoryResult "unknown" [] 0 (JStr response_text) true None
          end)
  end.

(** The result of both failure exits. *)
Definition failure (message : string) : CategoryResult :=
  mkCategoryResult "unknown" [] 0 (JStr "") false (Some message).

(** The body of the outer [try] block. *)
Definition categorize_body (image_path : string) : result CategoryResult :=
  result <-? analyze_image c image_path ;;
  if negb (ai_success result)
  then Ok (failure (default "Unknown error occurred" (ai_error result)))
  else
    match ai_content result with
    | None => Raise (Generator.no_attribute "NoneType" "strip")
    | Some content => parse_response (Generator.strip_fences content)
    end.

Definition categorize_content (image_path : string) : CategoryResult :=
  match categorize_body image_path with
  | Ok r => r
  | Raise e => failure (exn_str e)
  end.

End WithCollaborators.
End Categorizer.

(** ** Trending insights of the facade *)

Module Main.

(** The dict returned by [get_trending_insights]: with the trending data,
    or with the key ["error"]. *)
Inductive insights : Type :=
| Insights (trending_hashtags : list string) (category platform source : string)
           (engagement_scores : list Z) (growth_rates : list Q)
           (last_updated : option string)
| NoInsights (error : option string) (category platform : string).

(** [th.engagement_score] when it is truthy *)
Definition truthy_score (th : TrendingHashtagData) : option Z :=
  match engagement_score th with
  | Some z => if decide (z = 0) then None else Some z
  | None => None
  end.

(** [th.growth_rate] when it is truthy *)
Definition truthy_rate (th : TrendingHashtagData) : option Q :=
  match growth_rate th with
  | Some q => if Qeq_dec q 0 then None else Some q
  | None => None
  end.

Definition get_trending_insights (w : world) (category platform : string)
  : state -> insights * state :=
  fun s =>
    match Fetcher.get_trending_hashtags w category platform 20 s with
    | (Ok trending_result, s') =>
        if tr_success trending_result then
          (Insights (hashtag <$> tr_hashtags trending_result) category platform
             (tr_source trending_result)
             (omap truthy_score (tr_hashtags trending_result))
             (omap truthy_rate (tr_hashtags trending_result))
             (match tr_hashtags trending_result with
              | th :: _ => last_updated th
              | [] => None
              end), s')
        else (NoInsights (tr_error trending_result) category platform, s')
    | (Raise e, s') => (NoInsights (Some (exn_str e)) category platform, s')
    end.

End Main.

(** ** Notions for the further properties *)

(** A match of the fallback pattern: [#] and at least one word character. *)
Definition word_tag (t : string) : Prop :=
  exists ch body,
    t = String PyStr.hash (String ch body)
    /\ Forall (fun x => PyStr.is_word x = true) (ch :: PyStr.chars body).

(** No character of the text is a backtick or a white space. *)
Definition backtick : ascii := ascii_of_nat 96.

(** The three sites that the scrapers address. *)
Definition known_hosts : list string :=
  ["top-hashtags.com"; "all-hashtag.com"; "hashtagsforlikes.co"].

(** Any two clock readings are less than the TTL apart. *)
Definition steady (w : world) : Prop :=
  forall i j, (time_time w j - time_time w i < Fetcher.cache_duration)%Q.

(** Every cache entry was stamped with a reading of the clock. *)
Definition stamped (w : world) (s : state) : Prop :=
  forall k e, cache s !! k = Some e -> exists i, ce_timestamp e = time_time w i.

(** The cache is left alone, and [new] is what was requested, all of it
    from the three sites. *)
Definition sends (s s' : state) (new : list string) : Prop :=
  cache s' = cache s
  /\ sent s' = sent s ++ new
  /\ Forall (fun url => url_host url ∈ known_hosts) new.

(** Between [s] and [s'] at most [n] URLs were handed to [requests.get],
    all of them on the three sites. *)
Definition requested_within (n : nat) (s s' : state) : Prop :=
  exists new,
    sent s' = sent s ++ new
    /\ (length new <= n)%nat
    /\ Forall (fun url => url_host url ∈ known_hosts) new.

(** Wherever the table has a list, the scrape cache holds no empty
    entry. *)
Definition cache_stocked (s : state) : Prop :=
  forall category platform e,
    in_curated_table category platform ->
    cache s !! Fetcher.cache_key "webscrape" category platform = Some e ->
    cd_hashtags (ce_data e) <> [].

(** No site has a tag element to show: a page, when one comes back, has
    none. *)
Definition silent (w : world) : Prop :=
  forall k url texts, requests_get w k url = Page texts -> texts = [].

(** What the aggregator returns for a pool gathered from all three
    sources. *)
Definition aggregate (category platform : string) (max_count : Z)
    (pool : list TrendingHashtagData) : TrendingResult :=
  match pool with
  | [] => mkTR [] "web_scraping,hashtagify,ritetag" category platform false
               (Some "No trending hashtags found from any source")
  | _ :: _ =>
      mkTR (slice_to max_count (Fetcher._remove_duplicate_hashtags pool))
           "web_scraping,hashtagify,ritetag" category platform true None
  end.

(** What a caching provider does with the entry under its [key]: it hands
    out the records of a fresh entry and sends nothing, or it stores a new
    entry, stamped by the clock, with the records it hands out, after at most
    [bound] requests. *)
Definition served (w : world) (key : string) (bound : nat) (s : state)
    (r : result TrendingResult) (s' : state) : Prop :=
  exists tr e new,
    r = Ok tr
    /\ tr_success tr = true
    /\ tr_hashtags tr = cd_hashtags (ce_data e)
    /\ cache s' = <[key := e]> (cache s)
    /\ sent s' = sent s ++ new
    /\ (length new <= bound)%nat
    /\ Forall (fun url => url_host url ∈ known_hosts) new
    /\ ((fresh_entry w key s = Some e /\ new = [])
        \/ (fresh_entry w key s = None /\ exists i, ce_timestamp e = time_time w i)).

(** The three cache keys of a category and a platform. *)
Definition keys (category platform : string) : list string :=
  [ Fetcher.cache_key "webscrape" category platform;
    Fetcher.cache_key "hashtagify" category platform;
    Fetcher.cache_key "ritetag" category platform ].




(** The text has no underscore. *)
Definition plain (t : string) : Prop :=
  Forall (fun ch => ch <> ascii_of_nat 95) (PyStr.chars t).

(** * Properties *)

(** ** The model on small inputs *)

Example lower_mixed : PyStr.lower "#FooD_1" = "#food_1".
Proof. reflexivity. Qed.

Example strip_both : PyStr.strip "  #a b
 " = "#a b".
Proof. reflexivity. Qed.

Example remove_fences : PyStr.remove_all "```" "```x``y```" = "x``y".
Proof. reflexivity. Qed.

Example quote_plus_mixed : Fetcher.quote_plus "street food/2025" = "street+food%2F2025".
Proof. reflexivity. Qed.

(** Beyond ASCII: U+00C9 and U+00E9 are the capital and the small e with
    acute accent. *)
Example lower_latin1 :
  PyStr.lower ("#CAF" +:+ String (ascii_of_nat 201) "")
  = "#caf" +:+ String (ascii_of_nat 233) "".
Proof. reflexivity. Qed.

Example clean_latin1 :
  Generator.clean_one ("caf" +:+ String (ascii_of_nat 233) "!")
  = Some ("#caf" +:+ String (ascii_of_nat 233) "").
Proof. reflexivity. Qed.

Example quote_plus_latin1 :
  Fetcher.quote_plus ("caf" +:+ String (ascii_of_nat 233) " x") = "caf%C3%A9+x".
Proof. reflexivity. Qed.

(** JSON texts that are arrays: the loop over the keys indexes the list
    with its own elements. *)
Example array_of_tags :
  Generator.clean_data (JArr [JStr "#pasta"])
  = Raise (Exn "TypeError" "list indices must be integers or slices, not str").
Proof. reflexivity. Qed.

Example array_out_of_range :
  Generator.clean_data (JArr [JBool true])
  = Raise (Exn "IndexError" "list index out of range").
Proof. reflexivity. Qed.

Example array_with_list :
  Generator.clean_data (JArr [JInt 1; JArr [JStr "x"]])
  = Raise (Exn "TypeError" "list indices must be integers or slices, not list").
Proof. reflexivity. Qed.

Example array_let_through :
  Generator.clean_data (JArr [JInt 0; JBool false; JInt (-1)])
  = Ok (NoDict (JArr [JInt 0; JBool false; JInt (-1)]))
  /\ Generator.synthesize
       (mkCollab (fun _ _ => Ok (mkAI true (Some "[0, false, -1]") None))
          (fun _ => Some (JArr [JInt 0; JBool false; JInt (-1)])))
       (Sample.request 15) []
     = Raise (Exn "AttributeError" "'list' object has no attribute 'get'").
Proof. split; reflexivity. Qed.

Example findall_tags :
  Generator.findall_from None "#a##b_c # #_ x#Y1!" = ["#a"; "#b_c"; "#_"; "#Y1"].
Proof. reflexivity. Qed.

Example clean_tags :
  Generator._clean_hashtags [JStr "a#b c!"; JStr "#x"; JStr "Food Lover"]
  = Ok ["#a#bc"; "#FoodLover"].
Proof. reflexivity. Qed.

Example slice_negative : slice_to (-1) [1; 2; 3] = [1; 2].
Proof. reflexivity. Qed.

(** With every site timing out, the aggregator lives on the curated table
    and its simulated variants. *)
Example offline_food :
  (fun h => (hashtag h, engagement_score h))
    <$> match (Fetcher.get_trending_hashtags Sample.offline "food" "instagram" 4
                 initial_state).1 with
        | Ok tr => tr_hashtags tr
        | Raise _ => []
        end
  = [ ("#foodie2025RT", Some 960); ("#healthyrecipesRT", Some 900);
      ("#plantbasedmealsRT", Some 840); ("#foodie2025", Some 800) ].
Proof. by vm_compute. Qed.

(** ** First-seen duplicate removal *)

Section FirstSeen.
Context {A : Type} (key : A -> string).
Implicit Types (seen : gset string) (l : list A).

Lemma first_seen_sublist seen l : first_seen key seen l `sublist_of` l.
Proof.
  revert seen. induction l as [|x l IH]; intros seen; simpl.
  - constructor.
  - case_decide.
    + by apply sublist_cons.
    + by apply sublist_skip.
Qed.

Lemma first_seen_fresh seen l x : x ∈ first_seen key seen l -> key x ∉ seen.
Proof.
  revert seen. induction l as [|y l IH]; intros seen; simpl.
  - by intros ?%elem_of_nil.
  - case_decide as Hy.
    + apply IH.
    + intros [->|Hx]%elem_of_cons; [done|].
      apply IH in Hx. set_solver.
Qed.

Lemma first_seen_NoDup seen l : NoDup (key <$> first_seen key seen l).
Proof.
  revert seen. induction l as [|y l IH]; intros seen; simpl.
  - constructor.
  - case_decide as Hy; [apply IH|].
    rewrite fmap_cons. constructor; [|apply IH].
    intros (z & Hkz & Hz)%list_elem_of_fmap.
    apply first_seen_fresh in Hz. set_solver.
Qed.

Lemma first_seen_covers seen l x :
  x ∈ l -> key x ∉ seen -> exists y, y ∈ first_seen key seen l /\ key y = key x.
Proof.
  revert seen. induction l as [|z l IH]; intros seen; simpl.
  - by intros ?%elem_of_nil.
  - intros [->|Hx]%elem_of_cons Hfresh.
    + case_decide; [done|]. exists z. split; [apply list_elem_of_here|done].
    + case_decide as Hz; [by apply IH|].
      destruct (decide (key x = key z)) as [Heq|Hne].
      * exists z. split; [apply list_elem_of_here|done].
      * destruct (IH ({[key z]} ∪ seen) Hx) as (y & Hy & Hk).
        { apply not_elem_of_union. split; [by apply not_elem_of_singleton|done]. }
        exists y. split; [by apply list_elem_of_further|done].
Qed.

Lemma first_seen_first seen l y :
  y ∈ first_seen key seen l ->
  exists pre post, l = pre ++ y :: post /\ forall z, z ∈ pre -> key z ≠ key y.
Proof.
  revert seen. induction l as [|x l IH]; intros seen; simpl.
  - by intros ?%elem_of_nil.
  - case_decide as Hx.
    + intros Hy. pose proof (first_seen_fresh _ _ _ Hy) as Hfresh.
      destruct (IH _ Hy) as (pre & post & -> & Hpre).
      exists (x :: pre), post. split; [done|].
      intros z [->|Hz]%elem_of_cons; [congruence|by apply Hpre].
    + intros [->|Hy]%elem_of_cons.
      * exists [], l. split; [done|]. by intros z ?%elem_of_nil.
      * pose proof (first_seen_fresh _ _ _ Hy) as Hfresh.
        destruct (IH _ Hy) as (pre & post & -> & Hpre).
        exists (x :: pre), post. split; [done|].
        intros z [->|Hz]%elem_of_cons; [set_solver|by apply Hpre].
Qed.

End FirstSeen.

Lemma generator_unique_from_first_seen seen l :
  Generator.unique_from seen l = first_seen PyStr.lower seen l.
Proof.
  revert seen. induction l as [|x l IH]; intros seen; simpl; [done|].
  case_decide; by rewrite IH.
Qed.

Lemma fetcher_unique_from_first_seen seen l :
  Fetcher.unique_from seen l = first_seen (fun h => PyStr.lower (hashtag h)) seen l.
Proof.
  revert seen. induction l as [|x l IH]; intros seen; simpl; [done|].
  case_decide; by rewrite IH.
Qed.

(** ** The merge step *)

Lemma backfill_list tags l :
  exists added,
    Generator.backfill tags (PList l) = Ok (PList (l ++ added))
    /\ added `sublist_of` tags
    /\ NoDup added
    /\ (forall t, t ∈ added -> t ∉ l)
    /\ (forall t, t ∈ tags -> t ∈ l ++ added).
Proof.
  revert l. induction tags as [|h tags IH]; intros l; simpl.
  - exists []. rewrite app_nil_r. repeat split; try constructor.
    + by intros t ?%elem_of_nil.
    + by intros t ?%elem_of_nil.
  - case_bool_decide as Hin.
    + destruct (IH l) as (added & Heq & Hsub & Hnd & Hfresh & Hcov).
      exists added. repeat split; auto.
      * by apply sublist_cons.
      * intros t [->|Ht]%elem_of_cons; [set_solver|auto].
    + destruct (IH (l ++ [h])) as (added & Heq & Hsub & Hnd & Hfresh & Hcov).
      exists (h :: added). rewrite Heq, <- app_assoc. repeat split; auto.
      * by apply sublist_skip.
      * constructor; [|done]. intros Hh. apply Hfresh in Hh. set_solver.
      * intros t [->|Ht]%elem_of_cons; [done|]. apply Hfresh in Ht. set_solver.
      * intros t [->|Ht]%elem_of_cons; [set_solver|].
        apply Hcov in Ht. by rewrite <- app_assoc in Ht.
Qed.

(** Where the entries of the popular bucket come from after the merge:
    the list the suggestion gave, or the trending tags. *)
Lemma combine_popular_origin ai real request l cb ai' :
  Generator.get_or_empty "popular_hashtags" ai = PList l ->
  Generator._combine_hashtag_sources (Dict ai) real request = Ok (cb, ai') ->
  Generator.cb_trending cb = hashtag <$> real
  /\ exists l', Generator.cb_popular cb = PList l'
                /\ forall x, x ∈ l' -> x ∈ l \/ x ∈ hashtag <$> real.
Proof.
  intros Hpop. unfold Generator._combine_hashtag_sources. rewrite Hpop. simpl.
  destruct (length l <? 5)%nat.
  - destruct (backfill_list (take 3 (hashtag <$> real)) l)
      as (added & Heq & Hsub & _ & _ & _).
    rewrite Heq. intros [= <- _]. simpl. split; [done|].
    exists (l ++ added). split; [done|].
    intros x [Hx|Hx]%elem_of_app; [by left|]. right.
    eapply elem_of_sublist; [exact Hx|]. etrans; [exact Hsub|apply sublist_take].
  - intros [= <- _]. simpl. split; [done|]. exists l. split; [done|]. by left.
Qed.

(** C7 (amended): with a list under [popular_hashtags] of fewer than 5
    entries, the merge appends to it, in order and once each, those of the
    first 3 trending tags that the list does not hold yet (exact string
    comparison) -- tags which all stay in the trending bucket as well; with 5
    entries or more the list is left as it is. *)
Theorem C7_backfill_popular ai real request l :
  Generator.get_or_empty "popular_hashtags" ai = PList l ->
  exists cb ai',
    Generator._combine_hashtag_sources (Dict ai) real request = Ok (cb, ai')
    /\ Generator.cb_trending cb = hashtag <$> real
    /\ ((5 <= length l)%nat -> Generator.cb_popular cb = PList l /\ ai' = ai)
    /\ ((length l < 5)%nat ->
        exists added,
          Generator.cb_popular cb = PList (l ++ added)
          /\ added `sublist_of` take 3 (hashtag <$> real)
          /\ (length added <= 3)%nat
          /\ NoDup added
          /\ (forall t, t ∈ added -> (t ∉ l) /\ (t ∈ Generator.cb_trending cb))
          /\ (forall t, t ∈ take 3 (hashtag <$> real) -> t ∈ l ++ added)).
Proof.
  intros Hpop. unfold Generator._combine_hashtag_sources. rewrite Hpop. simpl.
  destruct (length l <? 5)%nat eqn:Hlen.
  - apply Nat.ltb_lt in Hlen.
    destruct (backfill_list (take 3 (hashtag <$> real)) l)
      as (added & Heq & Hsub & Hnd & Hfresh & Hcov).
    rewrite Heq. eexists _, _. split; [reflexivity|]. simpl.
    split; [done|]. split; [lia|]. intros _.
    exists added. repeat split; auto.
    + apply sublist_length in Hsub. rewrite length_take in Hsub. lia.
    + assert (t ∈ take 3 (hashtag <$> real)) as Ht by (by eapply elem_of_sublist).
      apply elem_of_take in Ht as (i & Hi & _). by eapply list_elem_of_lookup_2.
  - apply Nat.ltb_ge in Hlen.
    eexists _, _. split; [reflexivity|]. simpl.
    split; [done|]. split; [done|]. lia.
Qed.

Lemma C7_backfill_popular_witness :
  exists cb ai',
    Generator._combine_hashtag_sources
      (Dict [("popular_hashtags", PList ["#cat"])])
      [mkTHD "#pets" "instagram" (Some 800) None None None] (Sample.request 15) = Ok (cb, ai')
    /\ Generator.cb_popular cb = PList ["#cat"; "#pets"].
Proof.
  destruct (C7_backfill_popular
              [("popular_hashtags", PList ["#cat"])]
              [mkTHD "#pets" "instagram" (Some 800) None None None] (Sample.request 15) ["#cat"]
              eq_refl) as (cb & ai' & Heq & _ & _ & _).
  exists cb, ai'. split; [exact Heq|].
  vm_compute in Heq. by injection Heq as <- _.
Defined.

(** Against C7 as worded: a tag placed in the trending bucket is
    copied into the popular bucket. *)
Lemma C7_trending_tag_copied :
  exists cb ai',
    Generator._combine_hashtag_sources
      (Dict [("popular_hashtags", PList [])])
      [mkTHD "#pets" "instagram" (Some 800) None None None] (Sample.request 15) = Ok (cb, ai')
    /\ "#pets" ∈ Generator.cb_trending cb
    /\ Generator.cb_popular cb = PList ["#pets"].
Proof.
  eexists _, _. split; [reflexivity|]. simpl. split; [|done].
  apply list_elem_of_here.
Qed.

(** ** Cleaning *)

Lemma startswith_hash s :
  PyStr.startswith "#" s = true -> exists r, s = String PyStr.hash r.
Proof.
  destruct s as [|b r]; simpl; [done|].
  case_decide as Hb; [|done]. intros _. exists r. by rewrite <- Hb.
Qed.

Lemma filter_chars_Forall keep s :
  Forall (fun ch => keep ch = true) (PyStr.chars (PyStr.filter_chars keep s)).
Proof.
  induction s as [|ch s IH]; simpl; [constructor|].
  destruct (keep ch) eqn:Hk; simpl; [by constructor|done].
Qed.

Lemma clean_one_cleaned s t : Generator.clean_one s = Some t -> cleaned t.
Proof.
  unfold Generator.clean_one.
  set (s' := if PyStr.startswith "#" s then s else "#" +:+ s).
  assert (exists r, s' = String PyStr.hash r) as [r Hr].
  { subst s'. destruct (PyStr.startswith "#" s) eqn:Hs.
    - by apply startswith_hash.
    - by exists s. }
  rewrite Hr. simpl PyStr.filter_chars.
  fold keep_char.
  destruct (_ && _) eqn:Hlen; [|done]. intros [= <-].
  apply andb_true_iff in Hlen as [H1 H2].
  apply Nat.ltb_lt in H1. apply Nat.leb_le in H2.
  split; [|lia].
  exists (PyStr.filter_chars keep_char r). split; [done|].
  eapply Forall_impl; [apply filter_chars_Forall|].
  intros ch Hch. unfold keep_char in Hch.
  apply orb_true_iff in Hch as [?|?%bool_decide_eq_true]; auto.
Qed.

Lemma clean_hashtags_inv l tags :
  Generator._clean_hashtags l = Ok tags ->
  exists strs, l = JStr <$> strs /\ tags = omap Generator.clean_one strs.
Proof.
  revert tags. induction l as [|j l IH]; intros tags; simpl.
  - intros [= <-]. by exists [].
  - destruct j; try done.
    destruct (Generator._clean_hashtags l) as [cl|] eqn:Hl; [|done].
    intros [= <-]. destruct (IH _ eq_refl) as (strs & -> & ->).
    exists (s :: strs). split; [done|]. simpl.
    by destruct (Generator.clean_one s).
Qed.

Lemma clean_hashtags_cleaned l tags :
  Generator._clean_hashtags l = Ok tags -> Forall cleaned tags.
Proof.
  intros (strs & -> & ->)%clean_hashtags_inv.
  apply Forall_forall. intros t (s & Hs & Ht)%list_elem_of_omap.
  by eapply clean_one_cleaned.
Qed.

(** ** The run of [generate_enhanced_hashtags] *)

Section Run.
Variable c : collaborators.
Variable w : world.

Lemma get_real_trending_returns category platform max_count s :
  exists real s1,
    Generator._get_real_trending_hashtags w category platform max_count s = (Ok real, s1).
Proof.
  unfold Generator._get_real_trending_hashtags, try_except, bind.
  destruct (Fetcher.get_trending_hashtags w category platform max_count s) as [[tr|e] s1].
  - destruct (tr_success tr); eexists _, _; reflexivity.
  - eexists _, _; reflexivity.
Qed.

Lemma generate_body_eq request s real s1 :
  Generator._get_real_trending_hashtags w (Generator.category_of request)
    (platform request) 8 s = (Ok real, s1) ->
  Generator.generate_body c w request s = (Generator.synthesize c request real, s1).
Proof. intros H. unfold Generator.generate_body, bind, lift. by rewrite H. Qed.

Lemma generate_eq request s real s1 :
  Generator._get_real_trending_hashtags w (Generator.category_of request)
    (platform request) 8 s = (Ok real, s1) ->
  Generator.generate_enhanced_hashtags c w request s =
    (match Generator.synthesize c request real with
     | Ok r => r
     | Raise e => Generator.exception_result request e
     end, s1).
Proof.
  intros H. unfold Generator.generate_enhanced_hashtags.
  rewrite (generate_body_eq _ _ _ _ H). by destruct (Generator.synthesize c request real).
Qed.

(** The two ways in which the [try] block returns. *)
Lemma synthesize_inv request real r :
  Generator.synthesize c request real = Ok r ->
  exists d a,
    analyze_image c (image_path request) DescriptionPrompt = Ok d
    /\ analyze_image c (image_path request)
         (HashtagPrompt request (Generator.description_of d) real) = Ok a
    /\ ((ai_success a = false /\ r = Generator.ai_failure request real a)
        \/ (ai_success a = true /\
            exists ai cb ai' pool,
              Generator._parse_ai_hashtag_response c (ai_content a) = Ok (Dict ai)
              /\ Generator._combine_hashtag_sources (Dict ai) real request = Ok (cb, ai')
              /\ Generator.assemble request cb = Ok pool
              /\ r = let final_hashtags :=
                       slice_to (max_hashtags request) (Generator.unique_from ∅ pool) in
                     mkResult final_hashtags (Generator.cb_trending cb)
                       (Generator.cb_niche cb) (Generator.cb_branded cb) (ai'.*2) real
                       (platform request) (Z.of_nat (length final_hashtags))
                       (Some (Generator._calculate_engagement_potential final_hashtags real))
                       (Some (Generator._calculate_trending_score real)) true None)).
Proof.
  unfold Generator.synthesize, rbind.
  destruct (analyze_image c (image_path request) DescriptionPrompt) as [d|] eqn:Hd; [|done].
  destruct (analyze_image c (image_path request) (HashtagPrompt _ _ _)) as [a|] eqn:Ha; [|done].
  destruct (ai_success a) eqn:Hs; simpl.
  - destruct (Generator._parse_ai_hashtag_response c (ai_content a)) as [[ai|j]|] eqn:Hp;
      [|done|done].
    destruct (Generator._combine_hashtag_sources (Dict ai) real request) as [[cb ai']|] eqn:Hc;
      [|done].
    simpl. destruct (Generator.assemble request cb) as [pool|] eqn:Hpool; [|done].
    intros [= <-]. exists d, a. repeat split; [done|]. right. split; [done|].
    by exists ai, cb, ai', pool.
  - intros [= <-]. exists d, a. repeat split; [done|]. by left.
Qed.

End Run.

(** ** The final list *)

Lemma slice_to_nonneg {A} (n : Z) (l : list A) :
  0 <= n -> slice_to n l = take (Z.to_nat n) l.
Proof. intros Hn. unfold slice_to. by rewrite (proj2 (Z.leb_le 0 n) Hn). Qed.

Lemma slice_to_sublist {A} (n : Z) (l : list A) : slice_to n l `sublist_of` l.
Proof. unfold slice_to. destruct (0 <=? n); apply sublist_take. Qed.


(** The parts that [assemble] puts together, in their order. *)
Lemma assemble_inv request cb pool :
  Generator.assemble request cb = Ok pool ->
  exists from_niche from_popular from_branded,
    (if include_niche request then Generator.slice_val 5 (Generator.cb_niche cb) else Ok [])
      = Ok from_niche
    /\ Generator.slice_val 5 (Generator.cb_popular cb) = Ok from_popular
    /\ (if include_branded request then Generator.slice_val 3 (Generator.cb_branded cb)
        else Ok []) = Ok from_branded
    /\ pool = (if include_trending request then take 5 (Generator.cb_trending cb) else [])
              ++ from_niche ++ from_popular ++ from_branded.
Proof.
  unfold Generator.assemble.
  destruct (if include_niche request then _ else _) as [fn|]; [|done].
  destruct (Generator.slice_val 5 (Generator.cb_popular cb)) as [fp|]; [|done].
  destruct (if include_branded request then _ else _) as [fb|]; [|done].
  intros [= <-]. by exists fn, fp, fb.
Qed.




(** ** Failure and exceptions *)

(** C10: the call always returns a result; when a step of the [try] block
    raises, that result has [success = False], the exception's message as
    [error], empty hashtag lists and [total_count = 0]. *)
Theorem C10_exceptions_contained c w request s :
  exists r s',
    Generator.generate_enhanced_hashtags c w request s = (r, s')
    /\ (Generator.generate_body c w request s = (Ok r, s')
        \/ exists e,
             Generator.generate_body c w request s = (Raise e, s')
             /\ success r = false
             /\ error r = Some (exn_str e)
             /\ hashtags r = []
             /\ trending_hashtags r = []
             /\ niche_hashtags r = PList []
             /\ branded_hashtags r = PList []
             /\ ai_generated_hashtags r = []
             /\ real_trending_hashtags r = []
             /\ total_count r = 0).
Proof.
  unfold Generator.generate_enhanced_hashtags.
  destruct (Generator.generate_body c w request s) as [[r|e] s'].
  - exists r, s'. split; [done|]. by left.
  - exists (Generator.exception_result request e), s'. split; [done|].
    right. exists e. by repeat split.
Qed.

(** A run in which a step raises: the analyzer reports success with no
    content. *)
Example raising_run :
  Generator.synthesize (Sample.analyzer (mkAI true None None)) (Sample.request 15) []
    = Raise (Exn "AttributeError" "'NoneType' object has no attribute 'strip'").
Proof. reflexivity. Qed.




(** ** Which tags are normalized *)

(** What the merge finds under a key of the cleaned dict: the cleaned
    list, the string, the default, or something that is neither a list nor a
    string. *)
Lemma clean_items_get items ai key :
  Generator.clean_items items = Ok ai ->
  (exists l tags, (key, JArr l) ∈ items /\ Generator._clean_hashtags l = Ok tags
                  /\ Generator.get_or_empty key ai = PList tags)
  \/ (exists s, (key, JStr s) ∈ items /\ Generator.get_or_empty key ai = PStr s)
  \/ Generator.get_or_empty key ai = PList []
  \/ ((forall tags, Generator.get_or_empty key ai <> PList tags)
      /\ (forall s, Generator.get_or_empty key ai <> PStr s)).
Proof.
  revert ai. induction items as [|[k v] items IH]; intros ai; simpl.
  - intros [= <-]. right; right; by left.
  - intros Hclean. destruct (decide (key = k)) as [->|Hne].
    + destruct v as [| b | n | q | s | l | d]; simpl in Hclean;
        try (destruct (Generator._clean_hashtags l) as [tags|] eqn:Htags; [|done]);
        (destruct (Generator.clean_items items) as [rest|]; [|done]);
        injection Hclean as <-; simpl; rewrite decide_True by done.
      1-4, 7: by (right; right; right; split; intros).
      * right; left. exists s. split; [apply list_elem_of_here|done].
      * left. exists l, tags. split; [apply list_elem_of_here|done].
    + assert (exists v' rest, Generator.clean_items items = Ok rest /\ ai = (k, v') :: rest)
        as (v' & rest & Hrest & ->).
      { destruct v; try destruct (Generator._clean_hashtags l);
          destruct (Generator.clean_items items) as [rest|]; try done;
          injection Hclean as <-; eauto. }
      simpl. rewrite decide_False by done.
      destruct (IH rest Hrest) as [(l & tags & Hin & Htags & Hget)|[(s & Hin & Hget)|H]].
      * left. exists l, tags. split; [by apply list_elem_of_further|done].
      * right; left. exists s. split; [by apply list_elem_of_further|done].
      * by right; right.
Qed.

Lemma bucket_list items ai key tags t :
  Generator.clean_items items = Ok ai -> key ∈ bucket_keys ->
  Generator.get_or_empty key ai = PList tags -> t ∈ tags ->
  cleaned_entry items t.
Proof.
  intros Hclean Hkey Hget Ht.
  destruct (clean_items_get items ai key Hclean)
    as [(l & tags' & Hin & Htags & Hget')|[(s & _ & Hget')|[Hget'|[Hno _]]]].
  - rewrite Hget in Hget'. injection Hget' as <-.
    apply clean_hashtags_inv in Htags as (strs & -> & ->).
    apply list_elem_of_omap in Ht as (raw & Hraw & Ht).
    exists key, (JStr <$> strs), raw. split; [done|]. split; [done|].
    split; [by apply list_elem_of_fmap_2|done].
  - congruence.
  - rewrite Hget in Hget'. injection Hget' as ->. by apply elem_of_nil in Ht.
  - by destruct (Hno tags).
Qed.

Lemma bucket_str items ai key s :
  Generator.clean_items items = Ok ai ->
  Generator.get_or_empty key ai = PStr s -> (key, JStr s) ∈ items.
Proof.
  intros Hclean Hget.
  destruct (clean_items_get items ai key Hclean)
    as [(l & tags' & _ & _ & Hget')|[(s' & Hin & Hget')|[Hget'|[_ Hno]]]];
    [congruence| |congruence|by destruct (Hno s)].
  rewrite Hget in Hget'. by injection Hget' as ->.
Qed.

Lemma slice_val_list n tags l :
  Generator.slice_val n (PList tags) = Ok l -> forall t, t ∈ l -> t ∈ tags.
Proof.
  simpl. intros [= <-] t Ht. eapply elem_of_sublist; [exact Ht|apply sublist_take].
Qed.

Lemma slice_val_opt_list (b : bool) n tags l :
  (if b then Generator.slice_val n (PList tags) else Ok []) = Ok l ->
  forall t, t ∈ l -> t ∈ tags.
Proof.
  destruct b; [apply slice_val_list|].
  intros [= <-] t Ht. by apply elem_of_nil in Ht.
Qed.

(** Only a list and a string can be sliced. *)
Lemma slice_val_cases n v l :
  Generator.slice_val n v = Ok l ->
  (exists tags, v = PList tags /\ l = take n tags)
  \/ (exists s, v = PStr s /\ l = (fun ch => String ch "") <$> take n (PyStr.chars s)).
Proof.
  destruct v; simpl; try done; intros [= <-]; [left|right]; by eexists.
Qed.

(** What a bucket of the cleaned dict adds to the final list. *)
Lemma bucket_tag items ai key n l t :
  Generator.clean_items items = Ok ai -> key ∈ bucket_keys ->
  Generator.slice_val n (Generator.get_or_empty key ai) = Ok l -> t ∈ l ->
  cleaned_entry items t \/ bucket_character items t.
Proof.
  intros Hclean Hkey Hslice Ht.
  apply slice_val_cases in Hslice as [(tags & Hget & ->)|(s & Hget & ->)].
  - left. eapply bucket_list; [done..|].
    eapply elem_of_sublist; [exact Ht|apply sublist_take].
  - right. apply list_elem_of_fmap in Ht as (ch & -> & Hch).
    exists key, s, ch. split; [done|]. split; [by eapply bucket_str|]. split; [|done].
    eapply elem_of_sublist; [exact Hch|apply sublist_take].
Qed.

Lemma bucket_tag_opt (b : bool) items ai key n l t :
  Generator.clean_items items = Ok ai -> key ∈ bucket_keys ->
  (if b then Generator.slice_val n (Generator.get_or_empty key ai) else Ok []) = Ok l ->
  t ∈ l ->
  cleaned_entry items t \/ bucket_character items t.
Proof.
  destruct b; [apply bucket_tag|].
  intros _ _ [= <-] Ht. by apply elem_of_nil in Ht.
Qed.

(** The loop that backfills the popular bucket leaves alone what is no
    list. *)
Lemma backfill_other tags popular popular' :
  (forall l, popular <> PList l) ->
  Generator.backfill tags popular = Ok popular' -> popular' = popular.
Proof.
  intros Hno. induction tags as [|h tags IH]; simpl; [by intros [= <-]|].
  destruct popular as [l|s|d| | | |]; try done.
  - by destruct (Hno l).
  - by destruct (Generator.contains h s).
  - by case_bool_decide.
Qed.

(** The four buckets after the merge. *)
Lemma combine_buckets ai real request cb ai' :
  Generator._combine_hashtag_sources (Dict ai) real request = Ok (cb, ai') ->
  Generator.cb_trending cb = hashtag <$> real
  /\ Generator.cb_niche cb = Generator.get_or_empty "niche_hashtags" ai
  /\ Generator.cb_branded cb = Generator.get_or_empty "branded_hashtags" ai
  /\ ((exists l l', Generator.get_or_empty "popular_hashtags" ai = PList l
                    /\ Generator.cb_popular cb = PList l'
                    /\ forall x, x ∈ l' -> x ∈ l \/ x ∈ hashtag <$> real)
      \/ Generator.cb_popular cb = Generator.get_or_empty "popular_hashtags" ai).
Proof.
  intros Hcomb.
  destruct (Generator.get_or_empty "popular_hashtags" ai) as [l|s|d| | | |] eqn:Hpop.
  { destruct (combine_popular_origin ai real request l cb ai' Hpop Hcomb)
      as (Htr & l' & Hl' & Horigin).
    unfold Generator._combine_hashtag_sources in Hcomb.
    destruct (Generator.py_len _); [|done].
    destruct (_ <? _)%nat; [destruct (Generator.backfill _ _); [|done]|];
      injection Hcomb as <- _; (repeat split; [done..|]); left; by exists l, l'. }
  all: unfold Generator._combine_hashtag_sources in Hcomb; rewrite Hpop in Hcomb;
    simpl in Hcomb; try done.
  all: destruct (_ <? _)%nat;
    [destruct (Generator.backfill _ _) as [p|] eqn:Hback; [|done];
     apply backfill_other in Hback as ->; [|done]|];
    injection Hcomb as <- _; (repeat split; [done..|]); by right.
Qed.

(** C6 (amended): when the suggestion is a JSON object, every entry of a
    list under its niche, popular or branded key has gone through
    [_clean_hashtags] -- [#] prefixed if missing, every character that is
    neither alphanumeric nor [#] stripped, tags of fewer than 3 or more than
    100 characters dropped. So every tag of the final list of a successful
    run is a real trending tag, or such a cleaned entry -- it starts with [#],
    goes on with letters, digits and [#] only, and has 3 to 100 characters --
    or one character of a string that stands under one of these keys where a
    list should be. *)
Theorem C6_cleaned_tags c request real a text items r :
  suggestion c request real = Some a ->
  ai_content a = Some text ->
  json_loads c (Generator.strip_fences text) = Some (JObj items) ->
  Generator.synthesize c request real = Ok r ->
  success r = true ->
  forall t, t ∈ hashtags r ->
    t ∈ (hashtag <$> real)
    \/ (cleaned_entry items t /\ cleaned t)
    \/ bucket_character items t.
Proof.
  intros Hsug Htext Hjson Hsyn Hok t Ht.
  apply synthesize_inv in Hsyn as (d & a' & Hd & Ha & Hcase).
  unfold suggestion in Hsug. rewrite Hd, Ha in Hsug. injection Hsug as ->.
  destruct Hcase as [[_ ->]|[_ (ai & cb & ai' & pool & Hparse & Hcomb & Hpool & ->)]];
    [done|].
  simpl in Ht.
  assert (t ∈ pool) as Hin.
  { eapply elem_of_sublist; [exact Ht|].
    etrans; [apply slice_to_sublist|].
    rewrite generator_unique_from_first_seen. apply first_seen_sublist. }
  clear Ht.
  rewrite Htext in Hparse. simpl in Hparse. rewrite Hjson in Hparse. simpl in Hparse.
  destruct (Generator.clean_items items) as [ai0|] eqn:Hclean; [|done].
  injection Hparse as ->.
  assert (cleaned_entry items t \/ bucket_character items t ->
          t ∈ (hashtag <$> real) \/ (cleaned_entry items t /\ cleaned t)
          \/ bucket_character items t) as Hfin.
  { intros [Hentry|Hchar]; [|by right; right]. right; left. split; [done|].
    destruct Hentry as (_ & _ & raw & _ & _ & _ & Hraw). by eapply clean_one_cleaned. }
  destruct (combine_buckets ai real request cb ai' Hcomb) as (Htr & Hn & Hb & Hp).
  apply assemble_inv in Hpool as (fn & fp & fb & Hfn & Hfp & Hfb & ->).
  rewrite Hn in Hfn. rewrite Hb in Hfb.
  apply elem_of_app in Hin as [Hin|Hin].
  { left. rewrite <- Htr. destruct (include_trending request).
    - eapply elem_of_sublist; [exact Hin|apply sublist_take].
    - by apply elem_of_nil in Hin. }
  apply elem_of_app in Hin as [Hin|Hin].
  { apply Hfin. eapply (bucket_tag_opt _ items ai "niche_hashtags"); [done| |done..].
    by repeat constructor. }
  apply elem_of_app in Hin as [Hin|Hin].
  { destruct Hp as [(l & l' & Hl & Hl' & Horigin)|Hsame].
    - rewrite Hl' in Hfp. simpl in Hfp. injection Hfp as <-.
      assert (t ∈ l') as Ht' by (eapply elem_of_sublist; [exact Hin|apply sublist_take]).
      destruct (Horigin t Ht') as [Hl0|Hreal]; [|by left].
      apply Hfin. left. eapply (bucket_list items ai "popular_hashtags"); [done| |done..].
      by repeat constructor.
    - rewrite Hsame in Hfp. apply Hfin.
      eapply (bucket_tag items ai "popular_hashtags"); [done| |done..]. by repeat constructor. }
  apply Hfin. eapply (bucket_tag_opt _ items ai "branded_hashtags"); [done| |done..].
  by repeat constructor.
Qed.

Lemma C6_cleaned_tags_witness :
  exists r,
    Generator.synthesize Sample.json_analyzer (Sample.request 15) [] = Ok r
    /\ hashtags r = ["#Homemade"; "#PastaLover"; "#al#dente"]
    /\ forall t, t ∈ hashtags r ->
         (cleaned_entry [ ("popular_hashtags",
                            JArr [JStr "Pasta Lover!"; JStr "al#dente"; JStr "x"]);
                          ("niche_hashtags", JArr [JStr "#Home-made"]) ] t /\ cleaned t)
         \/ bucket_character
              [ ("popular_hashtags",
                  JArr [JStr "Pasta Lover!"; JStr "al#dente"; JStr "x"]);
                ("niche_hashtags", JArr [JStr "#Home-made"]) ] t.
Proof.
  eexists. split; [reflexivity|]. split; [by vm_compute|].
  intros t Ht.
  destruct (C6_cleaned_tags Sample.json_analyzer (Sample.request 15) []
              (mkAI true (Some "{...}") None) "{...}" _ _
              eq_refl eq_refl eq_refl eq_refl eq_refl t Ht) as [Hreal|Hclean].
  - by apply elem_of_nil in Hreal.
  - exact Hclean.
Defined.

(** A string under the niche key is taken apart: its characters stand in
    the final list as they are. *)
Example string_bucket_run :
  exists r,
    Generator.synthesize Sample.string_analyzer (Sample.request 15) [] = Ok r
    /\ hashtags r = ["a"; "b"; "c"; "#PastaLover"].
Proof. eexists. split; reflexivity. Qed.

(** Against C6 as worded: a tag found by the fallback pattern reaches
    the final list with its underscore. *)
Lemma C6_unnormalized_tag :
  "#x_y" ∈ hashtags (Sample.run (mkAI true (Some "#a #b #c #x_y") None) 15)
  /\ ~ normalized "#x_y".
Proof.
  split.
  - assert (hashtags (Sample.run (mkAI true (Some "#a #b #c #x_y") None) 15)
            = ["#foodie2025RT"; "#healthyrecipesRT"; "#plantbasedmealsRT"; "#foodie2025";
               "#foodphotographyRT"; "#x_y"]) as -> by (by vm_compute).
    set_solver.
  - intros [(body & Heq & Hall) _]. injection Heq as <-.
    apply Forall_cons_1 in Hall as [_ Hall].
    apply Forall_cons_1 in Hall as [Hc _]. by vm_compute in Hc.
Qed.

(** ** Reasoning about runs *)

Section Runs.
Context {A B : Type}.
Implicit Types (s : state).

Lemma runs_ret (a : A) s (Q : result A -> state -> Prop) : Q (Ok a) s -> runs (ret a) s Q.
Proof. done. Qed.

Lemma runs_raise e s (Q : result A -> state -> Prop) : Q (Raise e) s -> runs (raise e) s Q.
Proof. done. Qed.

Lemma runs_bind (m : M A) (k : A -> M B) s (Q : result B -> state -> Prop) :
  runs m s (fun r s1 => match r with
                        | Ok a => runs (k a) s1 Q
                        | Raise e => Q (Raise e) s1
                        end) ->
  runs (bind m k) s Q.
Proof. unfold runs, bind. by destruct (m s) as [[a|e] s1]. Qed.

Lemma runs_try (m : M A) (h : exn -> M A) s (Q : result A -> state -> Prop) :
  runs m s (fun r s1 => match r with
                        | Ok a => Q (Ok a) s1
                        | Raise e => runs (h e) s1 Q
                        end) ->
  runs (try_except m h) s Q.
Proof. unfold runs, try_except. by destruct (m s) as [[a|e] s1]. Qed.

Lemma runs_weaken (m : M A) s (Q Q' : result A -> state -> Prop) :
  runs m s Q -> (forall r s1, Q r s1 -> Q' r s1) -> runs m s Q'.
Proof. unfold runs. auto. Qed.

End Runs.

(** ** Steps *)

Lemma ticked_refl s : ticked s s.
Proof. done. Qed.

Lemma ticked_trans s1 s2 s3 : ticked s1 s2 -> ticked s2 s3 -> ticked s1 s3.
Proof. unfold ticked. intros (?&?&?) (?&?&?). repeat split; congruence. Qed.

Section Steps.
Variable w : world.

Lemma step_refl s : step w s s.
Proof.
  split; [|done|done]. exists []. rewrite app_nil_r. split; [done|].
  split; [by intros ? ?%elem_of_nil|by intros ? ? ?].
Qed.

Lemma step_trans s1 s2 s3 : step w s1 s2 -> step w s2 s3 -> step w s1 s3.
Proof.
  intros [(n1 & Hs1 & Hf1 & Hb1) Hsub1 Hc1] [(n2 & Hs2 & Hf2 & Hb2) Hsub2 Hc2].
  split; [|set_solver|auto].
  exists (n1 ++ n2). split; [by rewrite Hs2, Hs1, app_assoc|]. split.
  - intros url [?|?]%elem_of_app; [auto|]. intros Hin. by eapply Hf2; [|apply Hsub1].
  - intros k url Hk Hresp. apply lookup_app_Some in Hk as [Hk|[Hlen Hk]].
    + apply Hsub2. by eapply Hb1.
    + eapply Hb2; [exact Hk|]. rewrite Hs1, length_app.
      by replace (length (sent s1) + length n1 + (k - length n1))%nat
        with (length (sent s1) + k)%nat by lia.
Qed.

Lemma ticked_step s s' : ticked s s' -> step w s s'.
Proof.
  intros (Hc & Hb & Hs). split.
  - exists []. rewrite app_nil_r. split; [done|].
    split; [by intros ? ?%elem_of_nil|by intros ? ? ?].
  - by rewrite Hb.
  - unfold cache_scored. by rewrite Hc.
Qed.

Lemma requested_step host url s s' :
  url_host url = host -> host ∉ blocked_sources s -> requested w host url s s' -> step w s s'.
Proof.
  intros Hhost Hfree (Hs & Hc & Hb & H403). split; [|done|].
  - exists [url]. split; [done|]. split.
    + intros u ->%list_elem_of_singleton. by rewrite Hhost.
    + intros k u Hk Hresp. destruct k as [|k]; [|done]. injection Hk as <-.
      rewrite Nat.add_0_r in Hresp. rewrite Hhost. by apply H403.
  - unfold cache_scored. by rewrite Hc.
Qed.

Lemma requested_ticked host url s s1 s2 :
  requested w host url s s1 -> ticked s1 s2 -> requested w host url s s2.
Proof.
  intros (Hs & Hc & Hb & H403) (Hc' & Hb' & Hs').
  repeat split; try congruence.
  - by rewrite Hb'.
  - rewrite Hb'. done.
Qed.

End Steps.

(** ** The curated table and the record loops *)

Section Records.
Variable w : world.

Lemma runs_strftime s (Q : result string -> state -> Prop) :
  (forall stamp s', ticked s s' -> Q (Ok stamp) s') -> runs (Fetcher.strftime w) s Q.
Proof. intros H. unfold runs. simpl. by apply H. Qed.

Lemma runs_now s (Q : result Q -> state -> Prop) :
  (forall s', ticked s s' -> Q (Ok (time_time w (ticks s))) s') -> runs (Fetcher.now w) s Q.
Proof. intros H. unfold runs. simpl. by apply H. Qed.

Lemma scored_intro tag platform z growth category stamp :
  0 < z -> scored (mkTHD tag platform (Some z) growth category stamp).
Proof. intros Hz. by exists z. Qed.

Lemma category_records_spec category platform i tags s :
  runs (Fetcher.category_records w category platform i tags) s
    (fun r s' =>
       ticked s s'
       /\ exists l, r = Ok l
                    /\ hashtag <$> l = tags
                    /\ (0 <= i -> i + Z.of_nat (length tags) <= 16 -> Forall scored l)).
Proof.
  revert i s. induction tags as [|t tags IH]; intros i s; simpl.
  - apply runs_ret. split; [done|]. exists []. by repeat split.
  - apply runs_bind, runs_strftime. intros stamp s1 Hs1.
    apply runs_bind. eapply runs_weaken; [apply IH|].
    intros r s2 (Hs2 & l & -> & Htags & Hscored).
    apply runs_ret. split; [by eapply ticked_trans|].
    eexists. split; [done|]. split; [by rewrite fmap_cons, Htags|].
    intros Hi Hlen. constructor.
    + apply scored_intro. lia.
    + apply Hscored; lia.
Qed.

Lemma hashtags_list_length category platform :
  (length (Fetcher.hashtags_list category platform) <= 10)%nat.
Proof.
  unfold Fetcher.hashtags_list, Fetcher.trending_data. simpl.
  repeat (case_decide; simpl; [repeat (case_decide; simpl; try lia)|]); lia.
Qed.

Lemma get_category_spec category platform s :
  runs (Fetcher._get_category_trending_hashtags w category platform) s
    (fun r s' =>
       ticked s s'
       /\ exists l, r = Ok l
                    /\ hashtag <$> l = Fetcher.hashtags_list category platform
                    /\ Forall scored l).
Proof.
  eapply runs_weaken; [apply category_records_spec|].
  intros r s' (Hs & l & -> & Htags & Hscored). split; [done|].
  exists l. repeat split; [done|]. apply Hscored; [done|].
  pose proof (hashtags_list_length category platform). lia.
Qed.

Lemma adjust_scored multiplier suffix h :
  multiplier = (12 # 10)%Q \/ multiplier = (1 # 1)%Q ->
  scored h -> scored (Fetcher.adjust multiplier suffix h).
Proof.
  intros Hm (z & Hz & Hpos). unfold Fetcher.adjust. rewrite Hz.
  destruct (decide (z = 0)) as [->|_]; [lia|].
  eexists. split; [reflexivity|].
  unfold Fetcher.int_of_Q. destruct Hm as [-> | ->]; simpl.
  - change (Z.pos (1 * 10)) with 10. apply Z.quot_str_pos. lia.
  - change (Z.pos (1 * 1)) with 1. rewrite Z.quot_1_r. lia.
Qed.

Lemma get_simulated_spec category platform source s :
  runs (Fetcher._get_simulated_trending_data w category platform source) s
    (fun r s' =>
       ticked s s'
       /\ exists l, r = Ok l
                    /\ length l = length (Fetcher.hashtags_list category platform)
                    /\ Forall scored l).
Proof.
  unfold Fetcher._get_simulated_trending_data.
  destruct (if decide (source = "ritetag") then _ else _) as [multiplier suffix] eqn:Hm.
  assert (multiplier = (12 # 10)%Q \/ multiplier = (1 # 1)%Q) as Hmult.
  { destruct (decide (source = "ritetag")); injection Hm as <- <-; auto. }
  apply runs_bind. eapply runs_weaken; [apply get_category_spec|].
  intros r s' (Hs & l & -> & Htags & Hscored).
  apply runs_ret. split; [done|]. eexists. split; [done|]. split.
  - by rewrite length_fmap, <- Htags, length_fmap.
  - apply Forall_fmap. eapply Forall_impl; [exact Hscored|].
    intros h Hh. by apply adjust_scored.
Qed.

Lemma instagram_records_spec category i elements s :
  runs (Fetcher.instagram_records w category i elements) s
    (fun r s' =>
       ticked s s'
       /\ exists l, r = Ok l
                    /\ (0 <= i -> i + Z.of_nat (length elements) <= 20 -> Forall scored l)).
Proof.
  revert i s. induction elements as [|el elements IH]; intros i s;
    cbn [Fetcher.instagram_records].
  - apply runs_ret. split; [done|]. exists []. by split.
  - destruct (PyStr.startswith "#" (PyStr.strip el)).
    + apply runs_bind, runs_strftime. intros stamp s1 Hs1.
      apply runs_bind. eapply runs_weaken; [apply IH|].
      intros r s2 (Hs2 & l & -> & Hscored).
      apply runs_ret. split; [by eapply ticked_trans|].
      eexists. split; [done|]. intros Hi Hlen. cbn [length] in Hlen. constructor.
      * apply scored_intro. lia.
      * apply Hscored; lia.
    + eapply runs_weaken; [apply IH|].
      intros r s2 (Hs2 & l & -> & Hscored). split; [done|].
      exists l. split; [done|]. intros Hi Hlen. cbn [length] in Hlen. apply Hscored; lia.
Qed.

Lemma site_records_spec category platform base growth i elements s :
  runs (Fetcher.site_records w category platform base growth i elements) s
    (fun r s' =>
       ticked s s'
       /\ exists l, r = Ok l
                    /\ length l = length elements
                    /\ (0 <= i -> (i + Z.of_nat (length elements)) * 50 < base + 50 ->
                        Forall scored l)).
Proof.
  revert i s. induction elements as [|el elements IH]; intros i s; simpl.
  - apply runs_ret. split; [done|]. exists []. by repeat split.
  - apply runs_bind, runs_strftime. intros stamp s1 Hs1.
    apply runs_bind. eapply runs_weaken; [apply IH|].
    intros r s2 (Hs2 & l & -> & Hlen & Hscored).
    apply runs_ret. split; [by eapply ticked_trans|].
    eexists. split; [done|]. split; [by rewrite <- Hlen|].
    intros Hi Hb. constructor.
    + apply scored_intro. lia.
    + apply Hscored; lia.
Qed.

End Records.

(** ** Sorting and deduplication of records *)

Lemma insert_desc_perm x l : Fetcher.insert_desc x l ≡ₚ x :: l.
Proof.
  induction l as [|y l IH]; simpl; [done|].
  destruct (_ <? _); [|done]. rewrite IH. apply Permutation_swap.
Qed.

Lemma sorted_desc_perm l : Fetcher.sorted_desc l ≡ₚ l.
Proof.
  induction l as [|x l IH]; simpl; [done|].
  rewrite insert_desc_perm. by constructor.
Qed.

Lemma insert_desc_sorted x l :
  StronglySorted not_below l -> StronglySorted not_below (Fetcher.insert_desc x l).
Proof.
  induction 1 as [|y l Hl IH Hy]; simpl.
  - repeat constructor.
  - destruct (_ <? _) eqn:Hlt.
    + apply Z.ltb_lt in Hlt. constructor; [done|].
      rewrite insert_desc_perm. constructor; [|done].
      unfold not_below. lia.
    + apply Z.ltb_ge in Hlt. constructor; [by constructor|].
      constructor; [done|].
      eapply Forall_impl; [exact Hy|]. unfold not_below. intros z ?. lia.
Qed.

Lemma sorted_desc_sorted l : StronglySorted not_below (Fetcher.sorted_desc l).
Proof.
  induction l as [|x l IH]; simpl; [constructor|]. by apply insert_desc_sorted.
Qed.

(** Stability: records of equal score keep their order. *)
Lemma insert_desc_stable k x l :
  filter (with_score k) (Fetcher.insert_desc x l) = filter (with_score k) (x :: l).
Proof.
  induction l as [|y l IH]; simpl; [done|].
  destruct (_ <? _) eqn:Hlt; [|done].
  apply Z.ltb_lt in Hlt.
  rewrite (filter_cons _ y), IH, !filter_cons.
  unfold with_score.
  destruct (decide (Fetcher.score_key y = k)), (decide (Fetcher.score_key x = k));
    try done; lia.
Qed.

Lemma sorted_desc_stable k l :
  filter (with_score k) (Fetcher.sorted_desc l) = filter (with_score k) l.
Proof.
  induction l as [|x l IH]; simpl; [done|].
  by rewrite insert_desc_stable, !filter_cons, IH.
Qed.

Lemma filter_head_split {A} (P : A -> Prop) `{!forall x, Decision (P x)} (l : list A) y rest :
  filter P l = y :: rest ->
  exists pre post, l = pre ++ y :: post /\ Forall (fun x => ~ P x) pre.
Proof.
  induction l as [|x l IH]; [done|].
  rewrite filter_cons. destruct (decide (P x)) as [Hx|Hx].
  - intros [= -> _]. by exists [], l.
  - intros (pre & post & -> & Hpre)%IH. exists (x :: pre), post.
    split; [done|]. by constructor.
Qed.

Lemma filter_none {A} (P : A -> Prop) `{!forall x, Decision (P x)} (l : list A) :
  (forall x, x ∈ l -> ~ P x) -> filter P l = [].
Proof.
  induction l as [|x l IH]; intros Hl; [done|].
  rewrite filter_cons, decide_False by (apply Hl, list_elem_of_here).
  apply IH. intros y Hy. by apply Hl, list_elem_of_further.
Qed.

(** What [_remove_duplicate_hashtags] keeps of a pool. *)
Lemma remove_duplicates_spec pool :
  let out := Fetcher._remove_duplicate_hashtags pool in
  out `sublist_of` Fetcher.sorted_desc pool
  /\ NoDup (group <$> out)
  /\ (forall x, x ∈ pool -> exists y, y ∈ out /\ group y = group x)
  /\ (forall y, y ∈ out ->
        y ∈ pool
        /\ (forall x, x ∈ pool -> group x = group y ->
              Fetcher.score_key x <= Fetcher.score_key y)
        /\ exists pre post,
             pool = pre ++ y :: post
             /\ forall x, x ∈ pre -> group x = group y ->
                  Fetcher.score_key x < Fetcher.score_key y).
Proof.
  unfold Fetcher._remove_duplicate_hashtags.
  rewrite fetcher_unique_from_first_seen. fold group.
  change (fun h : TrendingHashtagData => PyStr.lower (hashtag h)) with group.
  set (S := Fetcher.sorted_desc pool).
  pose proof (sorted_desc_perm pool) as Hperm. fold S in Hperm.
  pose proof (sorted_desc_sorted pool) as Hsorted. fold S in Hsorted.
  cbv zeta. split; [apply first_seen_sublist|].
  split; [apply first_seen_NoDup|].
  split.
  { intros x Hx. apply first_seen_covers; [by rewrite Hperm|set_solver]. }
  intros y Hy.
  assert (y ∈ pool) as Hin.
  { rewrite <- Hperm. eapply elem_of_sublist; [exact Hy|apply first_seen_sublist]. }
  apply first_seen_first in Hy as (pre' & post' & HS & Hpre').
  assert (forall x, x ∈ pool -> group x = group y ->
            Fetcher.score_key x <= Fetcher.score_key y) as Hmax.
  { intros x Hx Hg. rewrite <- Hperm, HS in Hx.
    apply elem_of_app in Hx as [Hx|Hx]; [by apply Hpre' in Hx|].
    apply elem_of_cons in Hx as [->|Hx]; [done|].
    rewrite HS in Hsorted. apply StronglySorted_app_1_r in Hsorted.
    apply StronglySorted_cons in Hsorted as [Hall _].
    by eapply Forall_forall in Hall. }
  split; [done|]. split; [done|].
  set (P := fun x => group x = group y /\ with_score (Fetcher.score_key y) x).
  assert (exists rest, filter P pool = y :: rest) as [rest Hrest].
  { assert (filter P pool = filter P S) as ->.
    { unfold P. rewrite <- !list_filter_filter. f_equal.
      symmetry. apply sorted_desc_stable. }
    rewrite HS, filter_app, filter_cons.
    rewrite decide_True by done.
    assert (filter P pre' = []) as ->; [|by eexists].
    apply filter_none. intros x Hx [Hg _]. by apply Hpre' in Hx. }
  apply filter_head_split in Hrest as (pre & post & Hpool & Hpre).
  exists pre, post. split; [done|].
  intros x Hx Hg.
  assert (Fetcher.score_key x <= Fetcher.score_key y) as Hle.
  { apply Hmax; [|done]. rewrite Hpool. apply elem_of_app. by left. }
  eapply Forall_forall in Hpre; [|exact Hx].
  assert (Fetcher.score_key x <> Fetcher.score_key y) as Hne.
  { intros Heq. apply Hpre. by split. }
  lia.
Qed.

(** ** Scraping *)

Lemma host_top_hashtags q :
  url_host ("https://top-hashtags.com/instagram/" +:+ q +:+ "/") = "top-hashtags.com".
Proof. reflexivity. Qed.

Lemma host_all_hashtag q :
  url_host ("https://all-hashtag.com/top-hashtags.php?keyword=" +:+ q) = "all-hashtag.com".
Proof. reflexivity. Qed.

Lemma host_hashtagsforlikes q :
  url_host ("https://hashtagsforlikes.co/hashtag/" +:+ q) = "hashtagsforlikes.co".
Proof. reflexivity. Qed.

Section Scraping.
Variable w : world.

Lemma runs_http url s (Q : result http_outcome -> state -> Prop) :
  Q (Ok (requests_get w (length (sent s)) url)) (logged s url) ->
  runs (Fetcher.http w url) s Q.
Proof. done. Qed.

Lemma runs_is_blocked host s (Q : result bool -> state -> Prop) :
  Q (Ok (bool_decide (host ∈ blocked_sources s))) s -> runs (Fetcher.is_blocked host) s Q.
Proof. done. Qed.

Lemma requested_logged host url s :
  requests_get w (length (sent s)) url <> HTTPError (Some 403) ->
  requested w host url s (logged s url).
Proof. intros Hne. by repeat split. Qed.

Lemma requested_blocked host url s :
  requested w host url s
    (mkState (cache s) ({[host]} ∪ blocked_sources s) (ticks s) (sent s ++ [url])).
Proof. repeat split; simpl; set_solver. Qed.

Lemma scrape_instagram_unblocked category s :
  let url := "https://top-hashtags.com/instagram/"
             +:+ Fetcher.quote_plus (PyStr.lower category) +:+ "/" in
  "top-hashtags.com" ∉ blocked_sources s ->
  runs (Fetcher._scrape_instagram_trends w category) s
    (scraped w "top-hashtags.com" url s).
Proof.
  intros url Hfree. unfold Fetcher._scrape_instagram_trends.
  apply runs_bind, runs_is_blocked. rewrite bool_decide_eq_false_2 by done.
  apply runs_bind, runs_http. fold url.
  destruct (requests_get w (length (sent s)) url) as [elements|[status|]|msg|msg] eqn:Hresp.
  - eapply runs_weaken; [apply instagram_records_spec|].
    intros r s2 (Hs2 & l & -> & Hscored). split.
    + eapply requested_ticked; [|exact Hs2]. apply requested_logged. by rewrite Hresp.
    + intros ? [= <-]. apply Hscored; [done|].
      rewrite length_take. lia.
  - destruct (decide (status = 403)) as [->|Hne].
    + apply runs_bind. unfold runs at 1. simpl. apply runs_ret. split.
      * apply requested_blocked.
      * intros ? [= <-]. constructor.
    + apply runs_ret. split; [|by intros ? [= <-]; constructor].
      apply requested_logged. rewrite Hresp. congruence.
  - apply runs_raise. split; [|done]. apply requested_logged. by rewrite Hresp.
  - apply runs_ret. split; [|by intros ? [= <-]; constructor].
    apply requested_logged. by rewrite Hresp.
  - apply runs_ret. split; [|by intros ? [= <-]; constructor].
    apply requested_logged. by rewrite Hresp.
Qed.

Lemma scrape_instagram_blocked category s :
  "top-hashtags.com" ∈ blocked_sources s ->
  Fetcher._scrape_instagram_trends w category s = (Ok [], s).
Proof.
  intros Hb. unfold Fetcher._scrape_instagram_trends, bind, Fetcher.is_blocked.
  by rewrite bool_decide_eq_true_2.
Qed.

Lemma scrape_instagram_spec category s :
  runs (Fetcher._scrape_instagram_trends w category) s
    (fun r s' => step w s s' /\ forall l, r = Ok l -> Forall scored l).
Proof.
  destruct (decide ("top-hashtags.com" ∈ blocked_sources s)) as [Hb|Hb].
  - unfold runs. rewrite scrape_instagram_blocked by done. simpl.
    split; [apply step_refl|]. intros ? [= <-]. constructor.
  - eapply runs_weaken; [by apply scrape_instagram_unblocked|].
    intros r s' [Hreq Hscored]. split; [|done].
    eapply requested_step; [apply host_top_hashtags|done|exact Hreq].
Qed.

Lemma scrape_site_spec host url category platform base growth limit s :
  Z.of_nat limit * 50 < base + 50 ->
  runs (Fetcher.scrape_site w host url category platform base growth limit) s
    (fun r s' => scraped w host url s r s'
                 /\ forall l, r = Ok l -> (length l <= limit)%nat).
Proof.
  intros Hlimit. unfold Fetcher.scrape_site.
  apply runs_bind, runs_http.
  destruct (requests_get w (length (sent s)) url) as [elements|[status|]|msg|msg] eqn:Hresp.
  - eapply runs_weaken; [apply site_records_spec|].
    intros r s2 (Hs2 & l & -> & Hlen & Hscored). split; [split|].
    + eapply requested_ticked; [|exact Hs2]. apply requested_logged. by rewrite Hresp.
    + intros ? [= <-]. apply Hscored; [done|].
      rewrite length_take. lia.
    + intros ? [= <-]. rewrite Hlen, length_take. lia.
  - destruct (decide (status = 403)) as [->|Hne].
    + apply runs_bind. unfold runs at 1. simpl. apply runs_ret. split; [split|].
      * apply requested_blocked.
      * intros ? [= <-]. constructor.
      * intros ? [= <-]. simpl. lia.
    + apply runs_ret. split; [split|].
      * apply requested_logged. rewrite Hresp. congruence.
      * intros ? [= <-]. constructor.
      * intros ? [= <-]. simpl. lia.
  - apply runs_raise. split; [split|]; [|done|done].
    apply requested_logged. by rewrite Hresp.
  - apply runs_ret. split; [split|].
    + apply requested_logged. by rewrite Hresp.
    + intros ? [= <-]. constructor.
    + intros ? [= <-]. simpl. lia.
  - apply runs_ret. split; [split|].
    + apply requested_logged. by rewrite Hresp.
    + intros ? [= <-]. constructor.
    + intros ? [= <-]. simpl. lia.
Qed.

Lemma scrape_trend_websites_spec category platform s :
  runs (Fetcher._scrape_trend_websites w category platform) s
    (fun r s' =>
       step w s s'
       /\ forall l, r = Ok l ->
            Forall scored l
            /\ (Fetcher.hashtags_list category platform <> [] -> l <> [])).
Proof.
  unfold Fetcher._scrape_trend_websites.
  set (q := Fetcher.quote_plus (PyStr.lower category)).
  apply runs_bind, runs_is_blocked.
  apply runs_bind.
  apply (runs_weaken _ _
           (fun r s1 => step w s s1 /\ forall l, r = Ok l -> Forall scored l)).
  { case_bool_decide as Hb1.
    - apply runs_ret. split; [apply step_refl|]. intros ? [= <-]. constructor.
    - eapply runs_weaken; [apply scrape_site_spec; lia|].
      intros r s1 [[Hreq Hsc] _]. split; [|done].
      eapply requested_step; [apply host_all_hashtag|done|exact Hreq]. }
  intros [h1|e1] s1 [Hstep1 Hsc1]; [|by split].
  specialize (Hsc1 _ eq_refl).
  apply runs_bind, runs_is_blocked.
  apply runs_bind.
  apply (runs_weaken _ _
           (fun r s2 => step w s1 s2 /\ forall l, r = Ok l -> Forall scored l)).
  { destruct (_ && _) eqn:Hcond.
    - apply andb_true_iff in Hcond as [_ Hb2%negb_true_iff%bool_decide_eq_false].
      apply runs_bind. eapply runs_weaken; [apply scrape_site_spec; lia|].
      intros [more|e] s2 [[Hreq Hsc] _].
      + apply runs_ret. split.
        * eapply requested_step; [apply host_hashtagsforlikes|done|exact Hreq].
        * intros ? [= <-]. apply Forall_app. split; [done|by apply Hsc].
      + split; [|done].
        eapply requested_step; [apply host_hashtagsforlikes|done|exact Hreq].
    - apply runs_ret. split; [apply step_refl|]. by intros ? [= <-]. }
  intros [h2|e2] s2 [Hstep2 Hsc2]; [|split; [by eapply step_trans|done]].
  specialize (Hsc2 _ eq_refl).
  destruct (length h2 <? 5)%nat eqn:Hlen.
  - apply runs_bind. eapply runs_weaken; [apply get_category_spec|].
    intros r s3 (Hs3 & l & -> & Htags & Hsc3).
    apply runs_ret. split.
    + eapply step_trans; [exact Hstep1|]. eapply step_trans; [exact Hstep2|].
      by apply ticked_step.
    + intros ? [= <-]. split; [apply Forall_app; by split|].
      intros Hne Happ. apply app_eq_nil in Happ as [_ ->].
      by rewrite fmap_nil in Htags.
  - apply runs_ret. split; [by eapply step_trans|].
    intros ? [= <-]. split; [done|]. intros _ ->.
    simpl in Hlen. discriminate.
Qed.

End Scraping.

(** ** The cache *)

Section Cache.
Variable w : world.

Lemma get_from_cache_eq key s :
  Fetcher._get_from_cache w key s =
    match cache s !! key with
    | Some e =>
        (Ok (if Qlt_le_dec (time_time w (ticks s) - ce_timestamp e) Fetcher.cache_duration
             then Some (ce_data e) else None), tick s)
    | None => (Ok None, s)
    end.
Proof.
  unfold Fetcher._get_from_cache, Fetcher._is_cache_valid, bind, Fetcher.now, ret.
  destruct (cache s !! key) as [e|] eqn:He; [|done]. simpl.
  destruct (Qlt_le_dec _ _); [|done]. simpl. by rewrite He.
Qed.

Lemma save_to_cache_eq key data s :
  Fetcher._save_to_cache w key data s = (Ok tt, saved w key data s).
Proof. done. Qed.

Lemma ticked_tick s : ticked s (tick s).
Proof. done. Qed.

Lemma runs_get_from_cache key s (Q : result (option cache_data) -> state -> Prop) :
  (forall s' r, ticked s s' ->
     ((r = None /\ fresh_entry w key s = None)
      \/ exists e, cache s !! key = Some e /\ fresh_entry w key s = Some e
                   /\ r = Some (ce_data e)) ->
     Q (Ok r) s') ->
  runs (Fetcher._get_from_cache w key) s Q.
Proof.
  intros H. unfold runs. rewrite get_from_cache_eq. unfold fresh_entry in H.
  destruct (cache s !! key) as [e|] eqn:He; simpl.
  - apply H; [apply ticked_tick|]. destruct (Qlt_le_dec _ _); eauto.
  - apply H; [done|]. by left.
Qed.

Lemma saved_step key data s :
  Forall scored (cd_hashtags data) -> step w s (saved w key data s).
Proof.
  intros Hdata. split; [|done|].
  - exists []. rewrite app_nil_r. split; [done|].
    split; [by intros ? ?%elem_of_nil|by intros ? ? ?].
  - intros Hc k e. simpl. intros [[_ <-]|[_ He]]%lookup_insert_Some; [done|].
    by eapply Hc.
Qed.

Lemma runs_save_to_cache key data s (Q : result unit -> state -> Prop) :
  Q (Ok tt) (saved w key data s) -> runs (Fetcher._save_to_cache w key data) s Q.
Proof. done. Qed.

End Cache.

(** ** Providers *)

Section Providers.
Variable w : world.

Lemma cached_scored s key e :
  cache s !! key = Some e -> cache_scored s -> Forall scored (cd_hashtags (ce_data e)).
Proof. intros He Hc. by eapply Hc. Qed.

Lemma simulated_provider_spec provider category platform source src_cache src_fresh s :
  runs
    (try_except
       (cached_data <- Fetcher._get_from_cache w
                         (Fetcher.cache_key provider category platform) ;;
        match cached_data with
        | Some cd => ret (mkTR (cd_hashtags cd) src_cache category platform true None)
        | None =>
            trending_hashtags <-
              Fetcher._get_simulated_trending_data w category platform source ;;
            Fetcher._save_to_cache w (Fetcher.cache_key provider category platform)
              (mkCD trending_hashtags category platform) ;;;
            ret (mkTR trending_hashtags src_fresh category platform true None)
        end)
       (fun e => ret (mkTR [] provider category platform false (Some (exn_str e)))))
    s (fun r s' =>
         provided w s r s'
         /\ forall tr, r = Ok tr ->
              tr_source tr
              = match fresh_entry w (Fetcher.cache_key provider category platform) s with
                | Some _ => src_cache
                | None => src_fresh
                end).
Proof.
  apply runs_try, runs_bind, runs_get_from_cache.
  intros s1 [cd|] Hs1 Hr.
  - destruct Hr as [[? _]|(e & He & Hfresh & [= ->])]; [done|].
    apply runs_ret. split; [split|].
    + by apply ticked_step.
    + eexists. split; [done|]. simpl. by eapply cached_scored.
    + intros ? [= <-]. by rewrite Hfresh.
  - destruct Hr as [[_ Hfresh]|(e & _ & _ & ?)]; [|done].
    apply runs_bind. eapply runs_weaken; [apply get_simulated_spec|].
    intros r s2 (Hs2 & l & -> & _ & Hscored).
    apply runs_bind, runs_save_to_cache, runs_ret. split; [split|].
    + eapply step_trans; [apply ticked_step; by eapply ticked_trans|].
      by apply saved_step.
    + eexists. split; [done|]. done.
    + intros ? [= <-]. by rewrite Hfresh.
Qed.

Lemma hashtagify_spec category platform s :
  runs (Fetcher.fetch_trending_from_hashtagify w category platform) s (provided w s).
Proof. eapply runs_weaken; [apply simulated_provider_spec|]. by intros r s' [? _]. Qed.

Lemma ritetag_spec category platform s :
  runs (Fetcher.fetch_trending_from_ritetag w category platform) s (provided w s).
Proof. eapply runs_weaken; [apply simulated_provider_spec|]. by intros r s' [? _]. Qed.

Lemma remove_duplicates_scored pool :
  Forall scored pool -> Forall scored (Fetcher._remove_duplicate_hashtags pool).
Proof.
  intros Hpool. apply Forall_forall. intros y Hy.
  destruct (remove_duplicates_spec pool) as (_ & _ & _ & Hout).
  destruct (Hout y Hy) as [Hin _]. by eapply Forall_forall in Hpool.
Qed.

Lemma remove_duplicates_nonempty pool :
  pool <> [] -> Fetcher._remove_duplicate_hashtags pool <> [].
Proof.
  destruct pool as [|x pool]; [done|]. intros _ Hnil.
  destruct (remove_duplicates_spec (x :: pool)) as (_ & _ & Hcov & _).
  destruct (Hcov x) as (y & Hy & _); [apply list_elem_of_here|].
  rewrite Hnil in Hy. by apply elem_of_nil in Hy.
Qed.

Lemma take_nonempty {A} n (l : list A) : (0 < n)%nat -> l <> [] -> take n l <> [].
Proof. destruct n, l; simpl; try done; lia. Qed.

(** The web-scraping provider also always reports success, and on a cache
    miss its list is non-empty wherever the curated table has an entry. *)
Lemma web_scraping_spec category platform s :
  runs (Fetcher.fetch_trending_from_web_scraping w category platform) s
    (fun r s' =>
       provided w s r s'
       /\ forall tr, r = Ok tr ->
            tr_success tr = true
            /\ (fresh_entry w (Fetcher.cache_key "webscrape" category platform) s = None ->
                Fetcher.hashtags_list category platform <> [] ->
                tr_hashtags tr <> [])
            /\ tr_source tr
               = match fresh_entry w (Fetcher.cache_key "webscrape" category platform) s with
                 | Some _ => "webscrape_cache"
                 | None => "web_scraping_with_fallback"
                 end).
Proof.
  unfold Fetcher.fetch_trending_from_web_scraping.
  apply runs_try, runs_bind, runs_get_from_cache.
  intros s1 [cd|] Hs1 Hr.
  - destruct Hr as [[? _]|(e & He & Hfresh & [= ->])]; [done|].
    apply runs_ret. split; [split|].
    + by apply ticked_step.
    + eexists. split; [done|]. simpl. by eapply cached_scored.
    + intros ? [= <-]. split; [done|]. split; [|by rewrite Hfresh].
      intros Hmiss. by rewrite Hmiss in Hfresh.
  - destruct Hr as [[_ Hfresh]|(e & _ & _ & ?)]; [|done].
    apply runs_bind.
    apply (runs_weaken _ _
             (fun r s2 => step w s1 s2
                          /\ exists l, r = Ok l /\ Forall scored l
                             /\ (Fetcher.hashtags_list category platform <> [] -> l <> []))).
    { apply runs_try, runs_bind.
      apply (runs_weaken _ _
               (fun r s2 => step w s1 s2 /\ forall l, r = Ok l -> Forall scored l)).
      { destruct (decide (platform = "instagram")).
        - apply scrape_instagram_spec.
        - apply runs_ret. split; [apply step_refl|]. intros ? [= <-]. constructor. }
      intros [h1|e1] s2 [Hstep2 Hsc1].
      - apply runs_bind.
        eapply runs_weaken; [apply scrape_trend_websites_spec|].
        intros [h2|e2] s3 [Hstep3 Hsc2].
        + apply runs_ret. split; [by eapply step_trans|].
          destruct (Hsc2 _ eq_refl) as [Hsc Hne].
          eexists. split; [done|]. split; [apply Forall_app; split; auto|].
          intros Hcur Happ. apply app_eq_nil in Happ as [_ ?]. by apply Hne.
        + eapply runs_weaken; [apply get_simulated_spec|].
          intros r s4 (Hs4 & l & -> & Hlen & Hscored). split.
          * eapply step_trans; [exact Hstep2|]. eapply step_trans; [exact Hstep3|].
            by apply ticked_step.
          * exists l. repeat split; [done|]. intros Hcur ->.
            apply Hcur. symmetry in Hlen. by apply nil_length_inv in Hlen.
      - eapply runs_weaken; [apply get_simulated_spec|].
        intros r s4 (Hs4 & l & -> & Hlen & Hscored). split.
        + eapply step_trans; [exact Hstep2|]. by apply ticked_step.
        + exists l. repeat split; [done|]. intros Hcur ->.
          apply Hcur. symmetry in Hlen. by apply nil_length_inv in Hlen. }
    intros r s2 (Hstep2 & l & -> & Hscored & Hne).
    apply runs_bind.
    apply (runs_weaken _ _
             (fun r s3 => step w s1 s3
                          /\ exists l, r = Ok l /\ Forall scored l
                             /\ (Fetcher.hashtags_list category platform <> [] -> l <> []))).
    { destruct l as [|x l].
      - eapply runs_weaken; [apply get_simulated_spec|].
        intros r s4 (Hs4 & l & -> & Hlen & Hsc). split.
        + eapply step_trans; [exact Hstep2|]. by apply ticked_step.
        + exists l. repeat split; [done|]. intros Hcur ->.
          apply Hcur. symmetry in Hlen. by apply nil_length_inv in Hlen.
      - apply runs_ret. split; [done|]. by exists (x :: l). }
    clear dependent l. intros r s3 (Hstep3 & l & -> & Hscored & Hne).
    apply runs_bind, runs_save_to_cache, runs_ret.
    assert (Forall scored (take 20 (Fetcher._remove_duplicate_hashtags l))) as Htake.
    { apply Forall_take. by apply remove_duplicates_scored. }
    split; [split|].
    + eapply step_trans; [by apply ticked_step|].
      eapply step_trans; [exact Hstep3|]. by apply saved_step.
    + eexists. split; [done|]. done.
    + intros ? [= <-]. split; [done|]. split; [|by rewrite Hfresh].
      intros _ Hcur. simpl.
      apply take_nonempty; [lia|]. by apply remove_duplicates_nonempty, Hne.
Qed.

End Providers.

(** ** The aggregator *)

Section Aggregator.
Variable w : world.

(** One round of the loop over the sources. *)
Lemma try_source_spec name (fetch : string -> string -> M TrendingResult) category platform
    (acc : list TrendingHashtagData * list string) s (P : TrendingResult -> Prop) :
  runs (fetch category platform) s
    (fun r s' => provided w s r s' /\ forall tr, r = Ok tr -> P tr) ->
  runs (Fetcher.try_sources [(name, fetch)] category platform acc) s
    (fun r s' =>
       step w s s'
       /\ exists tr,
            r = Ok (if tr_success tr && truthy (tr_hashtags tr)
                    then acc.1 ++ tr_hashtags tr else acc.1,
                    acc.2 ++ [name])
            /\ (cache_scored s -> Forall scored (tr_hashtags tr))
            /\ P tr).
Proof.
  intros Hfetch. cbn [Fetcher.try_sources].
  apply runs_bind.
  apply (runs_weaken _ _
           (fun r s' =>
              step w s s'
              /\ exists tr,
                   r = Ok (if tr_success tr && truthy (tr_hashtags tr)
                           then acc.1 ++ tr_hashtags tr else acc.1,
                           acc.2 ++ [name])
                   /\ (cache_scored s -> Forall scored (tr_hashtags tr))
                   /\ P tr)).
  - apply runs_try, runs_bind. eapply runs_weaken; [exact Hfetch|].
    intros r s' [[Hstep (tr & -> & Hsc)] HP].
    destruct (tr_success tr && truthy (tr_hashtags tr)) eqn:Hcond;
      apply runs_ret; (split; [done|]); exists tr; rewrite Hcond; auto.
  - intros r s' (Hstep & tr & -> & Hsc & HP). apply runs_ret. eauto.
Qed.

Lemma try_sources_cons src rest category platform acc s
    (Q : result (list TrendingHashtagData * list string) -> state -> Prop) :
  runs (Fetcher.try_sources [src] category platform acc) s
    (fun r s1 => match r with
                 | Ok acc' => runs (Fetcher.try_sources rest category platform acc') s1 Q
                 | Raise e => Q (Raise e) s1
                 end) ->
  runs (Fetcher.try_sources (src :: rest) category platform acc) s Q.
Proof.
  destruct src as [name fetch]. cbn [Fetcher.try_sources]. intros H.
  unfold runs, bind in *.
  destruct (try_except _ _ s) as [[acc'|e] s1]; simpl in *; [|done].
  done.
Qed.

Lemma get_trending_spec category platform max_count s :
  runs (Fetcher.get_trending_hashtags w category platform max_count) s
    (aggregated w category platform max_count s).
Proof.
  unfold Fetcher.get_trending_hashtags, Fetcher.sources.
  apply runs_bind.
  apply (runs_weaken _ _
           (fun r s' =>
              step w s s'
              /\ exists acc, r = Ok acc
                   /\ (cache_scored s -> Forall scored acc.1)
                   /\ (fresh_entry w (Fetcher.cache_key "webscrape" category platform) s = None ->
                       Fetcher.hashtags_list category platform <> [] -> acc.1 <> []))).
  - apply try_sources_cons.
    eapply runs_weaken; [apply try_source_spec, web_scraping_spec|].
    intros r s1 (Hstep1 & tr1 & -> & Hsc1 & Hweb).
    destruct Hweb as (Hok1 & Hne1 & _).
    apply try_sources_cons.
    eapply runs_weaken.
    { apply (try_source_spec _ _ _ _ _ _ (fun _ => True)).
      eapply runs_weaken; [apply hashtagify_spec|]. by intros. }
    intros r s2 (Hstep2 & tr2 & -> & Hsc2 & _).
    eapply runs_weaken.
    { apply (try_source_spec _ _ _ _ _ _ (fun _ => True)).
      eapply runs_weaken; [apply ritetag_spec|]. by intros. }
    intros r s3 (Hstep3 & tr3 & -> & Hsc3 & _).
    split; [eapply step_trans; [|exact Hstep3]; by eapply step_trans|].
    eexists. split; [done|]. cbn [fst snd app].
    assert (cache_scored s -> cache_scored s1) as Hc1 by apply Hstep1.
    assert (cache_scored s1 -> cache_scored s2) as Hc2 by apply Hstep2.
    rewrite Hok1. cbn [andb]. split.
    + intros Hc.
      repeat match goal with
             | |- context [if ?b then _ else _] => destruct b
             end;
        rewrite ?Forall_app; repeat split; auto.
    + intros Hmiss Hcur. specialize (Hne1 Hmiss Hcur).
      destruct (tr_hashtags tr1) as [|x l1]; [done|]. simpl.
      repeat match goal with
             | |- context [if ?b then _ else _] => destruct b
             end; done.
  - intros r s1 (Hstep & [pool tried] & -> & Hsc & Hne). simpl in *.
    destruct pool as [|x pool]; apply runs_ret; (split; [done|]).
    + eexists _, []. by repeat split.
    + eexists _, (x :: pool). by repeat split.
Qed.

Lemma get_trending_scored category platform max_count s :
  cache_scored s ->
  runs (Fetcher.get_trending_hashtags w category platform max_count) s
    (fun r s' => cache_scored s' /\ exists tr, r = Ok tr /\ Forall scored (tr_hashtags tr)).
Proof.
  intros Hc. eapply runs_weaken; [apply get_trending_spec|].
  intros r s' (Hstep & tr & pool & -> & Hsc & _ & Hres).
  split; [by apply Hstep|]. exists tr. split; [done|].
  destruct pool as [|x pool]; destruct Hres as [_ ->]; [constructor|].
  eapply Forall_forall. intros y Hy.
  assert (y ∈ Fetcher._remove_duplicate_hashtags (x :: pool)) as Hy'.
  { eapply elem_of_sublist; [exact Hy|apply slice_to_sublist]. }
  eapply Forall_forall in Hy'; [exact Hy'|].
  by apply remove_duplicates_scored, Hsc.
Qed.

(** Generating touches the fetcher only through the aggregation. *)
Lemma get_real_trending_state category platform max_count s :
  (Generator._get_real_trending_hashtags w category platform max_count s).2
  = (Fetcher.get_trending_hashtags w category platform max_count s).2.
Proof.
  unfold Generator._get_real_trending_hashtags, try_except, bind.
  destruct (Fetcher.get_trending_hashtags w category platform max_count s) as [[tr|e] s1];
    [|done].
  by destruct (tr_success tr).
Qed.

Lemma generate_step c request s :
  step w s (Generator.generate_enhanced_hashtags c w request s).2.
Proof.
  destruct (get_real_trending_returns w (Generator.category_of request)
              (platform request) 8 s) as (real & s1 & Hreal).
  rewrite (generate_eq c w _ _ _ _ Hreal).
  change s1 with (Ok real, s1).2. rewrite <- Hreal, get_real_trending_state.
  apply (get_trending_spec (Generator.category_of request) (platform request) 8 s).
Qed.

(** Every call is a lawful step. *)
Lemma after_call_step o s : step w s (after_call w o s).
Proof.
  destruct o as [c request|category platform max_count|category platform
                |category platform|category platform|category|category platform]; simpl.
  - apply generate_step.
  - apply (get_trending_spec category platform max_count s).
  - apply (web_scraping_spec w category platform s).
  - apply (hashtagify_spec w category platform s).
  - apply (ritetag_spec w category platform s).
  - apply (scrape_instagram_spec w category s).
  - apply (scrape_trend_websites_spec w category platform s).
Qed.

Lemma after_calls_step calls s : step w s (after_calls w calls s).
Proof.
  revert s. induction calls as [|o calls IH]; intros s; simpl.
  - apply step_refl.
  - eapply step_trans; [apply after_call_step|apply IH].
Qed.

End Aggregator.

Lemma sublist_sorted {A} (R : relation A) (l1 l2 : list A) :
  l1 `sublist_of` l2 -> StronglySorted R l2 -> StronglySorted R l1.
Proof.
  induction 1 as [|x l1 l2 Hsub IH|x l1 l2 Hsub IH]; intros Hs.
  - constructor.
  - apply StronglySorted_cons in Hs as [Hall Hs]. constructor; [by apply IH|].
    apply Forall_forall. intros y Hy. eapply Forall_forall in Hall; [exact Hall|].
    by eapply elem_of_sublist.
  - apply StronglySorted_cons in Hs as [_ Hs]. by apply IH.
Qed.

Lemma filter_sublist_mono {A} (P : A -> Prop) `{!forall x, Decision (P x)} (l1 l2 : list A) :
  l1 `sublist_of` l2 -> filter P l1 `sublist_of` filter P l2.
Proof.
  induction 1 as [|x l1 l2 Hsub IH|x l1 l2 Hsub IH]; rewrite ?filter_cons.
  - constructor.
  - destruct (decide (P x)); [by apply sublist_skip|done].
  - destruct (decide (P x)); [by apply sublist_cons|done].
Qed.

(** ** The blocklist *)

(** C3: a host that has answered 403 is in the blocklist from then on, no
    later call sends it another request, the skipped scrape returns an empty
    list without raising, and the provider still reports success. *)
Theorem C3_blocked_host_skipped w calls1 calls2 s k url :
  (length (sent s) <= k)%nat ->
  sent (after_calls w calls1 s) !! k = Some url ->
  requests_get w k url = HTTPError (Some 403) ->
  let s1 := after_calls w calls1 s in
  let s2 := after_calls w calls2 s1 in
  url_host url ∈ blocked_sources s1
  /\ url_host url ∈ blocked_sources s2
  /\ (forall url', url' ∈ drop (length (sent s1)) (sent s2) -> url_host url' <> url_host url)
  /\ (forall category,
        url_host url = "top-hashtags.com" ->
        Fetcher._scrape_instagram_trends w category s2 = (Ok [], s2))
  /\ (forall category platform,
        exists tr s3,
          Fetcher.fetch_trending_from_web_scraping w category platform s2 = (Ok tr, s3)
          /\ tr_success tr = true).
Proof.
  intros Hk Hsent Hresp s1 s2.
  destruct (after_calls_step w calls1 s) as [(new1 & Hs1 & _ & H403) _ _].
  destruct (after_calls_step w calls2 s1) as [(new2 & Hs2 & Hfree & _) Hsub _].
  fold s1 in Hs1, H403. fold s2 in Hs2, Hsub.
  assert (url_host url ∈ blocked_sources s1) as Hb1.
  { fold s1 in Hsent. rewrite Hs1 in Hsent.
    apply lookup_app_Some in Hsent as [Hsent|[_ Hsent]].
    - apply lookup_lt_Some in Hsent. lia.
    - eapply H403; [exact Hsent|].
      by replace (length (sent s) + (k - length (sent s)))%nat with k by lia. }
  split; [done|]. split; [by apply Hsub|]. split; [|split].
  - intros url' Hin. rewrite Hs2, drop_app_length in Hin.
    intros Heq. apply (Hfree _ Hin). by rewrite Heq.
  - intros category Hhost. apply scrape_instagram_blocked.
    rewrite <- Hhost. by apply Hsub.
  - intros category platform.
    pose proof (web_scraping_spec w category platform s2) as Hspec. unfold runs in Hspec.
    destruct (Fetcher.fetch_trending_from_web_scraping w category platform s2) as [r s3].
    simpl in Hspec. destruct Hspec as [[_ (tr & -> & _)] Hok].
    exists tr, s3. split; [done|]. by destruct (Hok _ eq_refl).
Qed.

Lemma C3_blocked_host_skipped_witness :
  "top-hashtags.com" ∈ blocked_sources
     (after_calls Sample.refusing [GetTrending "food" "instagram" 8] initial_state)
  /\ forall url',
       url' ∈ drop 3 (sent (after_calls Sample.refusing
                              [GetTrending "travel" "instagram" 8]
                              (after_calls Sample.refusing [GetTrending "food" "instagram" 8]
                                 initial_state))) ->
       url_host url' <> "top-hashtags.com".
Proof.
  destruct (C3_blocked_host_skipped Sample.refusing
              [GetTrending "food" "instagram" 8] [GetTrending "travel" "instagram" 8]
              initial_state 0 "https://top-hashtags.com/instagram/food/")
    as (H1 & _ & H3 & _).
  - simpl. lia.
  - by vm_compute.
  - reflexivity.
  - split; [exact H1|]. intros url' Hin. apply H3.
    replace (length (sent (after_calls Sample.refusing [GetTrending "food" "instagram" 8]
                             initial_state))) with 3%nat by (by vm_compute).
    exact Hin.
Defined.

(** ** Cache reads *)

Lemma fresh_entry_hit w key s e :
  cache s !! key = Some e ->
  (time_time w (ticks s) - ce_timestamp e < 3600 # 1)%Q ->
  fresh_entry w key s = Some e.
Proof.
  intros He Hage. unfold fresh_entry. rewrite He.
  destruct (Qlt_le_dec _ _) as [_|Hge]; [done|].
  unfold Fetcher.cache_duration in Hge. by apply Qle_not_lt in Hge.
Qed.

Lemma fresh_entry_stale w key s e :
  cache s !! key = Some e ->
  ~ (time_time w (ticks s) - ce_timestamp e < 3600 # 1)%Q ->
  fresh_entry w key s = None.
Proof.
  intros He Hage. unfold fresh_entry. rewrite He.
  by destruct (Qlt_le_dec _ _) as [Hlt|_].
Qed.

Lemma get_from_cache_fresh w key s :
  Fetcher._get_from_cache w key s =
    match cache s !! key with
    | Some _ => (Ok (ce_data <$> fresh_entry w key s), tick s)
    | None => (Ok None, s)
    end.
Proof.
  rewrite get_from_cache_eq. unfold fresh_entry.
  destruct (cache s !! key); [|done]. by destruct (Qlt_le_dec _ _).
Qed.

(** C4: with an entry under the provider's key whose age is below 3600
    seconds, the provider returns the cached list with source
    ["<provider>_cache"] and leaves cache, blocklist and request log as they
    were; with an entry that is not younger than that, the cache read gives
    nothing and removes nothing, and the provider fetches anew. *)
Theorem C4_cache_ttl w provider label fetch category platform s e :
  (provider, label, fetch) ∈ providers w ->
  cache s !! Fetcher.cache_key provider category platform = Some e ->
  label = provider +:+ "_cache"
  /\ ((time_time w (ticks s) - ce_timestamp e < 3600 # 1)%Q ->
      fetch category platform s
      = (Ok (mkTR (cd_hashtags (ce_data e)) label category platform true None), tick s))
  /\ (~ (time_time w (ticks s) - ce_timestamp e < 3600 # 1)%Q ->
      Fetcher._get_from_cache w (Fetcher.cache_key provider category platform) s
      = (Ok None, tick s)
      /\ exists tr s', fetch category platform s = (Ok tr, s') /\ tr_source tr <> label).
Proof.
  intros Hin He.
  assert (forall (Hage : (time_time w (ticks s) - ce_timestamp e < 3600 # 1)%Q),
            Fetcher._get_from_cache w (Fetcher.cache_key provider category platform) s
            = (Ok (Some (ce_data e)), tick s)) as Hhit.
  { intros Hage. rewrite get_from_cache_fresh, He. by erewrite fresh_entry_hit. }
  assert (forall (Hage : ~ (time_time w (ticks s) - ce_timestamp e < 3600 # 1)%Q),
            Fetcher._get_from_cache w (Fetcher.cache_key provider category platform) s
            = (Ok None, tick s)) as Hstale.
  { intros Hage. rewrite get_from_cache_fresh, He. by erewrite fresh_entry_stale. }
  unfold providers in Hin.
  apply elem_of_cons in Hin as [[= -> -> ->]|Hin];
    [|apply elem_of_cons in Hin as [[= -> -> ->]|Hin];
      [|apply list_elem_of_singleton in Hin as [= -> -> ->]]].
  - split; [done|]. split.
    + intros Hage.
      unfold Fetcher.fetch_trending_from_hashtagify, try_except, bind.
      by rewrite (Hhit Hage).
    + intros Hage. split; [by apply Hstale|].
      pose proof (simulated_provider_spec w "hashtagify" category platform "general"
                    "hashtagify_cache" "hashtagify_simulated" s) as Hspec.
      unfold runs in Hspec.
      change (try_except _ _) with (Fetcher.fetch_trending_from_hashtagify w category platform)
        in Hspec.
      destruct (Fetcher.fetch_trending_from_hashtagify w category platform s) as [r s'].
      simpl in Hspec. destruct Hspec as [[_ (tr & -> & _)] Hsrc].
      exists tr, s'. split; [done|]. rewrite (Hsrc _ eq_refl).
      by erewrite fresh_entry_stale.
  - split; [done|]. split.
    + intros Hage.
      unfold Fetcher.fetch_trending_from_ritetag, try_except, bind.
      by rewrite (Hhit Hage).
    + intros Hage. split; [by apply Hstale|].
      pose proof (simulated_provider_spec w "ritetag" category platform "ritetag"
                    "ritetag_cache" "ritetag_simulated" s) as Hspec.
      unfold runs in Hspec.
      change (try_except _ _) with (Fetcher.fetch_trending_from_ritetag w category platform)
        in Hspec.
      destruct (Fetcher.fetch_trending_from_ritetag w category platform s) as [r s'].
      simpl in Hspec. destruct Hspec as [[_ (tr & -> & _)] Hsrc].
      exists tr, s'. split; [done|]. rewrite (Hsrc _ eq_refl).
      by erewrite fresh_entry_stale.
  - split; [done|]. split.
    + intros Hage.
      unfold Fetcher.fetch_trending_from_web_scraping, try_except, bind.
      by rewrite (Hhit Hage).
    + intros Hage. split; [by apply Hstale|].
      pose proof (web_scraping_spec w category platform s) as Hspec.
      unfold runs in Hspec.
      destruct (Fetcher.fetch_trending_from_web_scraping w category platform s) as [r s'].
      simpl in Hspec. destruct Hspec as [[_ (tr & -> & _)] Hsrc].
      exists tr, s'. split; [done|].
      destruct (Hsrc _ eq_refl) as (_ & _ & ->).
      by erewrite fresh_entry_stale.
Qed.

Lemma C4_cache_ttl_witness :
  Fetcher.fetch_trending_from_hashtagify Sample.at_200 "food" "instagram" Sample.warm
  = (Ok (mkTR [mkTHD "#pasta" "instagram" (Some 800) None None None]
              "hashtagify_cache" "food" "instagram" true None), tick Sample.warm).
Proof.
  destruct (C4_cache_ttl Sample.at_200 "hashtagify" "hashtagify_cache"
              (Fetcher.fetch_trending_from_hashtagify Sample.at_200) "food" "instagram" Sample.warm
              (mkCE (mkCD [mkTHD "#pasta" "instagram" (Some 800) None None None]
                          "food" "instagram") (100 # 1)))
    as (_ & Hhit & _).
  - apply list_elem_of_here.
  - by vm_compute.
  - apply Hhit. by vm_compute.
Defined.

(** ** The curated floor *)

Lemma curated_nonempty category platform :
  in_curated_table category platform -> Fetcher.hashtags_list category platform <> [].
Proof.
  intros (entry & Hin & Hp). unfold Fetcher.trending_data in Hin.
  repeat (apply elem_of_cons in Hin as [[= -> ->]|Hin];
          [simpl in Hp;
           repeat (apply elem_of_cons in Hp as [->|Hp]; [by vm_compute|]);
           by apply elem_of_nil in Hp|]).
  by apply elem_of_nil in Hin.
Qed.

Lemma slice_to_nonempty {A} (n : Z) (l : list A) : 0 < n -> l <> [] -> slice_to n l <> [].
Proof.
  intros Hn Hl. rewrite slice_to_nonneg by lia. apply take_nonempty; [lia|done].
Qed.

(** Against C8 as worded: food is in the table, and on a platform
    that the table does not list the provider returns nothing. *)
Lemma C8_unlisted_platform :
  (exists entry, ("food", entry) ∈ Fetcher.trending_data)
  /\ (Fetcher._get_category_trending_hashtags Sample.offline "food" "twitter"
        initial_state).1 = Ok [].
Proof.
  split; [|reflexivity]. eexists. apply list_elem_of_here.
Qed.

(** ** The trending score *)




Lemma cache_scored_initial : cache_scored initial_state.
Proof. by intros k e ?. Qed.






(** * Further properties of the generator *)

(** ** The engagement potential *)

Lemma count_matches_le hashtags trending_data :
  (Generator.count_matches hashtags trending_data <= length hashtags)%nat.
Proof. unfold Generator.count_matches. apply length_filter. Qed.

Lemma inject_nat_nonneg (n : nat) : (0 <= inject_Z (Z.of_nat n))%Q.
Proof. change 0%Q with (inject_Z 0). rewrite <- Zle_Qle. lia. Qed.

Lemma inject_nat_le (n m : nat) : (n <= m)%nat -> (inject_Z (Z.of_nat n) <= inject_Z (Z.of_nat m))%Q.
Proof. intros H. rewrite <- Zle_Qle. lia. Qed.

(** X1: the engagement potential lies between 4 and 10, so the lower
    clamp at 1 never takes effect; with fewer than 5 hashtags it is at most
    6, and the empty list scores 4. *)
Theorem X1_engagement_potential_range hashtags trending_data :
  let p := Generator._calculate_engagement_potential hashtags trending_data in
  (4 <= p)%Q /\ (p <= 10)%Q
  /\ ((length hashtags < 5)%nat -> (p <= 6)%Q)
  /\ (hashtags = [] -> (p == 4)%Q).
Proof.
  cbv zeta. unfold Generator._calculate_engagement_potential.
  pose proof (count_matches_le hashtags trending_data) as Hle.
  pose proof (inject_nat_nonneg (Generator.count_matches hashtags trending_data)) as H0.
  set (m := inject_Z (Z.of_nat (Generator.count_matches hashtags trending_data))) in *.
  assert ((length hashtags < 5)%nat -> (m <= 4)%Q) as Hsmall.
  { intros Hn. unfold m. change 4%Q with (inject_Z (Z.of_nat 4)).
    apply inject_nat_le. lia. }
  assert (hashtags = [] -> (m == 0)%Q) as Hnil.
  { intros ->. unfold m, Generator.count_matches. by rewrite filter_nil. }
  destruct (8 <=? length hashtags)%nat eqn:H8;
    destruct (10 <=? length hashtags)%nat eqn:H10;
    destruct (length hashtags <=? 15)%nat eqn:H15;
    destruct (length hashtags <? 5)%nat eqn:H5;
    destruct (25 <? length hashtags)%nat eqn:H25;
    cbn [andb];
    repeat match goal with
           | H : (_ <=? _)%nat = true |- _ => apply Nat.leb_le in H
           | H : (_ <=? _)%nat = false |- _ => apply Nat.leb_gt in H
           | H : (_ <? _)%nat = true |- _ => apply Nat.ltb_lt in H
           | H : (_ <? _)%nat = false |- _ => apply Nat.ltb_ge in H
           end;
    try lia;
    unfold Generator.py_min, Generator.py_max;
    repeat destruct (Qlt_le_dec _ _);
    (split; [lra|]); (split; [lra|]);
    (split; [intros Hn; try lia; specialize (Hsmall Hn); lra|]);
    (intros Hh; specialize (Hnil Hh); subst hashtags; simpl in *; try lia; lra).
Qed.

(** ** Cleaning is idempotent *)

Lemma filter_chars_id keep s :
  Forall (fun ch => keep ch = true) (PyStr.chars s) -> PyStr.filter_chars keep s = s.
Proof.
  induction s as [|ch s IH]; simpl; [done|].
  intros [Hch Hs]%Forall_cons. rewrite Hch. f_equal. by apply IH.
Qed.

Lemma clean_one_fixed s t : Generator.clean_one s = Some t -> Generator.clean_one t = Some t.
Proof.
  unfold Generator.clean_one.
  set (keep := fun c => PyStr.isalnum c || bool_decide (c = PyStr.hash)).
  set (h := if PyStr.startswith "#" s then s else "#" +:+ s).
  destruct (_ && _) eqn:Hlen; [|done]. intros [= <-].
  assert (exists r, h = String PyStr.hash r) as [r Hr].
  { unfold h. destruct (PyStr.startswith "#" s) eqn:Hs.
    - by apply startswith_hash.
    - by exists s. }
  assert (PyStr.startswith "#" (PyStr.filter_chars keep h) = true) as ->.
  { assert (keep PyStr.hash = true) as Hk.
    { unfold keep. rewrite bool_decide_eq_true_2 by done. apply orb_true_r. }
    rewrite Hr. cbn [PyStr.filter_chars]. rewrite Hk.
    cbn [PyStr.startswith]. by rewrite decide_True. }
  rewrite (filter_chars_id keep (PyStr.filter_chars keep h))
    by apply filter_chars_Forall.
  by rewrite Hlen.
Qed.

(** X2: on a list of strings [_clean_hashtags] returns without raising,
    drops entries but adds none, and cleaning its output again changes
    nothing. *)
Theorem X2_clean_hashtags_idempotent (raw : list string) :
  exists tags,
    Generator._clean_hashtags (JStr <$> raw) = Ok tags
    /\ (length tags <= length raw)%nat
    /\ Generator._clean_hashtags (JStr <$> tags) = Ok tags.
Proof.
  induction raw as [|s raw (tags & Hraw & Hlen & Htags)]; [by exists []|].
  rewrite fmap_cons. cbn [Generator._clean_hashtags]. rewrite Hraw.
  destruct (Generator.clean_one s) as [t|] eqn:Hs.
  - exists (t :: tags). split; [done|]. split; [simpl; lia|].
    rewrite fmap_cons. cbn [Generator._clean_hashtags].
    by rewrite Htags, (clean_one_fixed _ _ Hs).
  - exists tags. split; [done|]. split; [simpl; lia|done].
Qed.

(** ** The fallback extraction *)

Lemma append_assoc (a b c : string) : (a +:+ b) +:+ c = a +:+ (b +:+ c).
Proof.
  induction a as [|ch a IH]; [done|].
  change (String ch ((a +:+ b) +:+ c) = String ch (a +:+ (b +:+ c))). by f_equal.
Qed.

Lemma append_nil_r (a : string) : a +:+ "" = a.
Proof.
  induction a as [|ch a IH]; [done|].
  change (String ch (a +:+ "") = String ch a). by f_equal.
Qed.

Lemma chars_append (a b : string) : PyStr.chars (a +:+ b) = PyStr.chars a ++ PyStr.chars b.
Proof.
  induction a as [|ch a IH]; [done|].
  change (ch :: PyStr.chars (a +:+ b) = ch :: (PyStr.chars a ++ PyStr.chars b)). by f_equal.
Qed.

(** [t] stands in [text]. *)
Lemma findall_from_sound cur pre text :
  match cur with
  | Some body =>
      Forall (fun x => PyStr.is_word x = true) (PyStr.chars body)
      /\ exists pre0, pre = pre0 +:+ String PyStr.hash body
  | None => True
  end ->
  Forall (fun t => word_tag t /\ exists before after, pre +:+ text = before +:+ t +:+ after)
         (Generator.findall_from cur text).
Proof.
  revert cur pre. induction text as [|ch text IH]; intros cur pre Hcur.
  - cbn [Generator.findall_from]. destruct cur as [[|c b]|]; [constructor| |constructor].
    destruct Hcur as [Hword (pre0 & ->)]. constructor; [|constructor]. split.
    + exists c, b. split; [done|]. exact Hword.
    + exists pre0, "". by rewrite !append_nil_r.
  - cbn [Generator.findall_from].
    assert (forall cur', match cur' with
                         | Some body =>
                             Forall (fun x => PyStr.is_word x = true) (PyStr.chars body)
                             /\ exists pre0, pre +:+ String ch "" = pre0 +:+ String PyStr.hash body
                         | None => True
                         end ->
            Forall (fun t => word_tag t
                             /\ exists before after,
                                  pre +:+ String ch text = before +:+ t +:+ after)
                   (Generator.findall_from cur' text)) as Hrec.
    { intros cur' Hcur'. specialize (IH cur' (pre +:+ String ch "") Hcur').
      by rewrite append_assoc in IH. }
    assert (Forall (fun t => word_tag t
                             /\ exists before after,
                                  pre +:+ String ch text = before +:+ t +:+ after)
              (Generator.findall_from (if decide (ch = PyStr.hash) then Some "" else None) text))
      as Hrestart.
    { apply Hrec. case_decide as Hch; [|done]. split; [constructor|].
      exists pre. by rewrite Hch. }
    destruct cur as [body|]; [|exact Hrestart].
    destruct Hcur as [Hword (pre0 & ->)].
    destruct (PyStr.is_word ch) eqn:Hw.
    + apply Hrec. split.
      * rewrite chars_append. apply Forall_app. split; [done|]. by repeat constructor.
      * exists pre0. by rewrite append_assoc.
    + destruct body as [|c b]; [exact Hrestart|].
      constructor; [|exact Hrestart]. split.
      * exists c, b. by split.
      * exists pre0, (String ch text). by rewrite append_assoc.
Qed.

(** X3: every tag that [_extract_hashtags_from_text] returns is a [#]
    followed by at least one letter, digit or underscore, and stands in the
    text as it is returned; no two returned tags are equal up to case. *)
Theorem X3_extracted_tags text :
  let tags := Generator._extract_hashtags_from_text text in
  Forall (fun t => word_tag t /\ exists before after, text = before +:+ t +:+ after) tags
  /\ NoDup (PyStr.lower <$> tags).
Proof.
  cbv zeta. unfold Generator._extract_hashtags_from_text.
  rewrite generator_unique_from_first_seen. split; [|apply first_seen_NoDup].
  pose proof (findall_from_sound None "" text I) as Hall.
  apply Forall_forall. intros t Ht.
  eapply Forall_forall in Hall; [exact Hall|].
  eapply elem_of_sublist; [exact Ht|apply first_seen_sublist].
Qed.



(** ** The list shared between the parsed response and the popular bucket *)

Lemma set_existing_keys key v d : (Generator.set_existing key v d).*1 = d.*1.
Proof.
  induction d as [|[k v0] d IH]; simpl; [done|].
  case_decide; simpl; [done|]. by f_equal.
Qed.

Lemma set_existing_other key key' v d :
  key' <> key ->
  Generator.get_or_empty key' (Generator.set_existing key v d) = Generator.get_or_empty key' d.
Proof.
  intros Hne. induction d as [|[k v0] d IH]; simpl; [done|].
  destruct (decide (key = k)) as [->|Hk]; simpl.
  - by rewrite !decide_False.
  - case_decide; [done|]. exact IH.
Qed.

Lemma set_existing_same key v d :
  key ∈ d.*1 -> Generator.get_or_empty key (Generator.set_existing key v d) = v.
Proof.
  induction d as [|[k v0] d IH]; simpl; [by intros ?%elem_of_nil|].
  destruct (decide (key = k)) as [->|Hk]; simpl.
  - by rewrite decide_True.
  - rewrite decide_False by done. intros [?|?]%elem_of_cons; [done|]. by apply IH.
Qed.

Lemma set_existing_absent key v d : key ∉ d.*1 -> Generator.set_existing key v d = d.
Proof.
  induction d as [|[k v0] d IH]; simpl; [done|].
  intros [Hk Hd]%not_elem_of_cons. rewrite decide_False by done. by rewrite IH.
Qed.

Lemma get_or_empty_present key d :
  key ∈ d.*1 -> Generator.get_or_empty key (Generator.set_existing key (Generator.get_or_empty key d) d) = Generator.get_or_empty key d.
Proof. apply set_existing_same. Qed.

(** X5: the merge appends to the very list that the parsed response holds
    under [popular_hashtags]. Afterwards the response has the same keys, the
    same values under every other key, and under [popular_hashtags], when
    it has that key, the popular bucket with the trending tags that were
    added; a response without the key is left as it was. *)
Theorem X5_popular_list_shared ai real request cb ai' :
  Generator._combine_hashtag_sources (Dict ai) real request = Ok (cb, ai') ->
  ai'.*1 = ai.*1
  /\ (forall key, key <> "popular_hashtags" ->
        Generator.get_or_empty key ai' = Generator.get_or_empty key ai)
  /\ ("popular_hashtags" ∈ ai.*1 ->
      Generator.get_or_empty "popular_hashtags" ai' = Generator.cb_popular cb)
  /\ ("popular_hashtags" ∉ ai.*1 -> ai' = ai).
Proof.
  unfold Generator._combine_hashtag_sources.
  destruct (Generator.py_len _) as [n|e]; [|done].
  destruct (n <? 5)%nat.
  - destruct (Generator.backfill _ _) as [popular'|e]; [|done].
    intros [= <- <-]. simpl.
    split; [apply set_existing_keys|]. split; [|split].
    + intros key Hne. by apply set_existing_other.
    + apply set_existing_same.
    + apply set_existing_absent.
  - intros [= <- <-]. simpl. by repeat split.
Qed.

Lemma X5_popular_list_shared_witness :
  exists cb ai',
    Generator._combine_hashtag_sources
      (Dict [("trending_hashtags", PList ["#ai"]); ("popular_hashtags", PList ["#cat"])])
      [mkTHD "#pets" "instagram" (Some 800) None None None] (Sample.request 15)
    = Ok (cb, ai')
    /\ Generator.get_or_empty "popular_hashtags" ai' = Generator.cb_popular cb
    /\ ai'.*2 = [PList ["#ai"]; PList ["#cat"; "#pets"]].
Proof.
  eexists _, _. split; [reflexivity|]. split; [|reflexivity].
  destruct (X5_popular_list_shared
              [("trending_hashtags", PList ["#ai"]); ("popular_hashtags", PList ["#cat"])]
              [mkTHD "#pets" "instagram" (Some 800) None None None] (Sample.request 15)
              _ _ eq_refl) as (_ & _ & Hshared & _).
  apply Hshared. simpl. apply list_elem_of_further, list_elem_of_here.
Defined.

(** ** Markdown fences *)

Lemma rev_string_involutive s : PyStr.rev_string (PyStr.rev_string s) = s.
Proof.
  unfold PyStr.rev_string, PyStr.chars, PyStr.of_chars.
  by rewrite list_ascii_of_string_of_list_ascii, rev_involutive,
    string_of_list_ascii_of_string.
Qed.

Lemma of_chars_app l1 l2 : PyStr.of_chars (l1 ++ l2) = PyStr.of_chars l1 +:+ PyStr.of_chars l2.
Proof.
  induction l1 as [|ch l1 IH]; [done|].
  change (String ch (PyStr.of_chars (l1 ++ l2))
          = String ch (PyStr.of_chars l1 +:+ PyStr.of_chars l2)).
  by f_equal.
Qed.

Lemma rev_string_append a b :
  PyStr.rev_string (a +:+ b) = PyStr.rev_string b +:+ PyStr.rev_string a.
Proof. unfold PyStr.rev_string. by rewrite chars_append, rev_app_distr, of_chars_app. Qed.

Lemma chars_rev_string s : PyStr.chars (PyStr.rev_string s) = rev (PyStr.chars s).
Proof. apply list_ascii_of_string_of_list_ascii. Qed.

Lemma lstrip_Forall (P : ascii -> Prop) s :
  Forall P (PyStr.chars s) -> Forall P (PyStr.chars (PyStr.lstrip s)).
Proof.
  induction s as [|ch s IH]; [done|]. cbn [PyStr.lstrip].
  destruct (PyStr.isspace ch); [|done]. intros [_ ?]%Forall_cons. by apply IH.
Qed.

Lemma strip_Forall (P : ascii -> Prop) s :
  Forall P (PyStr.chars s) -> Forall P (PyStr.chars (PyStr.strip s)).
Proof.
  intros H. unfold PyStr.strip.
  rewrite chars_rev_string. apply Forall_rev, lstrip_Forall.
  rewrite chars_rev_string. by apply Forall_rev, lstrip_Forall.
Qed.

(** A text that neither starts nor ends with white space is its own
    [strip]. *)
Lemma strip_fixed s a r b r' :
  s = String a r -> PyStr.isspace a = false ->
  PyStr.rev_string s = String b r' -> PyStr.isspace b = false ->
  PyStr.strip s = s.
Proof.
  intros Hs Ha Hrev Hb. unfold PyStr.strip.
  assert (PyStr.lstrip s = s) as ->.
  { rewrite Hs. cbn [PyStr.lstrip]. by rewrite Ha. }
  rewrite Hrev. cbn [PyStr.lstrip]. rewrite Hb, <- Hrev.
  apply rev_string_involutive.
Qed.

(** Where the first character of [old] does not occur, nothing is
    removed. *)
Lemma remove_from_skip o old' s t :
  Forall (fun ch => ch <> o) (PyStr.chars s) ->
  PyStr.remove_from (String o old') O (s +:+ t)
  = s +:+ PyStr.remove_from (String o old') O t.
Proof.
  induction s as [|ch s IH]; [done|]. intros [Hch Hs]%Forall_cons.
  change (String ch s +:+ t) with (String ch (s +:+ t)).
  cbn [PyStr.remove_from PyStr.startswith].
  rewrite decide_False by done.
  change (String ch (PyStr.remove_from (String o old') 0 (s +:+ t))
          = String ch (s +:+ PyStr.remove_from (String o old') 0 t)).
  f_equal. by apply IH.
Qed.

Lemma startswith_not_head o p s :
  Forall (fun ch => ch <> o) (PyStr.chars s) -> PyStr.startswith (String o p) s = false.
Proof.
  destruct s as [|ch s]; [done|]. intros [Hch _]%Forall_cons.
  cbn [PyStr.startswith]. by rewrite decide_False.
Qed.

Lemma strip_fences_plain body :
  Forall (fun ch => ch <> backtick) (PyStr.chars body) ->
  Generator.strip_fences body = PyStr.strip body.
Proof.
  intros Hbody. unfold Generator.strip_fences.
  pose proof (strip_Forall _ _ Hbody) as Hstrip.
  by rewrite !(startswith_not_head backtick _ _ Hstrip).
Qed.

Lemma append_cons ch a b : String ch a +:+ b = String ch (a +:+ b).
Proof. done. Qed.

Lemma append_nil_l b : "" +:+ b = b.
Proof. done. Qed.

Lemma startswith_json_fence body :
  Forall (fun ch => ch <> backtick) (PyStr.chars body) ->
  PyStr.startswith "json" body = false ->
  PyStr.startswith "json" (body +:+ "```") = false.
Proof.
  intros Hbody Hnojson.
  destruct body as [|c1 [|c2 [|c3 [|c4 rest]]]];
    rewrite ?append_cons, ?append_nil_l;
    cbn [PyStr.startswith] in *;
    repeat case_decide; subst; done.
Qed.

(** X6: an answer without backticks is parsed in the same way whether it
    comes bare, between [```json] and [```], or (when it does not begin with
    [json]) between [```] and [```]: the fences are removed and the rest is
    stripped of surrounding white space. *)
Theorem X6_fences_removed c body :
  Forall (fun ch => ch <> backtick) (PyStr.chars body) ->
  Generator.strip_fences ("```json" +:+ body +:+ "```") = PyStr.strip body
  /\ (PyStr.startswith "json" body = false ->
      Generator.strip_fences ("```" +:+ body +:+ "```") = PyStr.strip body)
  /\ Generator._parse_ai_hashtag_response c (Some ("```json" +:+ body +:+ "```"))
     = Generator._parse_ai_hashtag_response c (Some body).
Proof.
  intros Hbody.
  assert (forall p, PyStr.rev_string (p +:+ body +:+ "```")
                    = String backtick ("``" +:+ PyStr.rev_string body +:+ PyStr.rev_string p))
    as Hrev.
  { intros p. rewrite !rev_string_append. by rewrite append_assoc. }
  assert (PyStr.remove_from "```" O (body +:+ "```") = body) as Hclose.
  { etrans; [exact (remove_from_skip backtick "``" body "```" Hbody)|].
    exact (append_nil_r body). }
  assert (PyStr.remove_from "```json" O (body +:+ "```") = body +:+ "```") as Hopen.
  { exact (remove_from_skip backtick "``json" body "```" Hbody). }
  assert (Generator.strip_fences ("```json" +:+ body +:+ "```") = PyStr.strip body) as Hjson.
  { unfold Generator.strip_fences.
    rewrite (strip_fixed ("```json" +:+ body +:+ "```") backtick
               ("``json" +:+ body +:+ "```") backtick _
               eq_refl eq_refl (Hrev "```json") eq_refl).
    change (PyStr.startswith "```json" ("```json" +:+ body +:+ "```")) with true.
    cbv iota. unfold PyStr.remove_all.
    change (PyStr.remove_from "```json" 0 ("```json" +:+ body +:+ "```"))
      with (PyStr.remove_from "```json" 0 (body +:+ "```")).
    by rewrite Hopen, Hclose. }
  split; [exact Hjson|]. split.
  - intros Hnojson. unfold Generator.strip_fences.
    rewrite (strip_fixed ("```" +:+ body +:+ "```") backtick
               ("``" +:+ body +:+ "```") backtick _
               eq_refl eq_refl (Hrev "```") eq_refl).
    change (PyStr.startswith "```json" ("```" +:+ body +:+ "```"))
      with (PyStr.startswith "json" (body +:+ "```")).
    assert (PyStr.startswith "json" (body +:+ "```") = false) as ->.
    { by apply startswith_json_fence. }
    change (PyStr.startswith "```" ("```" +:+ body +:+ "```")) with true.
    cbv iota. unfold PyStr.remove_all.
    change (PyStr.remove_from "```" 0 ("```" +:+ body +:+ "```"))
      with (PyStr.remove_from "```" 0 (body +:+ "```")).
    by rewrite Hclose.
  - unfold Generator._parse_ai_hashtag_response.
    by rewrite Hjson, strip_fences_plain.
Qed.

Lemma X6_fences_removed_witness :
  Generator.strip_fences "```json
{}
```" = "{}".
Proof.
  destruct (X6_fences_removed (Sample.analyzer (mkAI true None None)) "
{}
") as [H _].
  - repeat constructor; discriminate.
  - exact H.
Defined.

(** ** Curated suggestions *)

(** X7: for a category of the table [get_category_suggestions] returns
    its curated tags, popular ones first, cut to 7 on Facebook and to 15 --
    all there are -- on any other platform; for any other category it
    returns the empty list. *)
Theorem X7_category_suggestions category platform :
  let l := Generator.get_category_suggestions category platform in
  let data := Fetcher.dict_get category [] Generator.category_hashtags in
  (category ∈ Generator.category_hashtags.*1
   /\ length l = (if decide (platform = "facebook") then 7 else 15)%nat
   /\ l `prefix_of` (Fetcher.dict_get "popular" [] data ++ Fetcher.dict_get "niche" [] data
                     ++ Fetcher.dict_get "trending" [] data)
   /\ take 5 l = Fetcher.dict_get "popular" [] data
   /\ Forall (fun t => PyStr.startswith "#" t = true) l)
  \/ ((category ∉ Generator.category_hashtags.*1) /\ l = []).
Proof.
  cbv zeta. unfold Generator.get_category_suggestions.
  assert (forall (l : list string) n, slice_to (Z.of_nat n) l = take n l) as Hslice.
  { intros l n. unfold slice_to. rewrite Nat2Z.id.
    by destruct (0 <=? Z.of_nat n) eqn:H; [|apply Z.leb_gt in H; lia]. }
  assert ((Generator.dict_find platform Generator.platform_guidelines = None
           \/ platform = "instagram") /\ platform <> "facebook"
          \/ platform = "facebook") as Hp.
  { unfold Generator.dict_find, Generator.platform_guidelines.
    destruct (decide (platform = "facebook")) as [->|Hf]; [by right|left].
    split; [|done]. repeat case_decide; auto. }
  assert ((match Generator.dict_find platform Generator.platform_guidelines with
           | Some info => Generator.optimal_range info
           | None => (8, 15)
           end).2 = Z.of_nat (if decide (platform = "facebook") then 7 else 15)) as ->.
  { destruct Hp as [[[->| ->] Hf]| ->]; [by rewrite decide_False|done|done]. }
  rewrite Hslice. clear Hslice Hp.
  set (n := if decide (platform = "facebook") then 7%nat else 15%nat).
  assert (n = 7%nat \/ n = 15%nat) as Hn by (unfold n; case_decide; auto).
  clearbody n.
  unfold Generator.category_hashtags. cbn [Fetcher.dict_get fmap list_fmap fst].
  repeat (case_decide;
          [left; subst category; split; [apply list_elem_of_In; simpl; tauto|];
           destruct Hn as [-> | ->];
           (split; [reflexivity|]); (split; [by eexists|]); (split; [reflexivity|]);
           repeat constructor|]).
  right. split; [|by destruct Hn as [-> | ->]].
  intros Hin%list_elem_of_In. simpl in Hin. intuition congruence.
Qed.

(** ** The real trending records of a result *)

Lemma get_real_trending_cases w category platform max_count s real s1 :
  Generator._get_real_trending_hashtags w category platform max_count s = (Ok real, s1) ->
  real = [] \/ exists pool, real = slice_to max_count (Fetcher._remove_duplicate_hashtags pool).
Proof.
  unfold Generator._get_real_trending_hashtags, try_except, bind.
  pose proof (get_trending_spec w category platform max_count s) as Hspec.
  unfold runs, aggregated in Hspec.
  destruct (Fetcher.get_trending_hashtags w category platform max_count s) as [r s'].
  simpl in Hspec. destruct Hspec as (_ & tr & pool & -> & _ & _ & Hres).
  destruct pool as [|x pool].
  - destruct Hres as [Hs _]. rewrite Hs. intros [= <- _]. by left.
  - destruct Hres as [Hs Hh]. rewrite Hs. intros [= <- _]. right. by eexists.
Qed.

Lemma deduplicated_shape pool (n : nat) :
  let l := take n (Fetcher._remove_duplicate_hashtags pool) in
  (length l <= n)%nat /\ NoDup (group <$> l) /\ StronglySorted not_below l.
Proof.
  cbv zeta. destruct (remove_duplicates_spec pool) as (Hsub & Hnd & _).
  split; [rewrite length_take; lia|]. split.
  - eapply sublist_NoDup; [exact Hnd|]. apply fmap_sublist, sublist_take.
  - eapply sublist_sorted; [|apply sorted_desc_sorted].
    etrans; [apply sublist_take|exact Hsub].
Qed.

(** X8: whatever the state of the fetcher, the real trending records
    that a result carries are at most 8, no two of them with the same tag up
    to case, in descending order of score; [total_count] is the length of
    [hashtags]; and a successful result lists under [trending_hashtags] the
    tags of exactly these records. *)
Theorem X8_real_trending_records c w request s :
  let r := (Generator.generate_enhanced_hashtags c w request s).1 in
  (length (real_trending_hashtags r) <= 8)%nat
  /\ NoDup (group <$> real_trending_hashtags r)
  /\ StronglySorted not_below (real_trending_hashtags r)
  /\ total_count r = Z.of_nat (length (hashtags r))
  /\ (success r = true -> trending_hashtags r = hashtag <$> real_trending_hashtags r).
Proof.
  cbv zeta.
  destruct (get_real_trending_returns w (Generator.category_of request)
              (platform request) 8 s) as (real & s1 & Hreal).
  rewrite (generate_eq c w _ _ _ _ Hreal). cbn [fst].
  assert ((length real <= 8)%nat /\ NoDup (group <$> real)
          /\ StronglySorted not_below real) as (Hlen & Hnd & Hsorted).
  { apply get_real_trending_cases in Hreal as [->|[pool ->]].
    - split; [simpl; lia|]. split; constructor.
    - rewrite slice_to_nonneg by lia. apply (deduplicated_shape pool 8). }
  destruct (Generator.synthesize c request real) as [r|e] eqn:Hsyn.
  - apply synthesize_inv in Hsyn as (d & a & _ & _ & [[_ ->]|[_ Hrun]]).
    + simpl. by repeat split.
    + destruct Hrun as (ai & cb & ai' & pool & _ & Hcomb & _ & ->). simpl.
      repeat split; try done.
      unfold Generator._combine_hashtag_sources in Hcomb.
      destruct (Generator.py_len _); [|done].
      destruct (_ <? _)%nat; [destruct (Generator.backfill _ _); [|done]|];
        by injection Hcomb as <- _.
  - simpl. repeat split; try done; try constructor. lia.
Qed.

(** * Further properties of the fetcher *)

(** ** Requests and cache entries of one call *)

Lemma runs_conj {A} (m : M A) s (Q1 Q2 : result A -> state -> Prop) :
  runs m s Q1 -> runs m s Q2 -> runs m s (fun r s' => Q1 r s' /\ Q2 r s').
Proof. unfold runs. auto. Qed.

Lemma sends_refl s : sends s s [].
Proof. split; [done|]. split; [by rewrite app_nil_r|constructor]. Qed.

Lemma sends_trans s1 s2 s3 n1 n2 :
  sends s1 s2 n1 -> sends s2 s3 n2 -> sends s1 s3 (n1 ++ n2).
Proof.
  intros (Hc1 & Hs1 & Hk1) (Hc2 & Hs2 & Hk2). split; [congruence|].
  split; [by rewrite Hs2, Hs1, app_assoc|]. by apply Forall_app.
Qed.

Lemma ticked_sends s s' : ticked s s' -> sends s s' [].
Proof.
  intros (Hc & _ & Hs). split; [done|]. split; [by rewrite app_nil_r|constructor].
Qed.

Lemma requested_sends w host url s s' :
  url_host url ∈ known_hosts -> requested w host url s s' -> sends s s' [url].
Proof.
  intros Hk (Hs & Hc & _). split; [done|]. split; [done|].
  constructor; [done|constructor].
Qed.

Section Served.
Variable w : world.

Lemma scrape_instagram_silent category s l s' :
  silent w -> Fetcher._scrape_instagram_trends w category s = (Ok l, s') -> l = [].
Proof.
  intros Hsilent. unfold Fetcher._scrape_instagram_trends, bind, Fetcher.is_blocked.
  case_bool_decide; [by intros [= <- _]|].
  unfold Fetcher.http.
  destruct (requests_get w _ _) as [texts|[status|]|msg|msg] eqn:Hresp.
  - apply Hsilent in Hresp as ->. by intros [= <- _].
  - case_decide; by intros [= <- _].
  - done.
  - by intros [= <- _].
  - by intros [= <- _].
Qed.

Lemma scrape_site_silent host url category platform base growth limit s l s' :
  silent w ->
  Fetcher.scrape_site w host url category platform base growth limit s = (Ok l, s') ->
  l = [].
Proof.
  intros Hsilent. unfold Fetcher.scrape_site, bind, Fetcher.http.
  destruct (requests_get w _ _) as [texts|[status|]|msg|msg] eqn:Hresp.
  - apply Hsilent in Hresp as ->. rewrite take_nil. by intros [= <- _].
  - case_decide; by intros [= <- _].
  - done.
  - by intros [= <- _].
  - by intros [= <- _].
Qed.

Lemma scrape_instagram_sends category s :
  runs (Fetcher._scrape_instagram_trends w category) s
    (fun r s' =>
       (exists new, sends s s' new /\ (length new <= 1)%nat)
       /\ (silent w -> forall l, r = Ok l -> l = [])).
Proof.
  apply runs_conj.
  - destruct (decide ("top-hashtags.com" ∈ blocked_sources s)) as [Hb|Hb].
    + unfold runs. rewrite scrape_instagram_blocked by done. simpl.
      exists []. split; [apply sends_refl|simpl; lia].
    + eapply runs_weaken; [by apply scrape_instagram_unblocked|].
      intros r s' [Hreq _]. eexists. split.
      * eapply requested_sends; [|exact Hreq].
        rewrite host_top_hashtags. apply list_elem_of_here.
      * simpl. lia.
  - unfold runs. intros Hsilent l Hr.
    eapply scrape_instagram_silent; [done|].
    rewrite <- Hr. apply surjective_pairing.
Qed.

Lemma scrape_site_sends host url category platform base growth limit s :
  url_host url ∈ known_hosts ->
  Z.of_nat limit * 50 < base + 50 ->
  runs (Fetcher.scrape_site w host url category platform base growth limit) s
    (fun r s' => sends s s' [url] /\ (silent w -> forall l, r = Ok l -> l = [])).
Proof.
  intros Hk Hlimit. apply runs_conj.
  - eapply runs_weaken; [by apply scrape_site_spec|].
    intros r s' [[Hreq _] _]. by eapply requested_sends.
  - unfold runs. intros Hsilent l Hr.
    eapply scrape_site_silent; [done|].
    rewrite <- Hr. apply surjective_pairing.
Qed.

Lemma simulated_ticked category platform source s :
  runs (Fetcher._get_simulated_trending_data w category platform source) s
    (fun r s' =>
       ticked s s'
       /\ exists l, r = Ok l
                    /\ (Fetcher.hashtags_list category platform = [] -> l = [])).
Proof.
  eapply runs_weaken; [apply get_simulated_spec|].
  intros r s' (Hs & l & -> & Hlen & _). split; [done|]. exists l. split; [done|].
  intros Hnil. rewrite Hnil in Hlen. by apply nil_length_inv.
Qed.

Lemma scrape_trend_websites_sends category platform s :
  runs (Fetcher._scrape_trend_websites w category platform) s
    (fun r s' =>
       (exists new, sends s s' new /\ (length new <= 2)%nat)
       /\ (silent w -> Fetcher.hashtags_list category platform = [] ->
           forall l, r = Ok l -> l = [])).
Proof.
  unfold Fetcher._scrape_trend_websites.
  set (q := Fetcher.quote_plus (PyStr.lower category)).
  apply runs_bind, runs_is_blocked.
  apply runs_bind.
  apply (runs_weaken _ _
           (fun r s1 => (exists new, sends s s1 new /\ (length new <= 1)%nat)
                        /\ (silent w -> forall l, r = Ok l -> l = []))).
  { case_bool_decide as Hb1.
    - apply runs_ret. split; [|by intros _ ? [= <-]].
      exists []. split; [apply sends_refl|simpl; lia].
    - eapply runs_weaken.
      { apply scrape_site_sends; [|lia].
        rewrite host_all_hashtag. apply list_elem_of_further, list_elem_of_here. }
      intros r s1 [Hsends Hsil]. split; [|done]. eexists. split; [done|simpl; lia]. }
  intros [h1|e1] s1 [(n1 & Hsends1 & Hlen1) Hsil1];
    [|split; [|done]; exists n1; split; [done|lia]].
  apply runs_bind, runs_is_blocked.
  apply runs_bind.
  apply (runs_weaken _ _
           (fun r s2 => (exists new, sends s1 s2 new /\ (length new <= 1)%nat)
                        /\ (silent w -> forall l, r = Ok l -> l = []))).
  { destruct (_ && _) eqn:Hcond.
    - apply runs_bind. eapply runs_weaken.
      { apply scrape_site_sends; [|lia].
        rewrite host_hashtagsforlikes.
        apply list_elem_of_further, list_elem_of_further, list_elem_of_here. }
      intros [more|e] s2 [Hsends Hsil].
      + apply runs_ret. split; [eexists; split; [done|simpl; lia]|].
        intros Hs ? [= <-]. by rewrite (Hsil1 Hs _ eq_refl), (Hsil Hs _ eq_refl).
      + split; [|done]. eexists. split; [done|simpl; lia].
    - apply runs_ret. split; [|by intros Hs ? [= <-]; apply Hsil1].
      exists []. split; [apply sends_refl|simpl; lia]. }
  intros [h2|e2] s2 [(n2 & Hsends2 & Hlen2) Hsil2].
  2:{ split; [|done]. exists (n1 ++ n2). split; [by eapply sends_trans|].
      rewrite length_app. lia. }
  destruct (length h2 <? 5)%nat eqn:Hlen.
  - apply runs_bind. eapply runs_weaken; [apply get_category_spec|].
    intros r s3 (Hs3 & l & -> & Htags & _).
    apply runs_ret. split.
    + exists (n1 ++ n2). split; [|rewrite length_app; lia].
      rewrite <- (app_nil_r (n1 ++ n2)).
      eapply sends_trans; [by eapply sends_trans|by apply ticked_sends].
    + intros Hs Hnil ? [= <-]. rewrite (Hsil2 Hs _ eq_refl).
      rewrite Hnil in Htags. by apply fmap_nil_inv in Htags as ->.
  - apply runs_ret. split.
    + exists (n1 ++ n2). split; [by eapply sends_trans|rewrite length_app; lia].
    + intros Hs _ ? [= <-]. by apply Hsil2.
Qed.

Lemma fresh_entry_lookup key s e : fresh_entry w key s = Some e -> cache s !! key = Some e.
Proof.
  unfold fresh_entry. destruct (cache s !! key) as [e'|]; [|done].
  by destruct (Qlt_le_dec _ _); intros [= <-].
Qed.

Lemma fresh_entry_ticks key s s' :
  cache s' = cache s -> ticks s' = ticks s -> fresh_entry w key s' = fresh_entry w key s.
Proof. intros Hc Ht. unfold fresh_entry. by rewrite Hc, Ht. Qed.

(** The providers that live on simulated data. *)
Lemma simulated_served provider category platform source src_cache src_fresh s :
  runs
    (try_except
       (cached_data <- Fetcher._get_from_cache w
                         (Fetcher.cache_key provider category platform) ;;
        match cached_data with
        | Some cd => ret (mkTR (cd_hashtags cd) src_cache category platform true None)
        | None =>
            trending_hashtags <-
              Fetcher._get_simulated_trending_data w category platform source ;;
            Fetcher._save_to_cache w (Fetcher.cache_key provider category platform)
              (mkCD trending_hashtags category platform) ;;;
            ret (mkTR trending_hashtags src_fresh category platform true None)
        end)
       (fun e => ret (mkTR [] provider category platform false (Some (exn_str e)))))
    s (fun r s' =>
         served w (Fetcher.cache_key provider category platform) 0 s r s'
         /\ (Fetcher.hashtags_list category platform = [] ->
             fresh_entry w (Fetcher.cache_key provider category platform) s = None ->
             forall tr, r = Ok tr -> tr_hashtags tr = [])).
Proof.
  apply runs_try, runs_bind, runs_get_from_cache.
  intros s1 [cd|] Hs1 Hr.
  - destruct Hr as [[? _]|(e & He & Hfresh & [= ->])]; [done|].
    apply runs_ret. split.
    + exists (mkTR (cd_hashtags (ce_data e)) src_cache category platform true None), e, [].
      destruct Hs1 as (Hc & _ & Hsent).
      repeat split; try done.
      * by rewrite Hc, insert_id.
      * by rewrite app_nil_r.
      * by left.
    + intros _ Hmiss. by rewrite Hmiss in Hfresh.
  - destruct Hr as [[_ Hfresh]|(e & _ & _ & ?)]; [|done].
    apply runs_bind. eapply runs_weaken; [apply simulated_ticked|].
    intros r s2 (Hs2 & l & -> & Hnil).
    apply runs_bind, runs_save_to_cache, runs_ret.
    destruct Hs1 as (Hc1 & _ & Hsent1). destruct Hs2 as (Hc2 & _ & Hsent2).
    split.
    + exists (mkTR l src_fresh category platform true None),
        (mkCE (mkCD l category platform) (time_time w (ticks s2))), [].
      repeat split; try done.
      * simpl. by rewrite Hc2, Hc1.
      * simpl. by rewrite app_nil_r, Hsent2, Hsent1.
      * right. split; [done|]. by eexists.
    + intros Hempty _ ? [= <-]. by apply Hnil.
Qed.

Lemma hashtagify_served category platform s :
  runs (Fetcher.fetch_trending_from_hashtagify w category platform) s
    (fun r s' =>
       served w (Fetcher.cache_key "hashtagify" category platform) 0 s r s'
       /\ (Fetcher.hashtags_list category platform = [] ->
           fresh_entry w (Fetcher.cache_key "hashtagify" category platform) s = None ->
           forall tr, r = Ok tr -> tr_hashtags tr = [])).
Proof. apply simulated_served. Qed.

Lemma ritetag_served category platform s :
  runs (Fetcher.fetch_trending_from_ritetag w category platform) s
    (fun r s' =>
       served w (Fetcher.cache_key "ritetag" category platform) 0 s r s'
       /\ (Fetcher.hashtags_list category platform = [] ->
           fresh_entry w (Fetcher.cache_key "ritetag" category platform) s = None ->
           forall tr, r = Ok tr -> tr_hashtags tr = [])).
Proof. apply simulated_served. Qed.

Lemma remove_duplicates_nil : Fetcher._remove_duplicate_hashtags [] = [].
Proof. done. Qed.

Lemma web_scraping_served category platform s :
  runs (Fetcher.fetch_trending_from_web_scraping w category platform) s
    (fun r s' =>
       served w (Fetcher.cache_key "webscrape" category platform) 3 s r s'
       /\ (silent w -> Fetcher.hashtags_list category platform = [] ->
           fresh_entry w (Fetcher.cache_key "webscrape" category platform) s = None ->
           forall tr, r = Ok tr -> tr_hashtags tr = [])).
Proof.
  unfold Fetcher.fetch_trending_from_web_scraping.
  apply runs_try, runs_bind, runs_get_from_cache.
  intros s1 [cd|] Hs1 Hr.
  - destruct Hr as [[? _]|(e & He & Hfresh & [= ->])]; [done|].
    apply runs_ret. split.
    + eexists _, e, []. destruct Hs1 as (Hc & _ & Hsent).
      repeat split; try done.
      * by rewrite Hc, insert_id.
      * by rewrite app_nil_r.
      * simpl. lia.
      * by left.
    + intros _ _ Hmiss. by rewrite Hmiss in Hfresh.
  - destruct Hr as [[_ Hfresh]|(e & _ & _ & ?)]; [|done].
    set (P := fun (s0 : state) (r : result (list TrendingHashtagData)) (s2 : state) =>
                (exists new, sends s0 s2 new /\ (length new <= 3)%nat)
                /\ exists l, r = Ok l
                     /\ (silent w -> Fetcher.hashtags_list category platform = [] -> l = [])).
    apply runs_bind.
    apply (runs_weaken _ _ (P s1)).
    { apply runs_try, runs_bind.
      apply (runs_weaken _ _
               (fun r s2 => (exists new, sends s1 s2 new /\ (length new <= 1)%nat)
                            /\ (silent w -> forall l, r = Ok l -> l = []))).
      { destruct (decide (platform = "instagram")).
        - apply scrape_instagram_sends.
        - apply runs_ret. split; [|by intros _ ? [= <-]].
          exists []. split; [apply sends_refl|simpl; lia]. }
      intros [h1|e1] s2 [(n1 & Hsends1 & Hlen1) Hsil1].
      - apply runs_bind.
        eapply runs_weaken; [apply scrape_trend_websites_sends|].
        intros [h2|e2] s3 [(n2 & Hsends2 & Hlen2) Hsil2].
        + apply runs_ret. split.
          * exists (n1 ++ n2). split; [by eapply sends_trans|rewrite length_app; lia].
          * eexists. split; [done|]. intros Hs Hnil.
            by rewrite (Hsil1 Hs _ eq_refl), (Hsil2 Hs Hnil _ eq_refl).
        + eapply runs_weaken; [apply simulated_ticked|].
          intros r s4 (Hs4 & l & -> & Hnil). split.
          * exists (n1 ++ n2). split; [|rewrite length_app; lia].
            rewrite <- (app_nil_r (n1 ++ n2)).
            eapply sends_trans; [by eapply sends_trans|by apply ticked_sends].
          * exists l. split; [done|]. intros _. exact Hnil.
      - eapply runs_weaken; [apply simulated_ticked|].
        intros r s4 (Hs4 & l & -> & Hnil). split.
        + exists n1. split; [|lia]. rewrite <- (app_nil_r n1).
          eapply sends_trans; [done|by apply ticked_sends].
        + exists l. split; [done|]. intros _. exact Hnil. }
    intros r s2 ((n & Hsends & Hlen) & l & -> & Hnil).
    apply runs_bind.
    apply (runs_weaken _ _ (P s1)).
    { destruct l as [|x l].
      - eapply runs_weaken; [apply simulated_ticked|].
        intros r s4 (Hs4 & l & -> & Hnil'). split.
        + exists n. split; [|done]. rewrite <- (app_nil_r n).
          eapply sends_trans; [done|by apply ticked_sends].
        + exists l. split; [done|]. intros _. exact Hnil'.
      - apply runs_ret. split; [by exists n|]. by exists (x :: l). }
    clear dependent l n. intros r s3 ((n & Hsends & Hlen) & l & -> & Hnil).
    apply runs_bind, runs_save_to_cache, runs_ret.
    destruct Hs1 as (Hc1 & _ & Hsent1). destruct Hsends as (Hc3 & Hsent3 & Hknown).
    split.
    + eexists _,
        (mkCE (mkCD (take 20 (Fetcher._remove_duplicate_hashtags l)) category platform)
              (time_time w (ticks s3))), n.
      repeat split; try done.
      * simpl. by rewrite Hc3, Hc1.
      * simpl. by rewrite Hsent3, Hsent1.
      * right. split; [done|]. by eexists.
    + intros Hs Hempty _ ? [= <-]. simpl. by rewrite (Hnil Hs Hempty).
Qed.

End Served.

(** ** The aggregator, source by source *)

Section Aggregate.
Variable w : world.

Lemma served_returns (m : M TrendingResult) key bound s
    (Q : result TrendingResult -> state -> Prop) :
  runs m s (fun r s' => served w key bound s r s' /\ Q r s') ->
  exists tr s', m s = (Ok tr, s') /\ served w key bound s (Ok tr) s' /\ Q (Ok tr) s'
                /\ tr_success tr = true.
Proof.
  unfold runs. destruct (m s) as [r s'] eqn:E. simpl.
  intros [Hserved HQ]. pose proof Hserved as (tr & e & new & -> & Hok & _).
  by exists tr, s'.
Qed.

Lemma try_source_served name (fetch : string -> string -> M TrendingResult)
    category platform acc tr s s' :
  fetch category platform s = (Ok tr, s') -> tr_success tr = true ->
  Fetcher.try_sources [(name, fetch)] category platform acc s
  = (Ok (acc.1 ++ tr_hashtags tr, acc.2 ++ [name]), s').
Proof.
  intros Hfetch Hok. cbn [Fetcher.try_sources]. unfold bind, try_except.
  rewrite Hfetch, Hok. cbn [andb].
  destruct (tr_hashtags tr) as [|x l]; cbn [truthy]; unfold ret; [|done].
  by rewrite app_nil_r.
Qed.

Lemma try_sources_step src rest category platform acc acc' s s' :
  Fetcher.try_sources [src] category platform acc s = (Ok acc', s') ->
  Fetcher.try_sources (src :: rest) category platform acc s
  = Fetcher.try_sources rest category platform acc' s'.
Proof.
  destruct src as [name fetch]. cbn [Fetcher.try_sources]. unfold bind at 1 3.
  destruct (try_except _ _ s) as [[a|e] s1]; [|done]. unfold ret. by intros [= <- <-].
Qed.

Lemma get_trending_decomposed category platform max_count s :
  exists tr1 tr2 tr3 s1 s2 s3,
    Fetcher.fetch_trending_from_web_scraping w category platform s = (Ok tr1, s1)
    /\ Fetcher.fetch_trending_from_hashtagify w category platform s1 = (Ok tr2, s2)
    /\ Fetcher.fetch_trending_from_ritetag w category platform s2 = (Ok tr3, s3)
    /\ Fetcher.get_trending_hashtags w category platform max_count s
       = (Ok (aggregate category platform max_count
                (tr_hashtags tr1 ++ tr_hashtags tr2 ++ tr_hashtags tr3)), s3).
Proof.
  destruct (served_returns _ _ _ _ _ (web_scraping_served w category platform s))
    as (tr1 & s1 & E1 & _ & _ & Hok1).
  destruct (served_returns _ _ _ _ _ (hashtagify_served w category platform s1))
    as (tr2 & s2 & E2 & _ & _ & Hok2).
  destruct (served_returns _ _ _ _ _ (ritetag_served w category platform s2))
    as (tr3 & s3 & E3 & _ & _ & Hok3).
  exists tr1, tr2, tr3, s1, s2, s3. do 3 (split; [done|]).
  unfold Fetcher.get_trending_hashtags, Fetcher.sources. unfold bind at 1.
  rewrite (try_sources_step _ _ _ _ _ _ _ _
             (try_source_served _ _ _ _ ([], []) _ _ _ E1 Hok1)).
  rewrite (try_sources_step _ _ _ _ _ _ _ _
             (try_source_served _ _ _ _ _ _ _ _ E2 Hok2)).
  rewrite (try_source_served _ _ _ _ _ _ _ _ E3 Hok3).
  cbn [fst snd app]. rewrite <- app_assoc.
  by destruct (tr_hashtags tr1 ++ tr_hashtags tr2 ++ tr_hashtags tr3).
Qed.

End Aggregate.

Lemma keys_distinct category platform :
  Fetcher.cache_key "webscrape" category platform
    <> Fetcher.cache_key "hashtagify" category platform
  /\ Fetcher.cache_key "webscrape" category platform
    <> Fetcher.cache_key "ritetag" category platform
  /\ Fetcher.cache_key "hashtagify" category platform
    <> Fetcher.cache_key "ritetag" category platform.
Proof. unfold Fetcher.cache_key. rewrite !append_cons. repeat split; discriminate. Qed.

Lemma served_sent w key bound s r s' :
  served w key bound s r s' -> requested_within bound s s'.
Proof. intros (tr & e & new & _ & _ & _ & _ & Hsent & Hlen & Hknown & _). by exists new. Qed.

Lemma served_lookup w key bound s r s' key' :
  served w key bound s r s' -> key' <> key -> cache s' !! key' = cache s !! key'.
Proof.
  intros (tr & e & new & _ & _ & _ & Hc & _) Hne. rewrite Hc. by apply lookup_insert_ne.
Qed.

(** X9: the aggregator never raises and always names all three sources
    in [source], whichever of them delivered; its result is either a success
    without an error message or the failure with the fixed message and no
    records. *)
Theorem X9_aggregator_result w category platform max_count s :
  exists tr s',
    Fetcher.get_trending_hashtags w category platform max_count s = (Ok tr, s')
    /\ tr_source tr = "web_scraping,hashtagify,ritetag"
    /\ tr_category tr = category /\ tr_platform tr = platform
    /\ ((tr_success tr = true /\ tr_error tr = None)
        \/ (tr_success tr = false /\ tr_hashtags tr = []
            /\ tr_error tr = Some "No trending hashtags found from any source")).
Proof.
  destruct (get_trending_decomposed w category platform max_count s)
    as (tr1 & tr2 & tr3 & s1 & s2 & s3 & _ & _ & _ & ->).
  eexists _, _. split; [reflexivity|].
  destruct (tr_hashtags tr1 ++ tr_hashtags tr2 ++ tr_hashtags tr3); simpl;
    repeat split; auto.
Qed.

Lemma fresh_entry_absent w key s : cache s !! key = None -> fresh_entry w key s = None.
Proof. intros H. unfold fresh_entry. by rewrite H. Qed.

(** X10: for a category and platform without a curated list, when no
    site shows a tag element and the cache has no entry under the three keys,
    the aggregator reports the failure with the fixed message, and the
    generator's wrapper turns it into the empty list. *)
Theorem X10_nothing_found w category platform max_count s :
  silent w ->
  Fetcher.hashtags_list category platform = [] ->
  Forall (fun key => cache s !! key = None) (keys category platform) ->
  exists s',
    Fetcher.get_trending_hashtags w category platform max_count s
    = (Ok (mkTR [] "web_scraping,hashtagify,ritetag" category platform false
                (Some "No trending hashtags found from any source")), s')
    /\ Generator._get_real_trending_hashtags w category platform max_count s = (Ok [], s').
Proof.
  intros Hsilent Hnil Hkeys.
  apply Forall_cons in Hkeys as [Hk1 Hkeys]. apply Forall_cons in Hkeys as [Hk2 Hkeys].
  apply Forall_cons in Hkeys as [Hk3 _].
  destruct (keys_distinct category platform) as (H12 & H13 & H23).
  destruct (served_returns _ _ _ _ _ _ (web_scraping_served w category platform s))
    as (tr1 & s1 & E1 & Hserved1 & Hempty1 & _).
  destruct (served_returns _ _ _ _ _ _ (hashtagify_served w category platform s1))
    as (tr2 & s2 & E2 & Hserved2 & Hempty2 & _).
  destruct (served_returns _ _ _ _ _ _ (ritetag_served w category platform s2))
    as (tr3 & s3 & E3 & _ & Hempty3 & _).
  assert (cache s1 !! Fetcher.cache_key "hashtagify" category platform = None) as Hk2'.
  { by rewrite (served_lookup _ _ _ _ _ _ _ Hserved1). }
  assert (cache s2 !! Fetcher.cache_key "ritetag" category platform = None) as Hk3'.
  { rewrite (served_lookup _ _ _ _ _ _ _ Hserved2) by done.
    by rewrite (served_lookup _ _ _ _ _ _ _ Hserved1). }
  assert (Fetcher.get_trending_hashtags w category platform max_count s
          = (Ok (aggregate category platform max_count []), s3)) as Hagg.
  { destruct (get_trending_decomposed w category platform max_count s)
      as (tr1' & tr2' & tr3' & s1' & s2' & s3' & E1' & E2' & E3' & ->).
    rewrite E1 in E1'. injection E1' as <- <-.
    rewrite E2 in E2'. injection E2' as <- <-.
    rewrite E3 in E3'. injection E3' as <- <-.
    rewrite (Hempty1 Hsilent Hnil (fresh_entry_absent _ _ _ Hk1) _ eq_refl).
    rewrite (Hempty2 Hnil (fresh_entry_absent _ _ _ Hk2') _ eq_refl).
    by rewrite (Hempty3 Hnil (fresh_entry_absent _ _ _ Hk3') _ eq_refl). }
  exists s3. split; [exact Hagg|].
  unfold Generator._get_real_trending_hashtags, try_except, bind. by rewrite Hagg.
Qed.

Lemma X10_nothing_found_witness :
  exists s',
    Fetcher.get_trending_hashtags Sample.offline "pets" "instagram" 8 initial_state
    = (Ok (mkTR [] "web_scraping,hashtagify,ritetag" "pets" "instagram" false
                (Some "No trending hashtags found from any source")), s')
    /\ Generator._get_real_trending_hashtags Sample.offline "pets" "instagram" 8 initial_state
       = (Ok [], s').
Proof.
  apply (X10_nothing_found Sample.offline "pets" "instagram" 8 initial_state).
  - intros k url texts H. discriminate H.
  - reflexivity.
  - repeat constructor.
Defined.

Lemma generate_state c w request s :
  (Generator.generate_enhanced_hashtags c w request s).2
  = (Fetcher.get_trending_hashtags w (Generator.category_of request) (platform request) 8 s).2.
Proof.
  destruct (get_real_trending_returns w (Generator.category_of request)
              (platform request) 8 s) as (real & s1 & Hreal).
  rewrite (generate_eq c w _ _ _ _ Hreal).
  change s1 with (Ok real, s1).2. by rewrite <- Hreal, get_real_trending_state.
Qed.

Lemma get_trending_sent w category platform max_count s :
  requested_within 3 s (Fetcher.get_trending_hashtags w category platform max_count s).2.
Proof.
  destruct (served_returns _ _ _ _ _ _ (web_scraping_served w category platform s))
    as (tr1 & s1 & E1 & (n1 & Hs1 & Hl1 & Hk1)%served_sent & _).
  destruct (served_returns _ _ _ _ _ _ (hashtagify_served w category platform s1))
    as (tr2 & s2 & E2 & (n2 & Hs2 & Hl2 & _)%served_sent & _).
  destruct (served_returns _ _ _ _ _ _ (ritetag_served w category platform s2))
    as (tr3 & s3 & E3 & (n3 & Hs3 & Hl3 & _)%served_sent & _).
  destruct (get_trending_decomposed w category platform max_count s)
    as (tr1' & tr2' & tr3' & s1' & s2' & s3' & E1' & E2' & E3' & ->).
  rewrite E1 in E1'. injection E1' as <- <-.
  rewrite E2 in E2'. injection E2' as <- <-.
  rewrite E3 in E3'. injection E3' as <- <-.
  destruct n2; [|simpl in Hl2; lia]. destruct n3; [|simpl in Hl3; lia].
  rewrite app_nil_r in Hs2, Hs3.
  exists n1. simpl. split; [congruence|done].
Qed.

(** X11: within one call the aggregator and the web-scraping provider
    hand at most three URLs to [requests.get], [_scrape_instagram_trends] at
    most one, [_scrape_trend_websites] at most two, and the two providers of
    simulated data none; every URL is on one of the three sites
    [top-hashtags.com], [all-hashtag.com] and [hashtagsforlikes.co], whatever
    the category and the platform are. *)
Theorem X11_requests_bounded w category platform max_count s :
  requested_within 3 s (Fetcher.get_trending_hashtags w category platform max_count s).2
  /\ requested_within 3 s (Fetcher.fetch_trending_from_web_scraping w category platform s).2
  /\ requested_within 0 s (Fetcher.fetch_trending_from_hashtagify w category platform s).2
  /\ requested_within 0 s (Fetcher.fetch_trending_from_ritetag w category platform s).2
  /\ requested_within 1 s (Fetcher._scrape_instagram_trends w category s).2
  /\ requested_within 2 s (Fetcher._scrape_trend_websites w category platform s).2.
Proof.
  split; [apply get_trending_sent|]. split; [|split; [|split; [|split]]].
  - destruct (served_returns _ _ _ _ _ _ (web_scraping_served w category platform s))
      as (tr & s' & -> & Hserved & _). by apply served_sent in Hserved.
  - destruct (served_returns _ _ _ _ _ _ (hashtagify_served w category platform s))
      as (tr & s' & -> & Hserved & _). by apply served_sent in Hserved.
  - destruct (served_returns _ _ _ _ _ _ (ritetag_served w category platform s))
      as (tr & s' & -> & Hserved & _). by apply served_sent in Hserved.
  - destruct (scrape_instagram_sends w category s) as [(n & (_ & Hs & Hk) & Hl) _].
    by exists n.
  - destruct (scrape_trend_websites_sends w category platform s)
      as [(n & (_ & Hs & Hk) & Hl) _].
    by exists n.
Qed.

(** ** A repeated call *)

Lemma steady_fresh w key s e :
  steady w -> cache s !! key = Some e -> (exists i, ce_timestamp e = time_time w i) ->
  fresh_entry w key s = Some e.
Proof.
  intros Hsteady He [i Hi]. unfold fresh_entry. rewrite He.
  destruct (Qlt_le_dec _ _) as [_|Hge]; [done|].
  rewrite Hi in Hge. apply Qle_not_lt in Hge. destruct Hge. apply Hsteady.
Qed.

Lemma served_stamped w key bound s r s' :
  stamped w s -> served w key bound s r s' -> stamped w s'.
Proof.
  intros Hst (tr & e & new & _ & _ & _ & Hc & _ & _ & _ & Hcase) k e'.
  rewrite Hc. intros [[<- <-]|[_ He']]%lookup_insert_Some; [|by eapply Hst].
  destruct Hcase as [[Hfresh _]|[_ Hi]]; [|done].
  eapply Hst. by eapply fresh_entry_lookup.
Qed.

Lemma served_entry w key bound s tr s' :
  served w key bound s (Ok tr) s' ->
  exists e, cache s' !! key = Some e /\ tr_hashtags tr = cd_hashtags (ce_data e).
Proof.
  intros (tr' & e & new & [= <-] & _ & Hh & Hc & _). exists e.
  split; [|done]. rewrite Hc. apply lookup_insert_eq.
Qed.

Lemma served_hit w key bound s tr s' e :
  served w key bound s (Ok tr) s' -> fresh_entry w key s = Some e ->
  tr_hashtags tr = cd_hashtags (ce_data e) /\ cache s' = cache s /\ sent s' = sent s.
Proof.
  intros (tr' & e' & new & [= <-] & _ & Hh & Hc & Hsent & _ & _ & Hcase) Hfresh.
  destruct Hcase as [[Hfresh' ->]|[Hmiss _]]; [|congruence].
  rewrite Hfresh in Hfresh'. injection Hfresh' as <-.
  split; [done|]. split; [|by rewrite Hsent, app_nil_r].
  rewrite Hc. apply insert_id. by eapply fresh_entry_lookup.
Qed.

Lemma stamped_cache w s s' : cache s' = cache s -> stamped w s -> stamped w s'.
Proof. intros Hc Hst k e. rewrite Hc. apply Hst. Qed.

(** Served from the cache: the second of two aggregations in a row. *)
Lemma repeated_aggregation w category platform max_count s :
  steady w -> stamped w s ->
  let first := Fetcher.get_trending_hashtags w category platform max_count s in
  let second := Fetcher.get_trending_hashtags w category platform max_count first.2 in
  second.1 = first.1 /\ sent second.2 = sent first.2 /\ cache second.2 = cache first.2.
Proof.
  intros Hsteady Hst. cbv zeta.
  destruct (keys_distinct category platform) as (H12 & H13 & H23).
  (* the first call *)
  destruct (served_returns _ _ _ _ _ _ (web_scraping_served w category platform s))
    as (tr1 & s1 & E1 & Hserved1 & _).
  destruct (served_returns _ _ _ _ _ _ (hashtagify_served w category platform s1))
    as (tr2 & s2 & E2 & Hserved2 & _).
  destruct (served_returns _ _ _ _ _ _ (ritetag_served w category platform s2))
    as (tr3 & s3 & E3 & Hserved3 & _).
  pose proof (served_stamped _ _ _ _ _ _ Hst Hserved1) as Hst1.
  pose proof (served_stamped _ _ _ _ _ _ Hst1 Hserved2) as Hst2.
  pose proof (served_stamped _ _ _ _ _ _ Hst2 Hserved3) as Hst3.
  destruct (served_entry _ _ _ _ _ _ Hserved1) as (e1 & He1 & Hh1).
  destruct (served_entry _ _ _ _ _ _ Hserved2) as (e2 & He2 & Hh2).
  destruct (served_entry _ _ _ _ _ _ Hserved3) as (e3 & He3 & Hh3).
  assert (cache s3 !! Fetcher.cache_key "webscrape" category platform = Some e1) as He1'.
  { rewrite (served_lookup _ _ _ _ _ _ _ Hserved3) by done.
    by rewrite (served_lookup _ _ _ _ _ _ _ Hserved2). }
  assert (cache s3 !! Fetcher.cache_key "hashtagify" category platform = Some e2) as He2'.
  { by rewrite (served_lookup _ _ _ _ _ _ _ Hserved3). }
  destruct (get_trending_decomposed w category platform max_count s)
    as (? & ? & ? & ? & ? & ? & E1' & E2' & E3' & ->).
  rewrite E1 in E1'. injection E1' as <- <-.
  rewrite E2 in E2'. injection E2' as <- <-.
  rewrite E3 in E3'. injection E3' as <- <-.
  cbn [fst snd].
  (* the second call *)
  destruct (served_returns _ _ _ _ _ _ (web_scraping_served w category platform s3))
    as (tr1' & s1' & F1 & Hserved1' & _).
  destruct (served_hit _ _ _ _ _ _ _ Hserved1'
              (steady_fresh _ _ _ _ Hsteady He1' (Hst3 _ _ He1')))
    as (Hh1' & Hc1' & Hsent1').
  destruct (served_returns _ _ _ _ _ _ (hashtagify_served w category platform s1'))
    as (tr2' & s2' & F2 & Hserved2' & _).
  assert (cache s1' !! Fetcher.cache_key "hashtagify" category platform = Some e2) as He2''
    by (by rewrite Hc1').
  destruct (served_hit _ _ _ _ _ _ _ Hserved2'
              (steady_fresh _ _ _ _ Hsteady He2'' (Hst3 _ _ He2')))
    as (Hh2' & Hc2' & Hsent2').
  destruct (served_returns _ _ _ _ _ _ (ritetag_served w category platform s2'))
    as (tr3' & s3' & F3 & Hserved3' & _).
  assert (cache s2' !! Fetcher.cache_key "ritetag" category platform = Some e3) as He3''
    by (by rewrite Hc2', Hc1').
  destruct (served_hit _ _ _ _ _ _ _ Hserved3'
              (steady_fresh _ _ _ _ Hsteady He3'' (Hst3 _ _ He3)))
    as (Hh3' & Hc3' & Hsent3').
  destruct (get_trending_decomposed w category platform max_count s3)
    as (? & ? & ? & ? & ? & ? & F1' & F2' & F3' & ->).
  rewrite F1 in F1'. injection F1' as <- <-.
  rewrite F2 in F2'. injection F2' as <- <-.
  rewrite F3 in F3'. injection F3' as <- <-.
  cbn [fst snd]. split; [|split; congruence].
  by rewrite Hh1', Hh2', Hh3', <- Hh1, <- Hh2, <- Hh3.
Qed.

Lemma get_trending_stamped w category platform max_count s :
  stamped w s -> stamped w (Fetcher.get_trending_hashtags w category platform max_count s).2.
Proof.
  intros Hst.
  destruct (served_returns _ _ _ _ _ _ (web_scraping_served w category platform s))
    as (tr1 & s1 & E1 & Hserved1 & _).
  destruct (served_returns _ _ _ _ _ _ (hashtagify_served w category platform s1))
    as (tr2 & s2 & E2 & Hserved2 & _).
  destruct (served_returns _ _ _ _ _ _ (ritetag_served w category platform s2))
    as (tr3 & s3 & E3 & Hserved3 & _).
  destruct (get_trending_decomposed w category platform max_count s)
    as (? & ? & ? & ? & ? & ? & E1' & E2' & E3' & ->).
  rewrite E1 in E1'. injection E1' as <- <-.
  rewrite E2 in E2'. injection E2' as <- <-.
  rewrite E3 in E3'. injection E3' as <- <-.
  cbn [snd]. eapply served_stamped; [|exact Hserved3].
  eapply served_stamped; [|exact Hserved2]. by eapply served_stamped.
Qed.

Lemma after_call_stamped w o s : stamped w s -> stamped w (after_call w o s).
Proof.
  intros Hst.
  destruct o as [c request|category platform max_count|category platform
                |category platform|category platform|category|category platform];
    cbn [after_call].
  - rewrite generate_state. by apply get_trending_stamped.
  - by apply get_trending_stamped.
  - destruct (served_returns _ _ _ _ _ _ (web_scraping_served w category platform s))
      as (tr & s' & -> & Hserved & _). by eapply served_stamped.
  - destruct (served_returns _ _ _ _ _ _ (hashtagify_served w category platform s))
      as (tr & s' & -> & Hserved & _). by eapply served_stamped.
  - destruct (served_returns _ _ _ _ _ _ (ritetag_served w category platform s))
      as (tr & s' & -> & Hserved & _). by eapply served_stamped.
  - destruct (scrape_instagram_sends w category s) as [(n & (Hc & _) & _) _].
    by eapply stamped_cache.
  - destruct (scrape_trend_websites_sends w category platform s) as [(n & (Hc & _) & _) _].
    by eapply stamped_cache.
Qed.

Lemma after_calls_stamped w calls : stamped w (after_calls w calls initial_state).
Proof.
  assert (forall s, stamped w s -> stamped w (after_calls w calls s)) as H.
  { induction calls as [|o calls IH]; intros s Hst; [done|].
    simpl. by apply IH, after_call_stamped. }
  apply H. intros k e He. cbn in He. by rewrite lookup_empty in He.
Qed.

Lemma get_real_trending_eq w category platform max_count s :
  (Generator._get_real_trending_hashtags w category platform max_count s).1
  = Ok (match (Fetcher.get_trending_hashtags w category platform max_count s).1 with
        | Ok tr => if tr_success tr then tr_hashtags tr else []
        | Raise _ => []
        end).
Proof.
  unfold Generator._get_real_trending_hashtags, try_except, bind.
  destruct (Fetcher.get_trending_hashtags w category platform max_count s) as [[tr|e] s1];
    [|done].
  simpl. by destruct (tr_success tr).
Qed.

(** X12: with a clock whose readings are less than an hour apart, and in
    whatever state earlier calls have left the fetcher, an aggregation
    repeated for the same category and platform is answered from the cache:
    it returns the same result as the first, hands no URL to [requests.get]
    and leaves the cache as it is. The generator's wrapper accordingly gets
    the same real trending records again. *)
Theorem X12_repeated_call w calls (topic site : string) max_count :
  steady w ->
  let s := after_calls w calls initial_state in
  let first := Fetcher.get_trending_hashtags w topic site max_count s in
  let second := Fetcher.get_trending_hashtags w topic site max_count first.2 in
  second.1 = first.1 /\ sent second.2 = sent first.2 /\ cache second.2 = cache first.2
  /\ (Generator._get_real_trending_hashtags w topic site max_count first.2).1
     = (Generator._get_real_trending_hashtags w topic site max_count s).1.
Proof.
  intros Hsteady s. pose proof (after_calls_stamped w calls) as Hst. fold s in Hst.
  destruct (repeated_aggregation w topic site max_count s Hsteady Hst)
    as (Hres & Hsent & Hcache).
  cbv zeta. split; [done|]. split; [done|]. split; [done|].
  rewrite !get_real_trending_eq. cbv zeta in Hres. by rewrite Hres.
Qed.

Lemma X12_repeated_call_witness :
  let first := Fetcher.get_trending_hashtags Sample.offline "food" "instagram" 8 initial_state in
  (Fetcher.get_trending_hashtags Sample.offline "food" "instagram" 8 first.2).1 = first.1
  /\ length (sent first.2) = 3%nat
  /\ sent (Fetcher.get_trending_hashtags Sample.offline "food" "instagram" 8 first.2).2
     = sent first.2.
Proof.
  cbv zeta.
  destruct (X12_repeated_call Sample.offline [] "food" "instagram" 8)
    as (Hres & Hsent & _).
  - intros i j. reflexivity.
  - split; [exact Hres|]. split; [by vm_compute|exact Hsent].
Defined.

(** ** The cache *)

(** X13: what [_save_to_cache] stores under a key is what the next
    [_get_from_cache] for that key returns as long as the clock has advanced
    by less than 3600 seconds; from then on the read returns nothing, the
    entry staying where it is. Entries under other keys are not touched. *)
Theorem X13_cache_round_trip w key data s :
  let s1 := (Fetcher._save_to_cache w key data s).2 in
  let age := (time_time w (ticks s1) - time_time w (ticks s))%Q in
  ((age < 3600 # 1)%Q -> Fetcher._get_from_cache w key s1 = (Ok (Some data), tick s1))
  /\ ((3600 # 1 <= age)%Q -> Fetcher._get_from_cache w key s1 = (Ok None, tick s1))
  /\ cache (Fetcher._get_from_cache w key s1).2 !! key
     = Some (mkCE data (time_time w (ticks s)))
  /\ (forall key', key' <> key -> cache s1 !! key' = cache s !! key').
Proof.
  cbv zeta. rewrite save_to_cache_eq. cbn [snd].
  assert (cache (saved w key data s) !! key = Some (mkCE data (time_time w (ticks s))))
    as Hlook by apply lookup_insert_eq.
  rewrite get_from_cache_eq, Hlook. cbn [ce_timestamp ce_data snd].
  split; [|split; [|split]].
  - intros Hage. by destruct (Qlt_le_dec _ _) as [_|Hge]; [|apply Qle_not_lt in Hge].
  - intros Hage. by destruct (Qlt_le_dec _ _) as [Hlt|_]; [apply Qle_not_lt in Hage|].
  - exact Hlook.
  - intros key' Hne. by apply lookup_insert_ne.
Qed.

(** Texts without an underscore are read back from their concatenation
    with underscores in between. *)
Lemma underscore_split a b x y :
  plain a -> plain b ->
  a +:+ String (ascii_of_nat 95) x = b +:+ String (ascii_of_nat 95) y -> a = b /\ x = y.
Proof.
  revert b. induction a as [|ch a IH]; intros [|ch' b] Ha Hb; rewrite ?append_cons, ?append_nil_l.
  - by intros [= <-].
  - apply Forall_cons in Hb as [Hch _]. by intros [= <- _].
  - apply Forall_cons in Ha as [Hch _]. by intros [= -> _].
  - apply Forall_cons in Ha as [_ Ha]. apply Forall_cons in Hb as [_ Hb].
    intros [= <- Heq]. by destruct (IH b Ha Hb Heq) as [-> ->].
Qed.

(** X14: provider names and categories without an underscore -- the three
    provider names, the categories of the categorizer and ["unknown"] have
    none -- are read back from the cache key: two calls share a cache entry
    only when provider, category and platform are the same. *)
Theorem X14_cache_keys_apart provider1 category1 platform1 provider2 category2 platform2 :
  plain provider1 -> plain provider2 -> plain category1 -> plain category2 ->
  Fetcher.cache_key provider1 category1 platform1
  = Fetcher.cache_key provider2 category2 platform2 ->
  provider1 = provider2 /\ category1 = category2 /\ platform1 = platform2.
Proof.
  intros Hp1 Hp2 Hc1 Hc2. unfold Fetcher.cache_key. rewrite !append_cons, !append_nil_l.
  intros [-> Heq]%underscore_split; [|done|done].
  by apply underscore_split in Heq as [-> ->].
Qed.

Lemma plain_names :
  Forall plain (["webscrape"; "hashtagify"; "ritetag"; "unknown"] ++ Categorizer.valid_categories).
Proof. repeat (constructor; [repeat (constructor; [discriminate|]); constructor|]). constructor. Qed.

Lemma X14_cache_keys_apart_witness :
  Fetcher.cache_key "webscrape" "food" "instagram" <> Fetcher.cache_key "webscrape" "travel" "instagram"
  /\ Fetcher.cache_key "hashtagify" "a_b" "c" = Fetcher.cache_key "hashtagify" "a" "b_c".
Proof.
  split; [|reflexivity]. intros Heq.
  destruct (X14_cache_keys_apart "webscrape" "food" "instagram" "webscrape" "travel" "instagram")
    as (_ & Hcat & _); [| | | |exact Heq|discriminate Hcat];
    repeat (constructor; [discriminate|]); constructor.
Defined.

(** ** Deduplication, once more *)

Lemma insert_desc_front x l :
  Forall (not_below x) l -> Fetcher.insert_desc x l = x :: l.
Proof.
  destruct l as [|y l]; [done|]. intros [Hy _]%Forall_cons. simpl.
  unfold not_below in Hy. by destruct (_ <? _) eqn:Hlt; [apply Z.ltb_lt in Hlt; lia|].
Qed.

Lemma sorted_desc_fixed l : StronglySorted not_below l -> Fetcher.sorted_desc l = l.
Proof.
  induction 1 as [|x l Hl IH Hx]; [done|]. simpl. rewrite IH. by apply insert_desc_front.
Qed.

Lemma first_seen_fixed {A} (key : A -> string) seen (l : list A) :
  NoDup (key <$> l) -> Forall (fun x => key x ∉ seen) l -> first_seen key seen l = l.
Proof.
  revert seen. induction l as [|x l IH]; intros seen Hnd Hseen; [done|].
  rewrite fmap_cons in Hnd. apply NoDup_cons in Hnd as [Hx Hnd].
  apply Forall_cons in Hseen as [Hxs Hseen]. simpl. rewrite decide_False by done.
  f_equal. apply IH; [done|]. apply Forall_forall. intros y Hy.
  eapply Forall_forall in Hseen; [|exact Hy].
  apply not_elem_of_union. split; [|done].
  intros Heq%elem_of_singleton. apply Hx. rewrite <- Heq.
  apply list_elem_of_fmap. by exists y.
Qed.

Lemma remove_duplicates_fixed l :
  StronglySorted not_below l -> NoDup (group <$> l) ->
  Fetcher._remove_duplicate_hashtags l = l.
Proof.
  intros Hs Hnd. unfold Fetcher._remove_duplicate_hashtags.
  rewrite sorted_desc_fixed by done. rewrite fetcher_unique_from_first_seen.
  apply first_seen_fixed; [done|]. apply Forall_forall. intros x _. apply not_elem_of_empty.
Qed.

(** X15: [_remove_duplicate_hashtags] leaves its own output as it is,
    cut to any length: the list that the scraping provider stores and
    returns, the first 20 of a deduplicated pool, is not changed by another
    deduplication. *)
Theorem X15_dedup_idempotent pool n :
  Fetcher._remove_duplicate_hashtags (Fetcher._remove_duplicate_hashtags pool)
  = Fetcher._remove_duplicate_hashtags pool
  /\ Fetcher._remove_duplicate_hashtags (take n (Fetcher._remove_duplicate_hashtags pool))
     = take n (Fetcher._remove_duplicate_hashtags pool).
Proof.
  destruct (remove_duplicates_spec pool) as (Hsub & Hnd & _).
  assert (StronglySorted not_below (Fetcher._remove_duplicate_hashtags pool)) as Hs.
  { eapply sublist_sorted; [exact Hsub|apply sorted_desc_sorted]. }
  split; [by apply remove_duplicates_fixed|].
  apply remove_duplicates_fixed.
  - eapply sublist_sorted; [apply sublist_take|exact Hs].
  - eapply sublist_NoDup; [exact Hnd|]. apply fmap_sublist, sublist_take.
Qed.

(** ** The simulated data *)

Section Simulated.
Variable w : world.

Lemma category_records_eq category platform i tags s :
  exists l s',
    Fetcher.category_records w category platform i tags s = (Ok l, s')
    /\ hashtag <$> l = tags
    /\ engagement_score <$> l
       = (fun j : nat => Some (800 - (i + Z.of_nat j) * 50)) <$> seq 0 (length tags)
    /\ Forall (fun h => th_platform h = platform /\ th_category h = Some category) l
    /\ ticks s' = (ticks s + length tags)%nat.
Proof.
  revert i s. induction tags as [|t tags IH]; intros i s.
  - exists [], s. repeat split; [constructor|simpl; lia].
  - cbn [Fetcher.category_records]. unfold bind at 1. unfold Fetcher.strftime at 1.
    destruct (IH (i + 1) (tick s)) as (l & s' & Heq & Htags & Hscores & Hmeta & Hticks).
    fold (tick s). unfold bind at 1. rewrite Heq. unfold ret.
    eexists _, s'. split; [reflexivity|].
    cbn [length seq]. rewrite !fmap_cons. cbn [hashtag engagement_score].
    split; [by rewrite Htags|]. split; [|split].
    + rewrite Hscores, <- fmap_S_seq, <- list_fmap_compose. f_equal; [f_equal; lia|].
      apply list_fmap_ext. intros _ j _. simpl. f_equal. lia.
    + by constructor.
    + rewrite Hticks. simpl. lia.
Qed.

Lemma ritetag_score z : Fetcher.int_of_Q (inject_Z (z * 5) * (12 # 10))%Q = z * 6.
Proof.
  unfold Fetcher.int_of_Q. simpl.
  change (Z.pos (1 * 10)) with 10. replace (z * 5 * 12) with (z * 6 * 10) by lia.
  apply Z.quot_mul. lia.
Qed.

(** X16: the simulated data are the curated list of the category and
    the platform, one clock reading per record: for the source ["ritetag"]
    every tag with [RT] appended and the scores 960, 900, 840, ..., for any
    other source the tags as they are and the scores 800, 750, 700, ... *)
Theorem X16_simulated_data category platform source s :
  let tags := Fetcher.hashtags_list category platform in
  exists l s',
    Fetcher._get_simulated_trending_data w category platform source s = (Ok l, s')
    /\ ticks s' = (ticks s + length tags)%nat
    /\ Forall (fun h => th_platform h = platform /\ th_category h = Some category) l
    /\ (if decide (source = "ritetag")
        then hashtag <$> l = (fun t => t +:+ "RT") <$> tags
             /\ engagement_score <$> l
                = (fun j : nat => Some (960 - 60 * Z.of_nat j)) <$> seq 0 (length tags)
        else hashtag <$> l = tags
             /\ engagement_score <$> l
                = (fun j : nat => Some (800 - 50 * Z.of_nat j)) <$> seq 0 (length tags)).
Proof.
  cbv zeta. unfold Fetcher._get_simulated_trending_data, Fetcher._get_category_trending_hashtags.
  destruct (category_records_eq category platform 0 (Fetcher.hashtags_list category platform) s)
    as (l & s' & Heq & Htags & Hscores & Hmeta & Hticks).
  destruct (decide (source = "ritetag")) as [Hs|Hs]; unfold bind; rewrite Heq; unfold ret;
    eexists _, s'; (split; [reflexivity|]); (split; [done|]); (split; [|split]).
  - apply Forall_fmap. eapply Forall_impl; [exact Hmeta|]. by intros h [? ?].
  - rewrite <- Htags, <- !list_fmap_compose. by apply list_fmap_ext.
  - rewrite <- list_fmap_compose.
    assert (forall h : TrendingHashtagData,
              engagement_score (Fetcher.adjust (12 # 10) "RT" h)
              = match engagement_score h with
                | Some z => if decide (z = 0) then Some z
                            else Some (Fetcher.int_of_Q (inject_Z z * (12 # 10))%Q)
                | None => None
                end) as Hadj by done.
    transitivity ((fun o : option Z =>
                     match o with
                     | Some z => if decide (z = 0) then Some z
                                 else Some (Fetcher.int_of_Q (inject_Z z * (12 # 10))%Q)
                     | None => None
                     end) <$> (engagement_score <$> l)).
    { rewrite <- list_fmap_compose. by apply list_fmap_ext. }
    rewrite Hscores, <- list_fmap_compose. apply list_fmap_ext. intros _ j _. simpl.
    replace (800 - (0 + Z.of_nat j) * 50) with ((160 - 10 * Z.of_nat j) * 5) by lia.
    case_decide as Hz; [f_equal; lia|]. rewrite ritetag_score. f_equal. lia.
  - apply Forall_fmap. eapply Forall_impl; [exact Hmeta|]. by intros h [? ?].
  - rewrite <- Htags, <- !list_fmap_compose. by apply list_fmap_ext.
  - rewrite <- list_fmap_compose.
    transitivity ((fun o : option Z =>
                     match o with
                     | Some z => if decide (z = 0) then Some z
                                 else Some (Fetcher.int_of_Q (inject_Z z * (1 # 1))%Q)
                     | None => None
                     end) <$> (engagement_score <$> l)).
    { rewrite <- list_fmap_compose. by apply list_fmap_ext. }
    rewrite Hscores, <- list_fmap_compose. apply list_fmap_ext. intros _ j _. simpl.
    case_decide as Hz; [f_equal; lia|]. f_equal.
    unfold Fetcher.int_of_Q. simpl. change (Z.pos (1 * 1)) with 1.
    rewrite Z.quot_1_r. lia.
Qed.

End Simulated.

(** * Properties of the callers *)

(** ** Trending insights *)

Lemma scored_truthy l :
  Forall scored l -> omap Main.truthy_score l = Fetcher.score_key <$> l.
Proof.
  induction 1 as [|h l (z & Hz & Hpos) _ IH]; [done|].
  change (omap Main.truthy_score (h :: l))
    with (match Main.truthy_score h with
          | Some y => y :: omap Main.truthy_score l
          | None => omap Main.truthy_score l
          end).
  rewrite IH, fmap_cons. unfold Main.truthy_score. rewrite Hz.
  rewrite decide_False by lia. f_equal. unfold Fetcher.score_key. by rewrite Hz.
Qed.

Lemma scored_positive l : Forall scored l -> Forall (fun z => 0 < z) (Fetcher.score_key <$> l).
Proof.
  intros H. apply Forall_fmap. eapply Forall_impl; [exact H|].
  intros h (z & Hz & Hpos). unfold Fetcher.score_key. simpl. by rewrite Hz.
Qed.

Lemma omap_length_le {A B} (f : A -> option B) (l : list A) :
  (length (omap f l) <= length l)%nat.
Proof.
  induction l as [|x l IH]; [done|].
  change (omap f (x :: l))
    with (match f x with Some y => y :: omap f l | None => omap f l end).
  destruct (f x); simpl; lia.
Qed.

(** X17: in whatever state earlier calls have left the fetcher,
    [get_trending_insights] returns either the failure of the aggregator with
    its fixed message, or at most 20 tags, no two equal up to case, with
    exactly one engagement score per tag -- all positive, in descending
    order, so that no score is lost to the truthiness filter -- and at most
    as many growth rates. *)
Theorem X17_trending_insights w calls category platform :
  let s := after_calls w calls initial_state in
  match (Main.get_trending_insights w category platform s).1 with
  | Main.Insights tags category' platform' source scores rates updated =>
      category' = category /\ platform' = platform
      /\ source = "web_scraping,hashtagify,ritetag"
      /\ (0 < length tags <= 20)%nat
      /\ NoDup (PyStr.lower <$> tags)
      /\ length scores = length tags
      /\ Forall (fun z => 0 < z) scores
      /\ StronglySorted (fun a b => b <= a) scores
      /\ (length rates <= length tags)%nat
  | Main.NoInsights error category' platform' =>
      category' = category /\ platform' = platform
      /\ error = Some "No trending hashtags found from any source"
  end.
Proof.
  intros s.
  assert (cache_scored s) as Hc.
  { apply (after_calls_step w calls initial_state), cache_scored_initial. }
  pose proof (get_trending_scored w category platform 20 s Hc) as Hscored.
  unfold runs in Hscored.
  destruct (get_trending_decomposed w category platform 20 s)
    as (tr1 & tr2 & tr3 & s1 & s2 & s3 & _ & _ & _ & Heq).
  unfold Main.get_trending_insights. rewrite Heq in Hscored |- *.
  cbn [fst snd] in Hscored. destruct Hscored as (_ & tr & [= <-] & Hsc).
  destruct (tr_hashtags tr1 ++ tr_hashtags tr2 ++ tr_hashtags tr3) as [|x pool] eqn:Hpool;
    [done|].
  cbn [aggregate tr_success tr_hashtags tr_source fst] in Hsc |- *.
  rewrite slice_to_nonneg in Hsc |- * by lia. change (Z.to_nat 20) with 20%nat in *.
  destruct (deduplicated_shape (x :: pool) 20) as (Hlen & Hnd & Hsorted).
  set (l := take 20 (Fetcher._remove_duplicate_hashtags (x :: pool))) in *.
  rewrite (scored_truthy l Hsc).
  split; [done|]. split; [done|]. split; [done|]. rewrite !length_fmap.
  split; [split; [|done]|].
  { assert (l <> []) as Hne.
    { apply take_nonempty; [lia|]. by apply remove_duplicates_nonempty. }
    destruct l; [done|simpl; lia]. }
  split; [by rewrite <- list_fmap_compose|]. split; [done|].
  split; [by apply scored_positive|]. split.
  - eapply StronglySorted_fmap; [|exact Hsorted]. by intros a b Hab.
  - apply omap_length_le.
Qed.

(** A record whose growth rate is zero has none under [growth_rates]: for
    events on Instagram the curated list has ten tags and the ninth has the
    rate 0.12 - 8 * 0.015. *)
Example insights_growth_rates :
  match (Main.get_trending_insights Sample.offline "events" "instagram" initial_state).1 with
  | Main.Insights tags _ _ _ scores rates _ =>
      length tags = 20%nat /\ length scores = 20%nat /\ length rates = 18%nat
  | Main.NoInsights _ _ _ => False
  end.
Proof. by vm_compute. Qed.

(** ** The categorizer *)



Lemma first_match_spec cats text :
  match Categorizer.first_match cats text with
  | Some category =>
      exists earlier later,
        cats = earlier ++ category :: later
        /\ Generator.contains category text = true
        /\ Forall (fun x => Generator.contains x text = false) earlier
  | None => Forall (fun x => Generator.contains x text = false) cats
  end.
Proof.
  induction cats as [|x cats IH]; cbn [Categorizer.first_match]; [constructor|].
  destruct (Generator.contains x text) eqn:Hx.
  - exists [], cats. by repeat split.
  - destruct (Categorizer.first_match cats text) as [category|].
    + destruct IH as (earlier & later & -> & Hc & Hearlier).
      exists (x :: earlier), later. repeat split; [done|]. by constructor.
    + by constructor.
Qed.

Lemma keep_secondary_valid primary cats :
  Forall (fun s => s ∈ Categorizer.valid_categories /\ s <> primary)
         (omap (Categorizer.keep_secondary primary) cats).
Proof.
  induction cats as [|cat cats IH]; [constructor|].
  change (omap (Categorizer.keep_secondary primary) (cat :: cats))
    with (match Categorizer.keep_secondary primary cat with
          | Some y => y :: omap (Categorizer.keep_secondary primary) cats
          | None => omap (Categorizer.keep_secondary primary) cats
          end).
  destruct cat as [| | | |s| |]; try exact IH. cbn [Categorizer.keep_secondary].
  destruct (_ && _) eqn:Hkeep; [|exact IH].
  apply andb_true_iff in Hkeep as [Hv%bool_decide_eq_true Hp%negb_true_iff%bool_decide_eq_false].
  by constructor.
Qed.

Lemma first_match_valid text category :
  Categorizer.first_match Categorizer.valid_categories text = Some category ->
  category ∈ Categorizer.valid_categories.
Proof.
  intros H. pose proof (first_match_spec Categorizer.valid_categories text) as Hspec.
  rewrite H in Hspec. destruct Hspec as (earlier & later & -> & _).
  apply elem_of_app. right. apply list_elem_of_here.
Qed.

Lemma unknown_not_valid : "unknown" ∉ Categorizer.valid_categories.
Proof. intros Hin%list_elem_of_In. vm_compute in Hin. intuition discriminate. Qed.

(** X18: [categorize_content] never raises. A successful result names as
    primary category one of the table or ["unknown"], and as secondary
    categories only categories of the table other than the primary one; it
    has no error message. A failed result is the fixed record with
    ["unknown"], no secondary categories, confidence 0 and a message. *)
Theorem X18_categorized c image_path :
  let r := Categorizer.categorize_content c image_path in
  if Categorizer.success r
  then Categorizer.error r = None
       /\ Categorizer.primary_category r ∈ "unknown" :: Categorizer.valid_categories
       /\ Forall (fun s => s ∈ Categorizer.valid_categories
                           /\ s <> Categorizer.primary_category r)
                 (Categorizer.secondary_categories r)
  else exists message, r = Categorizer.failure message.
Proof.
  cbv zeta. unfold Categorizer.categorize_content, Categorizer.categorize_body, rbind.
  destruct (Categorizer.analyze_image c image_path) as [a|e]; [|by eexists].
  destruct (ai_success a); cbn [negb]; [|by eexists].
  destruct (ai_content a) as [content|]; [|by eexists].
  unfold Categorizer.parse_response, rbind.
  destruct (Categorizer.json_loads c _) as [[| | | | | |data]|]; try (by eexists).
  - destruct (Categorizer.py_float c _) as [q|e]; [|by eexists].
    destruct (Categorizer.iterate _) as [cats|e]; [|by eexists].
    cbn [Categorizer.success Categorizer.error Categorizer.primary_category
         Categorizer.secondary_categories].
    split; [done|]. split; [|apply keep_secondary_valid].
    destruct (Fetcher.dict_get "primary_category" _ data) as [| | | |s| |];
      try apply list_elem_of_here.
    case_bool_decide as Hs; [by apply list_elem_of_further|apply list_elem_of_here].
  - destruct (Categorizer.first_match _ _) as [category|] eqn:Hm;
      cbn [Categorizer.success Categorizer.error Categorizer.primary_category
           Categorizer.secondary_categories].
    + split; [done|]. split; [|constructor].
      apply list_elem_of_further. by eapply first_match_valid.
    + split; [done|]. split; [apply list_elem_of_here|constructor].
Qed.



(** * Further properties of the pipeline *)

(** ** The final list of the fallback *)

(** X20: when the suggestion is no JSON text, the first three tags
    extracted from it go to the bucket [trending_hashtags], which the merge
    does not read: every tag of the final list is a real trending tag or one
    of the extracted tags from the fourth to the fifteenth. *)
Theorem X20_fallback_final_list c request real a text r :
  suggestion c request real = Some a ->
  ai_content a = Some text ->
  json_loads c (Generator.strip_fences text) = None ->
  Generator.synthesize c request real = Ok r ->
  success r = true ->
  let extracted := Generator._extract_hashtags_from_text (Generator.strip_fences text) in
  Forall (fun t => t ∈ hashtag <$> real \/ t ∈ drop 3 (take 15 extracted)) (hashtags r)
  /\ head (ai_generated_hashtags r) = Some (PList (take 3 extracted)).
Proof.
  intros Hsug Htext Hjson Hsyn Hok extracted.
  apply synthesize_inv in Hsyn as (d & a' & Hd & Ha & Hcase).
  unfold suggestion in Hsug. rewrite Hd, Ha in Hsug. injection Hsug as ->.
  destruct Hcase as [[_ ->]|[_ (ai & cb & ai' & pool & Hparse & Hcomb & Hpool & ->)]];
    [done|].
  rewrite Htext in Hparse. cbn [Generator._parse_ai_hashtag_response] in Hparse.
  rewrite Hjson in Hparse. fold extracted in Hparse. injection Hparse as <-.
  assert (forall a b (t : string), t ∈ slice a b extracted -> (3 <= a)%nat -> (b <= 15)%nat ->
            t ∈ drop 3 (take 15 extracted)) as Hslice.
  { intros lo hi t Ht Hlo Hhi. unfold slice in Ht.
    apply elem_of_take in Ht as (i & Hi & Hlt).
    rewrite lookup_drop in Hi. apply list_elem_of_lookup. exists (lo + i - 3)%nat.
    rewrite lookup_drop, lookup_take_lt by lia. rewrite <- Hi. f_equal. lia. }
  split.
  - cbn [hashtags]. apply Forall_forall. intros t Ht.
    assert (t ∈ pool) as Hin.
    { eapply elem_of_sublist; [exact Ht|].
      etrans; [apply slice_to_sublist|].
      rewrite generator_unique_from_first_seen. apply first_seen_sublist. }
    match type of Hcomb with
    | Generator._combine_hashtag_sources (Dict ?ai) _ _ = _ =>
        destruct (combine_popular_origin ai real request (slice 3 8 extracted) cb ai'
                    eq_refl Hcomb) as (Htr & tp' & Hcbp & Horigin)
    end.
    assert (Generator.cb_niche cb = PList (slice 8 12 extracted)
            /\ Generator.cb_branded cb = PList (slice 12 15 extracted)) as [Hcbn Hcbb].
    { unfold Generator._combine_hashtag_sources in Hcomb.
      destruct (Generator.py_len _); [|done].
      destruct (_ <? _)%nat; [destruct (Generator.backfill _ _); [|done]|];
        by injection Hcomb as <- _. }
    apply assemble_inv in Hpool as (fn & fp & fb & Hfn & Hfp & Hfb & ->).
    rewrite Hcbn in Hfn. rewrite Hcbp in Hfp. rewrite Hcbb in Hfb.
    apply elem_of_app in Hin as [Hin|Hin].
    { left. rewrite <- Htr. destruct (include_trending request).
      - eapply elem_of_sublist; [exact Hin|apply sublist_take].
      - by apply elem_of_nil in Hin. }
    apply elem_of_app in Hin as [Hin|Hin].
    { right. eapply (Hslice 8%nat 12%nat); [|lia|lia]. by eapply slice_val_opt_list. }
    apply elem_of_app in Hin as [Hin|Hin].
    { destruct (Horigin t) as [Hl|Hr]; [by eapply slice_val_list| |by left].
      right. eapply (Hslice 3%nat 8%nat); [done|lia|lia]. }
    right. eapply (Hslice 12%nat 15%nat); [|lia|lia]. by eapply slice_val_opt_list.
  - cbn [ai_generated_hashtags].
    unfold Generator._combine_hashtag_sources in Hcomb.
    destruct (Generator.py_len _); [|done].
    destruct (_ <? _)%nat; [destruct (Generator.backfill _ _); [|done]|];
      injection Hcomb as _ <-; cbn; unfold slice; by rewrite drop_0.
Qed.

Lemma X20_fallback_final_list_witness :
  exists r,
    Generator.synthesize (Sample.analyzer (mkAI true (Some "#one #two #three #four") None))
      (Sample.request 15) [] = Ok r
    /\ hashtags r = ["#four"]
    /\ head (ai_generated_hashtags r) = Some (PList ["#one"; "#two"; "#three"]).
Proof.
  eexists. split; [reflexivity|]. split; [reflexivity|].
  refine (proj2 (X20_fallback_final_list
                   (Sample.analyzer (mkAI true (Some "#one #two #three #four") None))
                   (Sample.request 15) [] (mkAI true (Some "#one #two #three #four") None)
                   "#one #two #three #four" _ eq_refl eq_refl eq_refl eq_refl eq_refl)).
Defined.

(** ** Handlers that are never entered *)

(** X21: none of the three providers ever reports a failure: in every
    state and every world each returns with [success = True], from the cache
    or with freshly gathered records, so that the sources ["hashtagify"],
    ["ritetag"], ["fallback_simulated"] and ["web_scraping"] of their
    exception handlers are never seen. *)
Theorem X21_providers_succeed w category platform s :
  (exists tr s',
     Fetcher.fetch_trending_from_web_scraping w category platform s = (Ok tr, s')
     /\ tr_success tr = true
     /\ tr_source tr ∈ ["webscrape_cache"; "web_scraping_with_fallback"])
  /\ (exists tr s',
        Fetcher.fetch_trending_from_hashtagify w category platform s = (Ok tr, s')
        /\ tr_success tr = true
        /\ tr_source tr ∈ ["hashtagify_cache"; "hashtagify_simulated"])
  /\ (exists tr s',
        Fetcher.fetch_trending_from_ritetag w category platform s = (Ok tr, s')
        /\ tr_success tr = true
        /\ tr_source tr ∈ ["ritetag_cache"; "ritetag_simulated"]).
Proof.
  split; [|split].
  - pose proof (web_scraping_spec w category platform s) as Hspec. unfold runs in Hspec.
    destruct (Fetcher.fetch_trending_from_web_scraping w category platform s) as [r s'].
    simpl in Hspec. destruct Hspec as [[_ (tr & -> & _)] Hsrc].
    exists tr, s'. split; [done|]. destruct (Hsrc _ eq_refl) as (Hok & _ & ->).
    split; [done|]. destruct (fresh_entry _ _ _).
    + apply list_elem_of_here.
    + apply list_elem_of_further, list_elem_of_here.
  - pose proof (runs_conj _ _ _ _
                  (simulated_provider_spec w "hashtagify" category platform "general"
                     "hashtagify_cache" "hashtagify_simulated" s)
                  (hashtagify_served w category platform s)) as Hspec.
    unfold runs in Hspec.
    change (try_except _ _) with (Fetcher.fetch_trending_from_hashtagify w category platform)
      in Hspec.
    destruct (Fetcher.fetch_trending_from_hashtagify w category platform s) as [r s'].
    simpl in Hspec. destruct Hspec as [[_ Hsrc] [(tr & e & n & -> & Hok & _) _]].
    exists tr, s'. split; [done|]. split; [done|]. rewrite (Hsrc _ eq_refl).
    destruct (fresh_entry _ _ _).
    + apply list_elem_of_here.
    + apply list_elem_of_further, list_elem_of_here.
  - pose proof (runs_conj _ _ _ _
                  (simulated_provider_spec w "ritetag" category platform "ritetag"
                     "ritetag_cache" "ritetag_simulated" s)
                  (ritetag_served w category platform s)) as Hspec.
    unfold runs in Hspec.
    change (try_except _ _) with (Fetcher.fetch_trending_from_ritetag w category platform)
      in Hspec.
    destruct (Fetcher.fetch_trending_from_ritetag w category platform s) as [r s'].
    simpl in Hspec. destruct Hspec as [[_ Hsrc] [(tr & e & n & -> & Hok & _) _]].
    exists tr, s'. split; [done|]. split; [done|]. rewrite (Hsrc _ eq_refl).
    destruct (fresh_entry _ _ _).
    + apply list_elem_of_here.
    + apply list_elem_of_further, list_elem_of_here.
Qed.

(** ** The quoted category *)








(** ** A suggestion with a tag that is no string *)

Lemma clean_hashtags_strings strs :
  exists tags, Generator._clean_hashtags (JStr <$> strs) = Ok tags.
Proof.
  induction strs as [|s strs [tags Htags]]; [by exists []|].
  rewrite fmap_cons. cbn [Generator._clean_hashtags]. rewrite Htags. by eexists.
Qed.

Lemma clean_hashtags_raises strs j rest :
  (forall s, j <> JStr s) ->
  Generator._clean_hashtags ((JStr <$> strs) ++ j :: rest)
  = Raise (Generator.no_attribute (Generator.type_name j) "startswith").
Proof.
  intros Hj. induction strs as [|s strs IH].
  - destruct j as [| | | |s0| |]; try done. by destruct (Hj s0).
  - rewrite fmap_cons. cbn [app Generator._clean_hashtags]. by rewrite IH.
Qed.

Lemma clean_items_app before cleaned items :
  Generator.clean_items before = Ok cleaned ->
  Generator.clean_items (before ++ items)
  = match Generator.clean_items items with
    | Ok rest => Ok (cleaned ++ rest)
    | Raise e => Raise e
    end.
Proof.
  revert cleaned. induction before as [|[k v] before IH]; intros cleaned.
  - simpl. intros [= <-]. by destruct (Generator.clean_items items).
  - cbn [app Generator.clean_items].
    destruct (match v with JArr l => _ | _ => _ end) as [v'|e]; [|done].
    destruct (Generator.clean_items before) as [rest'|e]; [|done].
    intros [= <-]. rewrite (IH _ eq_refl).
    by destruct (Generator.clean_items items).
Qed.

(** X23: a JSON suggestion in which an array holds something other than
    a string -- after keys whose values have been cleaned without incident --
    makes the parsing raise the [AttributeError] of [startswith] on that
    element, whatever comes after it. *)
Theorem X23_non_string_tag c text before cleaned key strs j rest after :
  json_loads c (Generator.strip_fences text)
  = Some (JObj (before ++ (key, JArr ((JStr <$> strs) ++ j :: rest)) :: after)) ->
  Generator.clean_items before = Ok cleaned ->
  (forall s, j <> JStr s) ->
  Generator._parse_ai_hashtag_response c (Some text)
  = Raise (Exn "AttributeError"
               ("'" +:+ Generator.type_name j +:+ "' object has no attribute 'startswith'")).
Proof.
  intros Hjson Hbefore Hj. unfold Generator._parse_ai_hashtag_response. rewrite Hjson.
  cbn [Generator.clean_data].
  rewrite (clean_items_app _ _ _ Hbefore). cbn [Generator.clean_items].
  by rewrite (clean_hashtags_raises _ _ _ Hj).
Qed.

Lemma X23_non_string_tag_witness :
  Generator._parse_ai_hashtag_response
    (mkCollab (fun _ _ => Ok (mkAI true (Some "{...}") None))
       (fun _ => Some (JObj [ ("niche_hashtags", JArr [JStr "#pasta"]);
                              ("popular_hashtags", JArr [JStr "#food"; JInt 7; JNull]) ])))
    (Some "{...}")
  = Raise (Exn "AttributeError" "'int' object has no attribute 'startswith'").
Proof.
  apply (X23_non_string_tag _ "{...}" [("niche_hashtags", JArr [JStr "#pasta"])]
           [("niche_hashtags", PList ["#pasta"])] "popular_hashtags" ["#food"] (JInt 7) [JNull] []).
  - reflexivity.
  - reflexivity.
  - intros s. discriminate.
Defined.

(** * The aggregation over its pool *)

Lemma slice_to_nil {A} (n : Z) : slice_to n ([] : list A) = [].
Proof. unfold slice_to. by destruct (0 <=? n); rewrite take_nil. Qed.

(** C5: the deduplication keeps one record per lower-cased tag text, the
    first record of the pool among those of its group with the highest score
    ([engagement_score or 0]), as it stands in the pool; the unique list is
    in descending order of score, records of equal score in their pool order.
    The pool of the aggregator is what the three providers return, one after
    the other, and the aggregator returns the first [max_count] records of
    its deduplication. *)
Theorem C5_dedup_sort_truncate :
  (forall pool,
     let out := Fetcher._remove_duplicate_hashtags pool in
     NoDup (group <$> out)
     /\ (forall x, x ∈ pool -> exists y, y ∈ out /\ group y = group x)
     /\ (forall y, y ∈ out ->
           exists pre post,
             pool = pre ++ y :: post
             /\ (forall x, x ∈ pre -> group x = group y ->
                   Fetcher.score_key x < Fetcher.score_key y)
             /\ (forall x, x ∈ post -> group x = group y ->
                   Fetcher.score_key x <= Fetcher.score_key y))
     /\ StronglySorted not_below out
     /\ (forall k, filter (with_score k) out `sublist_of` filter (with_score k) pool))
  /\ (forall w category platform max_count s,
        exists tr1 tr2 tr3 s1 s2 s3 tr,
          Fetcher.fetch_trending_from_web_scraping w category platform s = (Ok tr1, s1)
          /\ Fetcher.fetch_trending_from_hashtagify w category platform s1 = (Ok tr2, s2)
          /\ Fetcher.fetch_trending_from_ritetag w category platform s2 = (Ok tr3, s3)
          /\ Fetcher.get_trending_hashtags w category platform max_count s = (Ok tr, s3)
          /\ let pool := tr_hashtags tr1 ++ tr_hashtags tr2 ++ tr_hashtags tr3 in
             tr_hashtags tr = slice_to max_count (Fetcher._remove_duplicate_hashtags pool)
             /\ (0 <= max_count ->
                 tr_hashtags tr
                 = take (Z.to_nat max_count) (Fetcher._remove_duplicate_hashtags pool))
             /\ (tr_success tr = true <-> pool <> [])).
Proof.
  split.
  - intros pool out.
    destruct (remove_duplicates_spec pool) as (Hsub & Hnd & Hcov & Hout). fold out in Hsub, Hnd, Hcov, Hout.
    split; [done|]. split; [done|]. split; [|split].
    + intros y Hy. destruct (Hout y Hy) as (Hin & Hmax & pre & post & Hpool & Hpre).
      exists pre, post. split; [done|]. split; [done|].
      intros x Hx Hg. apply Hmax; [|done]. rewrite Hpool.
      apply elem_of_app. right. by apply list_elem_of_further.
    + eapply sublist_sorted; [exact Hsub|apply sorted_desc_sorted].
    + intros k. rewrite <- (sorted_desc_stable k pool). by apply filter_sublist_mono.
  - intros w category platform max_count s.
    destruct (get_trending_decomposed w category platform max_count s)
      as (tr1 & tr2 & tr3 & s1 & s2 & s3 & E1 & E2 & E3 & E).
    exists tr1, tr2, tr3, s1, s2, s3.
    eexists. split; [done|]. split; [done|]. split; [done|]. split; [exact E|].
    cbv zeta.
    destruct (tr_hashtags tr1 ++ tr_hashtags tr2 ++ tr_hashtags tr3) as [|x pool]; simpl.
    + rewrite remove_duplicates_nil, slice_to_nil, take_nil. by repeat split.
    + split; [done|]. split; [intros Hmax; by rewrite slice_to_nonneg|done].
Qed.

(** ** The floor under the aggregation *)

Lemma underscore_not_plain a x : ~ plain (a +:+ String (ascii_of_nat 95) x).
Proof.
  induction a as [|ch a IH]; rewrite ?append_cons, ?append_nil_l;
    intros [H1 H2]%Forall_cons; [done|by apply IH].
Qed.

(** A text with a single underscore splits in one way only. *)
Lemma split_unique a x b y :
  plain b -> plain y ->
  a +:+ String (ascii_of_nat 95) x = b +:+ String (ascii_of_nat 95) y -> a = b /\ x = y.
Proof.
  revert b. induction a as [|ch a IH]; intros [|ch' b] Hb Hy;
    rewrite ?append_cons, ?append_nil_l.
  - by intros [= <-].
  - apply Forall_cons in Hb as [Hch _]. by intros [= <- _].
  - intros [= -> Heq]. rewrite <- Heq in Hy. by apply underscore_not_plain in Hy.
  - apply Forall_cons in Hb as [_ Hb]. intros [= <- Heq].
    by destruct (IH b Hb Hy Heq) as [-> ->].
Qed.

Lemma webscrape_key_inj category' platform' category platform :
  plain category -> plain platform ->
  Fetcher.cache_key "webscrape" category' platform'
  = Fetcher.cache_key "webscrape" category platform ->
  category' = category /\ platform' = platform.
Proof.
  intros Hc Hp. unfold Fetcher.cache_key. rewrite !append_cons, !append_nil_l.
  intros [= Heq]. by apply split_unique in Heq.
Qed.

Lemma webscrape_key_apart category platform category' platform' :
  Fetcher.cache_key "webscrape" category platform
    <> Fetcher.cache_key "hashtagify" category' platform'
  /\ Fetcher.cache_key "webscrape" category platform
    <> Fetcher.cache_key "ritetag" category' platform'.
Proof. unfold Fetcher.cache_key. rewrite !append_cons. split; discriminate. Qed.

Lemma curated_plain category platform :
  in_curated_table category platform -> plain category /\ plain platform.
Proof.
  intros (entry & Hin & Hp). unfold Fetcher.trending_data in Hin.
  repeat (apply elem_of_cons in Hin as [[= -> ->]|Hin];
          [simpl in Hp;
           repeat (apply elem_of_cons in Hp as [->|Hp];
                   [split; repeat (constructor; [discriminate|]); constructor|]);
           by apply elem_of_nil in Hp|]).
  by apply elem_of_nil in Hin.
Qed.

(** Where the table has a list, the scraping provider hands out at least
    one record: gathered anew when the cache read misses, and from a cache
    that holds no empty entry otherwise. *)
Lemma web_scraping_floor w category platform s tr s' :
  Fetcher.fetch_trending_from_web_scraping w category platform s = (Ok tr, s') ->
  in_curated_table category platform ->
  cache_stocked s
  \/ fresh_entry w (Fetcher.cache_key "webscrape" category platform) s = None ->
  tr_hashtags tr <> [].
Proof.
  intros E Hcur Hcase.
  pose proof (web_scraping_spec w category platform s) as Hspec.
  unfold runs in Hspec. rewrite E in Hspec. simpl in Hspec.
  destruct Hspec as [_ Hspec]. destruct (Hspec tr eq_refl) as (_ & Hmiss & _).
  destruct (fresh_entry w (Fetcher.cache_key "webscrape" category platform) s)
    as [e|] eqn:Hfresh.
  - destruct Hcase as [Hstocked|?]; [|done].
    destruct (served_returns _ _ _ _ _ _ (web_scraping_served w category platform s))
      as (tr' & s'' & E' & Hserved & _).
    rewrite E in E'. injection E' as <- <-.
    destruct (served_hit _ _ _ _ _ _ _ Hserved Hfresh) as (Hh & _). rewrite Hh.
    eapply Hstocked; [done|]. by eapply fresh_entry_lookup.
  - apply Hmiss; [done|by apply curated_nonempty].
Qed.

Lemma web_scraping_stocked w category platform s :
  cache_stocked s ->
  cache_stocked (Fetcher.fetch_trending_from_web_scraping w category platform s).2.
Proof.
  intros Hst.
  destruct (served_returns _ _ _ _ _ _ (web_scraping_served w category platform s))
    as (tr & s' & E & Hserved & _).
  rewrite E. cbn [snd]. intros c0 p0 e0 Hcur Hlook.
  destruct (decide (Fetcher.cache_key "webscrape" c0 p0
                    = Fetcher.cache_key "webscrape" category platform)) as [Heq|Hne].
  - destruct (curated_plain _ _ Hcur) as [Hc Hp].
    symmetry in Heq. apply webscrape_key_inj in Heq as [-> ->]; [|done..].
    destruct (served_entry _ _ _ _ _ _ Hserved) as (e & He & Hh).
    rewrite He in Hlook. injection Hlook as <-. rewrite <- Hh.
    eapply web_scraping_floor; [exact E|done|by left].
  - rewrite (served_lookup _ _ _ _ _ _ _ Hserved Hne) in Hlook. by eapply Hst.
Qed.

Lemma served_stocked w key bound s r s' :
  (forall category platform, Fetcher.cache_key "webscrape" category platform <> key) ->
  served w key bound s r s' -> cache_stocked s -> cache_stocked s'.
Proof.
  intros Hkey Hserved Hst c0 p0 e0 Hcur Hlook.
  rewrite (served_lookup _ _ _ _ _ _ _ Hserved (Hkey c0 p0)) in Hlook. by eapply Hst.
Qed.

Lemma hashtagify_stocked w category platform s :
  cache_stocked s ->
  cache_stocked (Fetcher.fetch_trending_from_hashtagify w category platform s).2.
Proof.
  intros Hst.
  destruct (served_returns _ _ _ _ _ _ (hashtagify_served w category platform s))
    as (tr & s' & -> & Hserved & _).
  eapply served_stocked; [|exact Hserved|done].
  intros c0 p0. apply webscrape_key_apart.
Qed.

Lemma ritetag_stocked w category platform s :
  cache_stocked s ->
  cache_stocked (Fetcher.fetch_trending_from_ritetag w category platform s).2.
Proof.
  intros Hst.
  destruct (served_returns _ _ _ _ _ _ (ritetag_served w category platform s))
    as (tr & s' & -> & Hserved & _).
  eapply served_stocked; [|exact Hserved|done].
  intros c0 p0. apply webscrape_key_apart.
Qed.

Lemma get_trending_stocked w category platform max_count s :
  cache_stocked s ->
  cache_stocked (Fetcher.get_trending_hashtags w category platform max_count s).2.
Proof.
  intros Hst.
  destruct (get_trending_decomposed w category platform max_count s)
    as (tr1 & tr2 & tr3 & s1 & s2 & s3 & E1 & E2 & E3 & ->).
  cbn [snd].
  pose proof (web_scraping_stocked w category platform s Hst) as H1.
  rewrite E1 in H1.
  pose proof (hashtagify_stocked w category platform s1 H1) as H2.
  rewrite E2 in H2.
  pose proof (ritetag_stocked w category platform s2 H2) as H3.
  by rewrite E3 in H3.
Qed.

Lemma stocked_cache s s' : cache s' = cache s -> cache_stocked s -> cache_stocked s'.
Proof. intros Hc Hst c0 p0 e0. rewrite Hc. apply Hst. Qed.

Lemma after_call_stocked w o s : cache_stocked s -> cache_stocked (after_call w o s).
Proof.
  intros Hst.
  destruct o as [c request|category platform max_count|category platform
                |category platform|category platform|category|category platform];
    cbn [after_call].
  - rewrite generate_state. by apply get_trending_stocked.
  - by apply get_trending_stocked.
  - by apply web_scraping_stocked.
  - by apply hashtagify_stocked.
  - by apply ritetag_stocked.
  - destruct (scrape_instagram_sends w category s) as [(n & (Hc & _) & _) _].
    by eapply stocked_cache.
  - destruct (scrape_trend_websites_sends w category platform s) as [(n & (Hc & _) & _) _].
    by eapply stocked_cache.
Qed.

Lemma after_calls_stocked w calls : cache_stocked (after_calls w calls initial_state).
Proof.
  assert (forall s, cache_stocked s -> cache_stocked (after_calls w calls s)) as H.
  { induction calls as [|o calls IH]; intros s Hst; [done|].
    simpl. by apply IH, after_call_stocked. }
  apply H. intros c0 p0 e0 _ He. cbn in He. by rewrite lookup_empty in He.
Qed.

Lemma cache_read_miss w key s :
  (Fetcher._get_from_cache w key s).1 = Ok None -> fresh_entry w key s = None.
Proof.
  rewrite get_from_cache_fresh.
  destruct (cache s !! key) eqn:He; [|intros _; by apply fresh_entry_absent].
  simpl. by destruct (fresh_entry w key s).
Qed.

(** C8 (amended): the curated provider never fails and returns one record
    per tag of the table's list for the category and the platform; where the
    table has a list for both -- every listed category, on Instagram and
    Facebook -- that is at least one record, and an aggregation asked for at
    least one record then succeeds with at least one, whatever the network
    does: in every state that calls on a fresh fetcher lead to, and in any
    state at all in which the read of the scrape cache misses, for want of an
    entry or because the entry has expired. *)
Theorem C8_curated_floor w category platform s :
  exists l s',
    Fetcher._get_category_trending_hashtags w category platform s = (Ok l, s')
    /\ hashtag <$> l = Fetcher.hashtags_list category platform
    /\ (in_curated_table category platform ->
        l <> []
        /\ ((Fetcher._get_from_cache w
               (Fetcher.cache_key "webscrape" category platform) s).1 = Ok None
            \/ (exists calls, s = after_calls w calls initial_state) ->
            forall max_count, 0 < max_count ->
              exists tr s'',
                Fetcher.get_trending_hashtags w category platform max_count s = (Ok tr, s'')
                /\ tr_success tr = true
                /\ tr_hashtags tr <> [])).
Proof.
  pose proof (get_category_spec w category platform s) as Hspec. unfold runs in Hspec.
  destruct (Fetcher._get_category_trending_hashtags w category platform s) as [r s'].
  simpl in Hspec. destruct Hspec as (_ & l & -> & Htags & _).
  exists l, s'. split; [done|]. split; [done|].
  intros Hcur. split.
  { intros ->. rewrite fmap_nil in Htags. by eapply curated_nonempty. }
  intros Hstate max_count Hmax.
  assert (cache_stocked s
          \/ fresh_entry w (Fetcher.cache_key "webscrape" category platform) s = None)
    as Hcase.
  { destruct Hstate as [Hmiss|[calls ->]].
    - right. by apply cache_read_miss.
    - left. apply after_calls_stocked. }
  destruct (get_trending_decomposed w category platform max_count s)
    as (tr1 & tr2 & tr3 & s1 & s2 & s3 & E1 & _ & _ & ->).
  pose proof (web_scraping_floor w category platform s tr1 s1 E1 Hcur Hcase) as Hne.
  eexists _, _. split; [reflexivity|].
  destruct (tr_hashtags tr1) as [|x pool]; [done|]. simpl. split; [done|].
  by apply slice_to_nonempty, remove_duplicates_nonempty.
Qed.

Lemma C8_curated_floor_witness :
  let s := after_calls Sample.hourly [GetTrending "food" "instagram" 8] initial_state in
  cache s !! Fetcher.cache_key "webscrape" "food" "instagram" <> None
  /\ (Fetcher._get_from_cache Sample.hourly
        (Fetcher.cache_key "webscrape" "food" "instagram") s).1 = Ok None
  /\ exists tr s'',
       Fetcher.get_trending_hashtags Sample.hourly "food" "instagram" 8 s = (Ok tr, s'')
       /\ tr_success tr = true
       /\ tr_hashtags tr <> [].
Proof.
  cbv zeta.
  assert ((Fetcher._get_from_cache Sample.hourly
             (Fetcher.cache_key "webscrape" "food" "instagram")
             (after_calls Sample.hourly [GetTrending "food" "instagram" 8] initial_state)).1
          = Ok None) as Hmiss by (by vm_compute).
  split; [by vm_compute|]. split; [exact Hmiss|].
  destruct (C8_curated_floor Sample.hourly "food" "instagram"
              (after_calls Sample.hourly [GetTrending "food" "instagram" 8] initial_state))
    as (l & s' & _ & _ & Hfloor).
  destruct Hfloor as [_ Hagg].
  { eexists. split; [apply list_elem_of_here|]. simpl. apply list_elem_of_here. }
  apply (Hagg (or_introl Hmiss) 8). lia.
Defined.
